(** * Board, move and history engine of the three board games of [app.py]

    A shallow embedding of the classes [ChessBoard], [ChessGame],
    [HexChessBoard], [HexChessGame], [CheckersPiece] and [CheckersBoard],
    followed by the properties of the engine that were checked against it.

    Conventions of the embedding.
    - A Python [int] is a [Z]; a Python list is a [list], indexed the way
      Python indexes it (negative indices count from the end, anything else
      out of range raises [IndexError]).
    - A method is a function in a small state-and-exception monad [M]: it
      takes the object's state and gives back either a result or a raised
      exception, together with the state at that moment.
    - Chess pieces are never written to after they are built, so they are
      plain values and [copy.deepcopy] of a chess grid is the grid itself.
      A checkers piece is mutated in place by [promote], so checkers pieces
      live in an object store and the grid holds their addresses;
      [copy.deepcopy] allocates fresh objects there.
    - The rows of a grid are built by one list comprehension and copied row
      by row, so no two rows are the same list object; a grid is therefore
      a list of lists by value. *)

From Stdlib Require Import ZArith Bool List String Ascii Lia DecimalString.
From stdpp Require Import base option list.
Import ListNotations.
Local Open Scope Z_scope.

(** ** Python lists *)

Module Py.

(** The position a Python index denotes in a list of [len] elements. *)
Definition index (len : nat) (i : Z) : option nat :=
  if (0 <=? i) && (i <? Z.of_nat len) then Some (Z.to_nat i)
  else if (- Z.of_nat len <=? i) && (i <? 0) then Some (Z.to_nat (Z.of_nat len + i))
  else None.

(** [l[i]]; [None] stands for [IndexError]. *)
Definition getitem {A} (l : list A) (i : Z) : option A :=
  k ← index (length l) i; l !! k.

(** [l[i] = v]; [None] stands for [IndexError]. *)
Definition setitem {A} (l : list A) (i : Z) (v : A) : option (list A) :=
  k ← index (length l) i; Some (<[k:=v]> l).

(** [g[x][y]] *)
Definition getitem2 {A} (g : list (list A)) (x y : Z) : option A :=
  row ← getitem g x; getitem row y.

(** [g[x][y] = v]: the row [g[x]] is fetched, then written in place. *)
Definition setitem2 {A} (g : list (list A)) (x y : Z) (v : A) : option (list (list A)) :=
  kx ← index (length g) x;
  row ← g !! kx;
  row' ← setitem row y v;
  Some (<[kx:=row']> g).

(** [l.pop()] on a non-empty list: the list without its last element, and
    that element. *)
Definition pop {A} (l : list A) : option (list A * A) :=
  match last l with
  | Some a => Some (removelast l, a)
  | None => None
  end.

(** Strings are sequences of ASCII characters (code points below 128),
    as typed at the console. *)

(** [ord(c)] *)
Definition ord (c : ascii) : Z := Z.of_nat (nat_of_ascii c).

(** [c.lower()] for one character. *)
Definition lower_char (c : ascii) : ascii :=
  if (ord "A" <=? ord c) && (ord c <=? ord "Z")
  then ascii_of_nat (nat_of_ascii c + 32) else c.

(** [s.lower()] *)
Fixpoint lower (s : string) : string :=
  match s with
  | EmptyString => EmptyString
  | String c s' => String (lower_char c) (lower s')
  end.

(** [s[i]] for a constant index [i >= 0]; [None] stands for
    [IndexError]. *)
Definition char_at (s : string) (i : nat) : option ascii := String.get i s.

(** [s[1:]] *)
Definition tail (s : string) : string :=
  match s with EmptyString => EmptyString | String _ s' => s' end.

(** White space as [int] strips it: tab, line feed, vertical tab, form
    feed, carriage return and the space. (The separators 28..31, which
    [str.strip] removes, are not among them: [int] raises [ValueError] on
    a string that holds one.) *)
Definition is_space (c : ascii) : bool :=
  ((9 <=? ord c) && (ord c <=? 13)) || (ord c =? 32).

Definition is_digit (c : ascii) : bool :=
  (ord "0" <=? ord c) && (ord c <=? ord "9").

Fixpoint lstrip (s : list ascii) : list ascii :=
  match s with
  | c :: s' => if is_space c then lstrip s' else s
  | [] => []
  end.

Definition strip (s : list ascii) : list ascii :=
  rev (lstrip (rev (lstrip s))).

(** The digits of a decimal literal: at least one digit, single
    underscores allowed between digits only. [after_digit] tells whether
    the previous character was a digit. *)
Fixpoint digits (acc : Z) (after_digit : bool) (s : list ascii) : option Z :=
  match s with
  | [] => if after_digit then Some acc else None
  | c :: s' =>
    if is_digit c then digits (10 * acc + (ord c - ord "0")) true s'
    else if Ascii.eqb c "_" then
      if after_digit then digits acc false s' else None
    else None
  end.

(** [int(s)] in base 10: surrounding white space is dropped, one sign is
    allowed; [None] stands for [ValueError]. (The interpreter's limit on
    the number of digits, a few thousand, is not modelled.) *)
Definition int (s : string) : option Z :=
  match strip (list_ascii_of_string s) with
  | c :: r =>
    if Ascii.eqb c "+" then digits 0 false r
    else if Ascii.eqb c "-" then Z.opp <$> digits 0 false r
    else digits 0 false (c :: r)
  | [] => None
  end.

(** What a call gives back when the function has no [return] statement,
    next to the booleans a caller could test for. *)
Inductive value := None_ | Bool (b : bool).

(** Truth value of a result, as [if result:] would see it. *)
Definition truth (v : value) : bool :=
  match v with None_ => false | Bool b => b end.

Inductive exn := IndexError | ValueError.

Inductive res (A : Type) := Ok (a : A) | Raise (e : exn).
Arguments Ok {A} a.
Arguments Raise {A} e.

(** Computations over a state [S] that may raise. *)
Definition M (S A : Type) : Type := S → res A * S.

Definition ret {S A} (a : A) : M S A := λ s, (Ok a, s).
Definition bind {S A B} (m : M S A) (k : A → M S B) : M S B :=
  λ s, match m s with
       | (Ok a, s') => k a s'
       | (Raise e, s') => (Raise e, s')
       end.
Definition raise {S A} (e : exn) : M S A := λ s, (Raise e, s).
Definition get {S} : M S S := λ s, (Ok s, s).
Definition modify {S} (f : S → S) : M S unit := λ s, (Ok tt, f s).

(** An [option] whose [None] is the given exception. *)
Definition orRaise {S A} (e : exn) (o : option A) : M S A :=
  match o with Some a => ret a | None => raise e end.

(** [try: m  except Exception: print(...)]: whatever [m] raised is caught;
    the writes [m] made before raising stay. *)
Definition try_except {S} (m : M S unit) : M S unit :=
  λ s, match m s with
       | (Ok _, s') => (Ok tt, s')
       | (Raise _, s') => (Ok tt, s')
       end.

End Py.

Notation "'do' x <- m ; k" := (Py.bind m (λ x, k))
  (at level 10, x name, m at level 100, k at level 200,
   format "'[v' 'do'  x  <-  m ; '/' k ']'").
Notation "'do_' m ; k" := (Py.bind m (λ _, k))
  (at level 10, m at level 100, k at level 200,
   format "'[v' 'do_'  m ; '/' k ']'").

(** ** Colours and chess pieces *)

(** The two strings ['white'] and ['black']. *)
Inductive Color := white | black.

Definition Color_eqb (a b : Color) : bool :=
  match a, b with white, white | black, black => true | _, _ => false end.

(** The subclasses of [ChessPiece]. *)
Inductive Kind := King | Queen | Rook | Bishop | Knight | Pawn.

Record ChessPiece := { kind : Kind; color : Color }.

(** The class attribute [symbol] of each subclass, looked up by colour. *)
Definition symbol (p : ChessPiece) : string :=
  match kind p, color p with
  | King, white => "K" | King, black => "k"
  | Queen, white => "Q" | Queen, black => "q"
  | Rook, white => "R" | Rook, black => "r"
  | Bishop, white => "B" | Bishop, black => "b"
  | Knight, white => "N" | Knight, black => "n"
  | Pawn, white => "P" | Pawn, black => "p"
  end%string.

(** A grid of cells, each empty ([None]) or holding a piece. *)
Abbreviation Grid P := (list (list (option P))) (only parsing).

(** [[[None] * n for _ in range(n)]] *)
Definition empty_grid {P} (n : nat) : Grid P := replicate n (replicate n None).

(** Number of occupied cells of a grid. *)
Definition count_pieces {P} (g : Grid P) : nat :=
  length (omap id (concat g)).

(** The pieces on a grid, row by row. *)
Definition pieces {P} (g : Grid P) : list P := omap id (concat g).

(** Cells by position: row [i], column [j], both counted from 0. *)
Definition cell {A} (g : list (list A)) (i j : nat) : option A :=
  row ← g !! i; row !! j.

Definition set_cell {A} (g : list (list A)) (i j : nat) (v : A) : list (list A) :=
  alter (λ row, <[j:=v]> row) i g.

(** The position the Python index pair [x], [y] denotes in [g], when
    [g[x][y]] does not raise. *)
Definition locate {A} (g : list (list A)) (x y : Z) : option (nat * nat) :=
  i ← Py.index (length g) x;
  row ← g !! i;
  j ← Py.index (length row) y;
  Some (i, j).

(** 1 for an occupied cell, 0 for an empty one. *)
Definition occupied {P} (c : option P) : nat :=
  match c with Some _ => 1 | None => 0 end.

(** ** Classic chess and hexagonal chess boards

    [ChessBoard] and [HexChessBoard] have the same two fields and, apart
    from the initial layout, the same method bodies; their state is the
    record [BoardState.t]. *)

(** Which branch of [move_piece] ran: [Applied] is the branch that moves
    the piece, [Rejected] the [else] branch, which prints the refusal.
    (The Python method itself returns nothing in either case.) *)
Inductive MoveOutcome := Applied | Rejected.

Definition piece_order : list Kind :=
  [Rook; Knight; Bishop; Queen; King; Bishop; Knight; Rook].

(** Write [v] at [g[x][y]] while a board is being built. *)
Definition place {P} (x y : Z) (v : P) (g : option (Grid P)) : option (Grid P) :=
  g ≫= λ g, Py.setitem2 g x y (Some v).

Module BoardState.

Record t := { board : Grid ChessPiece; move_history : list (Grid ChessPiece) }.

(** [self.board[x][y]] *)
Definition read_cell (x y : Z) : Py.M t (option ChessPiece) :=
  do self <- Py.get;
  Py.orRaise Py.IndexError (Py.getitem2 (board self) x y).

(** [self.board[x][y] = v] *)
Definition write_cell (x y : Z) (v : option ChessPiece) : Py.M t unit :=
  do self <- Py.get;
  do b <- Py.orRaise Py.IndexError (Py.setitem2 (board self) x y v);
  Py.modify (λ s, {| board := b; move_history := move_history s |}).

(** [self.move_history.append(copy.deepcopy(self.board))]: chess pieces
    are immutable values, the deep copy of the grid is the grid. *)
Definition push_snapshot : Py.M t unit :=
  Py.modify (λ s, {| board := board s; move_history := move_history s ++ [board s] |}).

(** [if self.move_history: self.board = self.move_history.pop()] *)
Definition restore_snapshot : Py.M t unit :=
  do self <- Py.get;
  match Py.pop (move_history self) with
  | Some (h, g) => Py.modify (λ _, {| board := g; move_history := h |})
  | None => Py.ret tt
  end.

End BoardState.

(** In [if piece and self.is_valid_move(...)] a piece object counts as
    true (the piece classes define neither [__bool__] nor [__len__]) and
    [None] as false, in which case [is_valid_move] is not called. *)

Module ChessBoard.
Import BoardState.

(** The loop body of [create_initial_board] for column [i]. *)
Definition fill_column (g : option (Grid ChessPiece)) (i : nat) : option (Grid ChessPiece) :=
  k ← piece_order !! i;
  let i := Z.of_nat i in
  place 6 i {| kind := Pawn; color := white |}
    (place 1 i {| kind := Pawn; color := black |}
      (place 7 i {| kind := k; color := white |}
        (place 0 i {| kind := k; color := black |} g))).

Definition create_initial_board : option (Grid ChessPiece) :=
  foldl fill_column (Some (empty_grid 8)) (seq 0 8).

(** [__init__]; the construction never fails (see [chess_initial_board]). *)
Definition init : t :=
  {| board := default [] create_initial_board; move_history := [] |}.

Definition is_valid_move (self : t) (piece : ChessPiece) (start end_ : Z * Z) : bool :=
  true.

Definition move_piece (start end_ : Z * Z) : Py.M t MoveOutcome :=
  let '(x1, y1) := start in
  let '(x2, y2) := end_ in
  do piece <- read_cell x1 y1;
  do self <- Py.get;
  match piece with
  | Some p =>
    if is_valid_move self p start end_ then
      do_ push_snapshot;
      do_ write_cell x2 y2 (Some p);
      do_ write_cell x1 y1 None;
      Py.ret Applied
    else Py.ret Rejected
  | None => Py.ret Rejected
  end.

(** The method has no [return]: the caller receives [None]. *)
Definition undo_move : Py.M t Py.value :=
  do_ restore_snapshot;
  Py.ret Py.None_.

End ChessBoard.

Module HexChessBoard.
Import BoardState.

(** The loop body of [create_initial_board] for [i]. *)
Definition fill_column (g : option (Grid ChessPiece)) (i : nat) : option (Grid ChessPiece) :=
  k ← piece_order !! i;
  let i := Z.of_nat i in
  place 9 (i + 2) {| kind := Pawn; color := white |}
    (place 1 (i + 2) {| kind := Pawn; color := black |}
      (place 10 (i + 2) {| kind := k; color := white |}
        (place 0 (i + 2) {| kind := k; color := black |} g))).

Definition create_initial_board : option (Grid ChessPiece) :=
  foldl fill_column (Some (empty_grid 11)) (seq 0 8).

Definition init : t :=
  {| board := default [] create_initial_board; move_history := [] |}.

Definition is_valid_move (self : t) (piece : ChessPiece) (start end_ : Z * Z) : bool :=
  true.

Definition move_piece (start end_ : Z * Z) : Py.M t MoveOutcome :=
  let '(x1, y1) := start in
  let '(x2, y2) := end_ in
  do piece <- read_cell x1 y1;
  do self <- Py.get;
  match piece with
  | Some p =>
    if is_valid_move self p start end_ then
      do_ push_snapshot;
      do_ write_cell x2 y2 (Some p);
      do_ write_cell x1 y1 None;
      Py.ret Applied
    else Py.ret Rejected
  | None => Py.ret Rejected
  end.

(** The method has no [return]: the caller receives [None]. *)
Definition undo_move : Py.M t Py.value :=
  do_ restore_snapshot;
  Py.ret Py.None_.

End HexChessBoard.

(** ** Game sessions of chess and hexagonal chess

    One pass through the body of the [while True] loop of [play] is
    [play_step], given the two lines [input] returned; what the loop prints
    is left out. [play] runs the loop over the lines typed so far. *)

Module ChessGame.

Record t := { board : BoardState.t; turn : Color; move_count : Z }.

Definition init : t :=
  {| board := ChessBoard.init; turn := white; move_count := 0 |}.

(** A method call on [self.board]. *)
Definition on_board {A} (m : Py.M BoardState.t A) : Py.M t A :=
  λ g, let '(r, b) := m (board g) in
       (r, {| board := b; turn := turn g; move_count := move_count g |}).

Definition switch_turn : Py.M t unit :=
  Py.modify (λ g, {| board := board g;
                     turn := if Color_eqb (turn g) white then black else white;
                     move_count := move_count g |}).

(** [8 - int(s[1]), ord(s[0].lower()) - ord('a')] *)
Definition coords (s : string) : Py.M t (Z * Z) :=
  do d <- Py.orRaise Py.IndexError (Py.char_at s 1);
  do n <- Py.orRaise Py.ValueError (Py.int (String d EmptyString));
  do c <- Py.orRaise Py.IndexError (Py.char_at s 0);
  Py.ret (8 - n, Py.ord (Py.lower_char c) - Py.ord "a").

Definition play_step (start end_ : string) : Py.M t unit :=
  if String.eqb (Py.lower start) "undo" || String.eqb (Py.lower end_) "undo" then
    do_ on_board ChessBoard.undo_move;
    switch_turn
  else
    Py.try_except (
      do s <- coords start;
      do e <- coords end_;
      do_ on_board (ChessBoard.move_piece s e);
      do_ switch_turn;
      Py.modify (λ g, {| board := board g; turn := turn g;
                         move_count := move_count g + 1 |})).

Fixpoint play (inputs : list (string * string)) : Py.M t unit :=
  match inputs with
  | [] => Py.ret tt
  | (start, end_) :: rest => do_ play_step start end_; play rest
  end.

End ChessGame.

Module HexChessGame.

Record t := { board : BoardState.t; players : list Color;
              turn_index : Z; move_count : Z }.

Definition init : t :=
  {| board := HexChessBoard.init; players := [white; black];
     turn_index := 0; move_count := 0 |}.

Definition on_board {A} (m : Py.M BoardState.t A) : Py.M t A :=
  λ g, let '(r, b) := m (board g) in
       (r, {| board := b; players := players g; turn_index := turn_index g;
              move_count := move_count g |}).

Definition switch_turn : Py.M t unit :=
  Py.modify (λ g, {| board := board g; players := players g;
                     turn_index := (turn_index g + 1) mod 2;
                     move_count := move_count g |}).

Definition convert_to_coords (position : string) : Py.M t (Z * Z) :=
  do c <- Py.orRaise Py.IndexError (Py.char_at position 0);
  let col := Py.ord (Py.lower_char c) - Py.ord "a" + 1 in
  do n <- Py.orRaise Py.ValueError (Py.int (Py.tail position));
  let row := 11 - n in
  Py.ret (row, col).

Definition play_step (start end_ : string) : Py.M t unit :=
  do g <- Py.get;
  do current_player <- Py.orRaise Py.IndexError (Py.getitem (players g) (turn_index g));
  if String.eqb (Py.lower start) "undo" || String.eqb (Py.lower end_) "undo" then
    do_ on_board HexChessBoard.undo_move;
    switch_turn
  else
    Py.try_except (
      do s <- convert_to_coords start;
      do e <- convert_to_coords end_;
      do_ on_board (HexChessBoard.move_piece s e);
      do_ switch_turn;
      Py.modify (λ g, {| board := board g; players := players g;
                         turn_index := turn_index g;
                         move_count := move_count g + 1 |})).

Fixpoint play (inputs : list (string * string)) : Py.M t unit :=
  match inputs with
  | [] => Py.ret tt
  | (start, end_) :: rest => do_ play_step start end_; play rest
  end.

End HexChessGame.

(** ** Checkers

    A checkers piece is a mutable object: [promote] writes its [is_king]
    attribute in place. Pieces therefore live in an object store, a cell of
    the grid holds the address of its piece, and two cells holding the same
    address hold the same object. *)

Module CheckersPiece.

Record t := { color : Color; is_king : bool }.

(** [CheckersPiece(color)], with [is_king=False] by default. *)
Definition new (c : Color) : t := {| color := c; is_king := false |}.

(** The effect of [promote] on the attributes of the object. *)
Definition promote (p : t) : t := {| color := color p; is_king := true |}.

(** [__str__] *)
Definition str (p : t) : string :=
  if is_king p then (if Color_eqb (color p) black then "B" else "W")
  else (if Color_eqb (color p) black then "b" else "w").

End CheckersPiece.

(** The object store: [objs a] are the attributes of the object at address
    [a]; the addresses below [next] are the objects created so far, and a
    new object takes the address [next]. *)
Module Store.

Record t := { objs : nat → CheckersPiece.t; next : nat }.

Definition empty : t :=
  {| objs := λ _, CheckersPiece.new white; next := 0 |}.

Definition write (a : nat) (p : CheckersPiece.t) (h : t) : t :=
  {| objs := λ i, if Nat.eqb i a then p else objs h i; next := next h |}.

(** A new object with attributes [p]; its address and the store with it. *)
Definition alloc (p : CheckersPiece.t) (h : t) : nat * t :=
  (next h, {| objs := λ i, if Nat.eqb i (next h) then p else objs h i;
              next := S (next h) |}).

(** [copy.deepcopy] keeps a memo from the objects it has copied to their
    copies, so an object met twice is copied once. *)
Definition memo := list (nat * nat).

Fixpoint memo_find (a : nat) (m : memo) : option nat :=
  match m with
  | [] => None
  | (k, v) :: m' => if Nat.eqb k a then Some v else memo_find a m'
  end.

(** Deep copy of one cell: [None] is returned as it is, a piece becomes
    a new object with the same attributes. *)
Definition copy_cell (c : option nat) (st : t * memo) : option nat * (t * memo) :=
  match c with
  | None => (None, st)
  | Some a =>
    match memo_find a (snd st) with
    | Some a' => (Some a', st)
    | None =>
      let '(a', h') := alloc (objs (fst st) a) (fst st) in
      (Some a', (h', (a, a') :: snd st))
    end
  end.

Fixpoint copy_row (row : list (option nat)) (st : t * memo) : list (option nat) * (t * memo) :=
  match row with
  | [] => ([], st)
  | c :: row' =>
    let '(c', st1) := copy_cell c st in
    let '(r', st2) := copy_row row' st1 in
    (c' :: r', st2)
  end.

Fixpoint copy_grid (g : Grid nat) (st : t * memo) : Grid nat * (t * memo) :=
  match g with
  | [] => ([], st)
  | row :: g' =>
    let '(row', st1) := copy_row row st in
    let '(g'', st2) := copy_grid g' st1 in
    (row' :: g'', st2)
  end.

(** [copy.deepcopy(g)] *)
Definition deepcopy (g : Grid nat) (h : t) : Grid nat * t :=
  let '(g', (h', _)) := copy_grid g (h, []) in (g', h').

End Store.

Module CheckersBoard.

(** The board object together with the store its pieces live in. *)
Record t := { heap : Store.t; board : Grid nat; move_history : list (Grid nat) }.

(** What the grid shows: the attributes of the piece in each cell. *)
Definition view (h : Store.t) (g : Grid nat) : Grid CheckersPiece.t :=
  map (map (fmap (Store.objs h))) g.

(** The body of the inner loop of [create_initial_board]:
    [if (i + j) % 2 == 1: board[i][j] = CheckersPiece(c)]. *)
Definition fill_cell (c : Color) (i : nat) (st : Store.t * option (Grid nat)) (j : nat)
  : Store.t * option (Grid nat) :=
  if (Z.of_nat i + Z.of_nat j) mod 2 =? 1 then
    let '(a, h) := Store.alloc (CheckersPiece.new c) (fst st) in
    (h, place (Z.of_nat i) (Z.of_nat j) a (snd st))
  else st.

Definition fill_row (c : Color) (st : Store.t * option (Grid nat)) (i : nat)
  : Store.t * option (Grid nat) :=
  foldl (fill_cell c i) st (seq 0 8).

Definition create_initial_board (h : Store.t) : Store.t * option (Grid nat) :=
  let st := (h, Some (empty_grid 8)) in
  let st := foldl (fill_row black) st (seq 0 3) in
  foldl (fill_row white) st (seq 5 3).

(** [__init__], in a store [h]. *)
Definition init_in (h : Store.t) : t :=
  let '(h', g) := create_initial_board h in
  {| heap := h'; board := default [] g; move_history := [] |}.

Definition init : t := init_in Store.empty.

(** [self.board[x][y]] *)
Definition read_cell (x y : Z) : Py.M t (option nat) :=
  do self <- Py.get;
  Py.orRaise Py.IndexError (Py.getitem2 (board self) x y).

(** [self.board[x][y] = v] *)
Definition write_cell (x y : Z) (v : option nat) : Py.M t unit :=
  do self <- Py.get;
  do b <- Py.orRaise Py.IndexError (Py.setitem2 (board self) x y v);
  Py.modify (λ s, {| heap := heap s; board := b; move_history := move_history s |}).

(** The attributes of the object at address [a]. *)
Definition load (a : nat) : Py.M t CheckersPiece.t :=
  do self <- Py.get;
  Py.ret (Store.objs (heap self) a).

(** [piece.promote()] on the object at address [a]. *)
Definition promote (a : nat) : Py.M t unit :=
  Py.modify (λ s, {| heap := Store.write a (CheckersPiece.promote (Store.objs (heap s) a)) (heap s);
                     board := board s; move_history := move_history s |}).

(** [self.move_history.append(copy.deepcopy(self.board))] *)
Definition push_snapshot : Py.M t unit :=
  Py.modify (λ s, let '(g, h) := Store.deepcopy (board s) (heap s) in
                  {| heap := h; board := board s;
                     move_history := move_history s ++ [g] |}).

Definition is_valid_move (piece : nat) (start end_ : Z * Z) : Py.M t bool :=
  let '(x1, y1) := start in
  let '(x2, y2) := end_ in
  let dx := x2 - x1 in
  let dy := y2 - y1 in
  do dest <- read_cell x2 y2;
  match dest with
  | Some _ => Py.ret false
  | None =>
    do p <- load piece;
    if CheckersPiece.is_king p then
      Py.ret ((Z.abs dx =? Z.abs dy) && ((Z.abs dy =? 1) || (Z.abs dy =? 2)))
    else
      let direction := if Color_eqb (CheckersPiece.color p) white then -1 else 1 in
      if (dx =? direction) && (Z.abs dy =? 1) then Py.ret true
      else if (dx =? 2 * direction) && (Z.abs dy =? 2) then
        let mid_x := (x1 + x2) / 2 in
        let mid_y := (y1 + y2) / 2 in
        do m <- read_cell mid_x mid_y;
        match m with
        | Some q =>
          do pq <- load q;
          if negb (Color_eqb (CheckersPiece.color pq) (CheckersPiece.color p)) then
            do_ write_cell mid_x mid_y None;
            Py.ret true
          else Py.ret false
        | None => Py.ret false
        end
      else Py.ret false
  end.

Definition move_piece (start end_ : Z * Z) : Py.M t MoveOutcome :=
  let '(x1, y1) := start in
  let '(x2, y2) := end_ in
  do piece <- read_cell x1 y1;
  match piece with
  | Some a =>
    do ok <- is_valid_move a start end_;
    if ok then
      do_ push_snapshot;
      do_ write_cell x2 y2 (Some a);
      do_ write_cell x1 y1 None;
      do p <- load a;
      do_ (if (Color_eqb (CheckersPiece.color p) white && (x2 =? 0))
              || (Color_eqb (CheckersPiece.color p) black && (x2 =? 7))
           then promote a else Py.ret tt);
      Py.ret Applied
    else Py.ret Rejected
  | None => Py.ret Rejected
  end.

(** The method has no [return]: the caller receives [None]. *)
Definition undo_move : Py.M t Py.value :=
  do self <- Py.get;
  do_ match Py.pop (move_history self) with
      | Some (h, g) =>
        Py.modify (λ s, {| heap := heap s; board := g; move_history := h |})
      | None => Py.ret tt
      end;
  Py.ret Py.None_.

End CheckersBoard.

(** ** The checkers rules, read off [is_valid_move] and [move_piece]

    The three ways [is_valid_move] answers [True] for the piece at address
    [a], as a relation between the board before the call and the grid the
    call leaves behind; and the state [move_piece] builds from that grid. *)

Module CheckersRules.
Import CheckersBoard.

(** [direction] in [is_valid_move]. *)
Definition direction (c : Color) : Z := if Color_eqb c white then -1 else 1.

Inductive Accepts (w : t) (a : nat) (x1 y1 x2 y2 : Z) : Grid nat → Prop :=
| accepts_king :
    CheckersPiece.is_king (Store.objs (heap w) a) = true →
    Z.abs (x2 - x1) = Z.abs (y2 - y1) →
    Z.abs (y2 - y1) = 1 ∨ Z.abs (y2 - y1) = 2 →
    Accepts w a x1 y1 x2 y2 (board w)
| accepts_step :
    CheckersPiece.is_king (Store.objs (heap w) a) = false →
    x2 - x1 = direction (CheckersPiece.color (Store.objs (heap w) a)) →
    Z.abs (y2 - y1) = 1 →
    Accepts w a x1 y1 x2 y2 (board w)
| accepts_jump mi mj q :
    CheckersPiece.is_king (Store.objs (heap w) a) = false →
    x2 - x1 = 2 * direction (CheckersPiece.color (Store.objs (heap w) a)) →
    Z.abs (y2 - y1) = 2 →
    locate (board w) ((x1 + x2) / 2) ((y1 + y2) / 2) = Some (mi, mj) →
    cell (board w) mi mj = Some (Some q) →
    CheckersPiece.color (Store.objs (heap w) q)
      ≠ CheckersPiece.color (Store.objs (heap w) a) →
    Accepts w a x1 y1 x2 y2 (set_cell (board w) mi mj None).

Definition with_board (w : t) (b : Grid nat) : t :=
  {| heap := heap w; board := b; move_history := move_history w |}.

(** The test before [piece.promote()]. *)
Definition last_rank (c : Color) (x2 : Z) : bool :=
  (Color_eqb c white && (x2 =? 0)) || (Color_eqb c black && (x2 =? 7)).

(** The state after the [if] branch of [move_piece], for the piece [a]
    going from position [(i1, j1)] to position [(i2, j2)] of the grid
    [b] that validation left. *)
Definition landed (w : t) (a : nat) (b : Grid nat) (i1 j1 i2 j2 : nat) (x2 : Z) : t :=
  let '(g, h) := Store.deepcopy b (heap w) in
  {| heap := if last_rank (CheckersPiece.color (Store.objs h a)) x2
             then Store.write a (CheckersPiece.promote (Store.objs h a)) h
             else h;
     board := set_cell (set_cell b i2 j2 (Some a)) i1 j1 None;
     move_history := move_history w ++ [g] |}.

(** Every object of [h] is still there, unchanged, in [h']. *)
Definition extends (h h' : Store.t) : Prop :=
  (Store.next h ≤ Store.next h')%nat ∧
  ∀ a, (a < Store.next h)%nat → Store.objs h' a = Store.objs h a.

(** Every address in the cells [l] is that of an object of the store. *)
Definition allocated (h : Store.t) (l : list (option nat)) : Prop :=
  Forall (λ c, ∀ a, c = Some a → (a < Store.next h)%nat) l.

(** A board whose grid and snapshots hold addresses of objects of its
    store only; the boards [__init__] and the methods build are such. *)
Definition wf (w : CheckersBoard.t) : Prop :=
  Forall (allocated (CheckersBoard.heap w)) (CheckersBoard.board w)
  ∧ Forall (Forall (allocated (CheckersBoard.heap w))) (CheckersBoard.move_history w).

(** The cell [c'] is a copy of the cell [c]: it shows in [h'] what [c]
    showed in [h0], and its object, if any, was created after [h0]. *)
Definition copies (h0 h' : Store.t) (c c' : option nat) : Prop :=
  Store.objs h' <$> c' = Store.objs h0 <$> c
  ∧ ∀ a', c' = Some a' → (Store.next h0 ≤ a' < Store.next h')%nat.

(** The state of a deep copy under way: the store has grown from [h0], and
    the memo sends copied objects to their copies. *)
Definition copying (h0 : Store.t) (st : Store.t * Store.memo) : Prop :=
  extends h0 st.1
  ∧ ∀ k v, Store.memo_find k st.2 = Some v →
           (Store.next h0 ≤ v < Store.next st.1)%nat
           ∧ Store.objs st.1 v = Store.objs h0 k.

End CheckersRules.

(** ** Positions used as test inputs *)

Module Scenario.

(** A checkers board with the pieces [ps] (address of the piece in the
    store [h], row, column) on an otherwise empty 8 by 8 grid. *)
Definition checkers (h : Store.t) (ps : list (nat * Z * Z)) : CheckersBoard.t :=
  {| CheckersBoard.heap := h;
     CheckersBoard.board :=
       default [] (foldl (λ g '(a, x, y), place x y a g) (Some (empty_grid 8)) ps);
     CheckersBoard.move_history := [] |}.

(** Two objects: a white piece at address 0, a black piece at address 1. *)
Definition two_pieces : Store.t :=
  (Store.alloc (CheckersPiece.new black)
     (Store.alloc (CheckersPiece.new white) Store.empty).2).2.

(** The white piece on (5,2), the black piece on (4,3), (3,4) empty. *)
Definition jump : CheckersBoard.t := checkers two_pieces [(0%nat, 5, 2); (1%nat, 4, 3)].

(** The white piece on (1,2), one step from its last rank; the black piece
    on (6,5), one step from its own. *)
Definition before_last_rank : CheckersBoard.t :=
  checkers two_pieces [(0%nat, 1, 2); (1%nat, 6, 5)].

(** A white king at address 0 on (4,3), with a black piece next to it on
    (3,4). *)
Definition king : CheckersBoard.t :=
  checkers (Store.write 0 (CheckersPiece.promote (CheckersPiece.new white)) two_pieces)
           [(0%nat, 4, 3); (1%nat, 3, 4)].

(** The initial checkers board after white's (5,2) to (4,3) and black's
    (2,5) to (3,4): the white piece can now jump over the black one. *)
Definition opening : CheckersBoard.t :=
  (CheckersBoard.move_piece (2, 5) (3, 4)
     (CheckersBoard.move_piece (5, 2) (4, 3) CheckersBoard.init).2).2.

End Scenario.

(** ** Printing the boards

    [display] prints the board line by line; its model gives the lines it
    printed and, when reading a cell raised, the exception after the lines
    printed so far. *)

Module PyStr.

(** [str(n)] for an integer. *)
Definition str_int (z : Z) : string := NilZero.string_of_int (Z.to_int z).

Fixpoint spaces (n : nat) : string :=
  match n with O => EmptyString | S n' => String " " (spaces n') end.

(** [s.rjust(w)] *)
Definition rjust (w : nat) (s : string) : string :=
  (spaces (w - String.length s) ++ s)%string.

(** [range(n)] *)
Definition range (n : nat) : list Z := Z.of_nat <$> seq 0 n.

End PyStr.

Module Display.

(** [str(c) if c else '.'] for the content [c] of a cell. *)
Definition cell_text {P} (str : P → string) (c : option P) : string :=
  match c with Some p => str p | None => "." end.

(** The part of a line the inner loop builds for row [i]:
    [(str(board[i][j]) if board[i][j] else '.') + ' '] for each [j] of
    [js]; [None] stands for [IndexError]. *)
Fixpoint cells_text {P} (str : P → string) (g : Grid P) (i : Z) (js : list Z)
  : option string :=
  match js with
  | [] => Some EmptyString
  | j :: js' =>
    c ← Py.getitem2 g i j;
    rest ← cells_text str g i js';
    Some ((cell_text str c ++ " " ++ rest)%string)
  end.

(** The outer loop: the lines printed for the rows [rows], until one of
    them raises. *)
Fixpoint print_rows (line : Z → option string) (rows : list Z)
  : list string * Py.res unit :=
  match rows with
  | [] => ([], Py.Ok tt)
  | i :: rows' =>
    match line i with
    | None => ([], Py.Raise Py.IndexError)
    | Some l => let '(ls, r) := print_rows line rows' in (l :: ls, r)
    end
  end.

(** A display with the lines [top] before the rows and [bottom] after. *)
Definition framed (top bottom : list string) (body : list string * Py.res unit)
  : list string * Py.res unit :=
  match body with
  | (rows, Py.Ok _) => (top ++ rows ++ bottom, Py.Ok tt)
  | (rows, Py.Raise e) => (top ++ rows, Py.Raise e)
  end.

Definition chess_header : string := "  A B C D E F G H".
Definition chess_rule : string := "  ----------------".

(** [row = str(8 - i) + " "], the cells, [print(row + str(8 - i))]. *)
Definition chess_line (g : Grid ChessPiece) (i : Z) : option string :=
  cells ← cells_text symbol g i (PyStr.range 8);
  Some ((PyStr.str_int (8 - i) ++ " " ++ cells ++ PyStr.str_int (8 - i))%string).

(** [ChessBoard.display] *)
Definition ChessBoard_display (self : BoardState.t) : list string * Py.res unit :=
  framed [chess_header; chess_rule] [chess_rule; chess_header]
         (print_rows (chess_line (BoardState.board self)) (PyStr.range 8)).

Definition hex_header : string := "    A B C D E F G H I J K".

(** [row = str(11 - i).rjust(2) + " "], the cells,
    [print(row + str(11 - i).rjust(2))]. *)
Definition hex_line (g : Grid ChessPiece) (i : Z) : option string :=
  cells ← cells_text symbol g i (PyStr.range 11);
  Some ((PyStr.rjust 2 (PyStr.str_int (11 - i)) ++ " " ++ cells
         ++ PyStr.rjust 2 (PyStr.str_int (11 - i)))%string).

(** [HexChessBoard.display] *)
Definition HexChessBoard_display (self : BoardState.t) : list string * Py.res unit :=
  framed [hex_header] [hex_header]
         (print_rows (hex_line (BoardState.board self)) (PyStr.range 11)).

(** The checkers board prints the same header as the chess board and no
    rules; a cell shows [CheckersPiece.__str__] of its object. *)
Definition checkers_line (h : Store.t) (g : Grid nat) (i : Z) : option string :=
  cells ← cells_text (λ a, CheckersPiece.str (Store.objs h a)) g i (PyStr.range 8);
  Some ((PyStr.str_int (8 - i) ++ " " ++ cells ++ PyStr.str_int (8 - i))%string).

(** [CheckersBoard.display] *)
Definition CheckersBoard_display (self : CheckersBoard.t) : list string * Py.res unit :=
  framed [chess_header] [chess_header]
         (print_rows (checkers_line (CheckersBoard.heap self) (CheckersBoard.board self))
                     (PyStr.range 8)).

End Display.

(** ** The checkers session *)

Module CheckersGame.

Record t := { board : CheckersBoard.t; players : list Color; turn_index : Z }.

Definition init : t :=
  {| board := CheckersBoard.init; players := [white; black]; turn_index := 0 |}.

Definition on_board {A} (m : Py.M CheckersBoard.t A) : Py.M t A :=
  λ g, let '(r, b) := m (board g) in
       (r, {| board := b; players := players g; turn_index := turn_index g |}).

Definition switch_turn : Py.M t unit :=
  Py.modify (λ g, {| board := board g; players := players g;
                     turn_index := (turn_index g + 1) mod 2 |}).

Definition convert_to_coords (position : string) : Py.M t (Z * Z) :=
  do c <- Py.orRaise Py.IndexError (Py.char_at position 0);
  let col := Py.ord (Py.lower_char c) - Py.ord "a" in
  do d <- Py.orRaise Py.IndexError (Py.char_at position 1);
  do n <- Py.orRaise Py.ValueError (Py.int (String d EmptyString));
  let row := 8 - n in
  Py.ret (row, col).

Definition play_step (start end_ : string) : Py.M t unit :=
  do g <- Py.get;
  do current_player <- Py.orRaise Py.IndexError (Py.getitem (players g) (turn_index g));
  if String.eqb (Py.lower start) "undo" || String.eqb (Py.lower end_) "undo" then
    do_ on_board CheckersBoard.undo_move;
    switch_turn
  else
    Py.try_except (
      do s <- convert_to_coords start;
      do e <- convert_to_coords end_;
      do_ on_board (CheckersBoard.move_piece s e);
      switch_turn).

Fixpoint play (inputs : list (string * string)) : Py.M t unit :=
  match inputs with
  | [] => Py.ret tt
  | (start, end_) :: rest => do_ play_step start end_; play rest
  end.

End CheckersGame.

(** ** The loop of [play], with its display and its input

    [play] is a [while True] loop with no [break] and no [return]: it is
    left only by an exception. Each pass begins with
    [self.board.display()] and two calls of [input], all before the [try]:
    an exception raised there ends the loop, and [input] raises [EOFError]
    when the standard input has no line left. The model runs the loop on
    the lines of the standard input and gives the way the loop is left
    with the state of the session then. Writing to the standard output is
    taken to succeed, and the lines printed are dropped; an interrupt from
    the keyboard is not an event of the model. *)

Module Loop.

(** How the loop is left. *)
Inductive exit := EOFError | Uncaught (e : Py.exn).

(** A call of [display]: its result, the board as it was. *)
Definition printing {S} (display : S → list string * Py.res unit) : Py.M S unit :=
  λ s, ((display s).2, s).

(** [ChessGame.play]: the display, the two lines, then the rest of the
    body. *)
Fixpoint chess (lines : list string) (g : ChessGame.t) : exit * ChessGame.t :=
  match ChessGame.on_board (printing Display.ChessBoard_display) g with
  | (Py.Raise e, g1) => (Uncaught e, g1)
  | (Py.Ok _, g1) =>
    match lines with
    | start :: end_ :: rest =>
      match ChessGame.play_step start end_ g1 with
      | (Py.Raise e, g2) => (Uncaught e, g2)
      | (Py.Ok _, g2) => chess rest g2
      end
    | _ => (EOFError, g1)
    end
  end.

(** [HexChessGame.play]: the display, [self.players[self.turn_index]],
    the two lines, then the rest of the body. *)
Fixpoint hex (lines : list string) (g : HexChessGame.t) : exit * HexChessGame.t :=
  match HexChessGame.on_board (printing Display.HexChessBoard_display) g with
  | (Py.Raise e, g1) => (Uncaught e, g1)
  | (Py.Ok _, g1) =>
    match Py.getitem (HexChessGame.players g1) (HexChessGame.turn_index g1) with
    | None => (Uncaught Py.IndexError, g1)
    | Some current_player =>
      match lines with
      | start :: end_ :: rest =>
        match HexChessGame.play_step start end_ g1 with
        | (Py.Raise e, g2) => (Uncaught e, g2)
        | (Py.Ok _, g2) => hex rest g2
        end
      | _ => (EOFError, g1)
      end
    end
  end.

(** [CheckersGame.play], in the same order. *)
Fixpoint checkers (lines : list string) (g : CheckersGame.t) : exit * CheckersGame.t :=
  match CheckersGame.on_board (printing Display.CheckersBoard_display) g with
  | (Py.Raise e, g1) => (Uncaught e, g1)
  | (Py.Ok _, g1) =>
    match Py.getitem (CheckersGame.players g1) (CheckersGame.turn_index g1) with
    | None => (Uncaught Py.IndexError, g1)
    | Some current_player =>
      match lines with
      | start :: end_ :: rest =>
        match CheckersGame.play_step start end_ g1 with
        | (Py.Raise e, g2) => (Uncaught e, g2)
        | (Py.Ok _, g2) => checkers rest g2
        end
      | _ => (EOFError, g1)
      end
    end
  end.

(** The lines two by two, as the passes of the loop read them; a last
    line without a second one starts no pass. *)
Fixpoint pairs (lines : list string) : list (string * string) :=
  match lines with
  | start :: end_ :: rest => (start, end_) :: pairs rest
  | _ => []
  end.

End Loop.

(** ** Invariants of the boards *)

(** An [n] by [n] grid. *)
Definition square {A} (n : nat) (g : list (list A)) : Prop :=
  length g = n ∧ Forall (λ row, length row = n) g.

(** A chess or hex-chess board whose grid and snapshots are [n] by [n]. *)
Definition chess_shaped (n : nat) (st : BoardState.t) : Prop :=
  square n (BoardState.board st) ∧ Forall (square n) (BoardState.move_history st).

(** The same for a checkers board. *)
Definition checkers_shaped (n : nat) (w : CheckersBoard.t) : Prop :=
  square n (CheckersBoard.board w) ∧ Forall (square n) (CheckersBoard.move_history w).

(** Every piece of the grid stands on a cell whose row and column numbers
    add up to an odd number, as [create_initial_board] places them
    ([(i + j) % 2 == 1]). *)
Definition on_dark_cells {A} (g : Grid A) : Prop :=
  ∀ i j a, cell g i j = Some (Some a) → (Z.of_nat i + Z.of_nat j) mod 2 = 1.

(** A checkers board, 8 by 8 with its snapshots, whose pieces, on the grid
    and in the snapshots, are all on such cells. *)
Definition checkers_on_dark_cells (w : CheckersBoard.t) : Prop :=
  checkers_shaped 8 w
  ∧ on_dark_cells (CheckersBoard.board w)
  ∧ Forall on_dark_cells (CheckersBoard.move_history w).

(** A deep copy has a piece exactly where the grid has one. *)
Definition same_occupancy (g g' : Grid nat) : Prop :=
  Forall2 (Forall2 (λ c c' : option nat, is_Some c' ↔ is_Some c)) g g'.

(** No piece object of [g1] is in [g2]. *)
Definition disjoint_grids (g1 g2 : Grid nat) : Prop :=
  ∀ a, a ∈ pieces g1 → a ∉ pieces g2.

(** No two grids of the list have a piece object in common. *)
Fixpoint separated (gs : list (Grid nat)) : Prop :=
  match gs with
  | [] => True
  | g :: rest => Forall (disjoint_grids g) rest ∧ separated rest
  end.

(** A checkers board on which the grid and the snapshots share no piece
    object with one another, all of them objects of the store. *)
Definition unshared (w : CheckersBoard.t) : Prop :=
  CheckersRules.wf w
  ∧ Forall (disjoint_grids (CheckersBoard.board w)) (CheckersBoard.move_history w)
  ∧ separated (CheckersBoard.move_history w).

(** A session whose [turn_index] names one of its two players. *)
Definition hex_ready (g : HexChessGame.t) : Prop :=
  length (HexChessGame.players g) = 2%nat ∧ 0 ≤ HexChessGame.turn_index g < 2.

Definition checkers_ready (g : CheckersGame.t) : Prop :=
  length (CheckersGame.players g) = 2%nat ∧ 0 ≤ CheckersGame.turn_index g < 2.

(** The test [start.lower() == 'undo' or end.lower() == 'undo']. *)
Definition is_undo (start end_ : string) : bool :=
  String.eqb (Py.lower start) "undo" || String.eqb (Py.lower end_) "undo".

(** The string has a decimal digit as its second character. *)
Definition digit_second (s : string) : Prop :=
  ∃ c d rest, s = String c (String d rest) ∧ Py.is_digit d = true.

(** The characters [chs], each followed by a space. *)
Fixpoint spaced (chs : list ascii) : string :=
  match chs with
  | [] => EmptyString
  | ch :: chs' => String ch (String " " (spaced chs'))
  end.

(** The index Python reads for [i] in a sequence of [n] elements: an index
    from [-n] to [-1] counts from the end, any other is taken as it is. *)
Definition wrapped (n : nat) (i : Z) : Z :=
  if (- Z.of_nat n <=? i) && (i <? 0) then Z.of_nat n + i else i.

(** [k] calls of [undo_move] in a row. *)
Definition chess_undos (k : nat) (st : BoardState.t) : BoardState.t :=
  Nat.iter k (λ s, (ChessBoard.undo_move s).2) st.

(** * Properties *)

(** Unfolds the monad and the cell accesses of the checkers board. *)
Ltac unfold_monad :=
  unfold CheckersBoard.read_cell, CheckersBoard.write_cell, CheckersBoard.load,
    CheckersBoard.promote, CheckersBoard.push_snapshot,
    Py.bind, Py.get, Py.modify, Py.orRaise, Py.ret, Py.raise; simpl.

(** ** Python indexing *)

Section Indexing.
Context {A : Type}.
Implicit Types (l : list A) (g : list (list A)).

Lemma index_lt n x k : Py.index n x = Some k → (k < n)%nat.
Proof.
  unfold Py.index. intros H.
  destruct ((0 <=? x) && (x <? Z.of_nat n)) eqn:E1.
  - simplify_eq. apply andb_true_iff in E1 as [?%Z.leb_le ?%Z.ltb_lt]. lia.
  - destruct ((- Z.of_nat n <=? x) && (x <? 0)) eqn:E2; simplify_eq.
    apply andb_true_iff in E2 as [?%Z.leb_le ?%Z.ltb_lt]. lia.
Qed.

Lemma index_nonneg n x : 0 ≤ x < Z.of_nat n → Py.index n x = Some (Z.to_nat x).
Proof.
  intros [? ?]. unfold Py.index.
  destruct (Z.leb_spec 0 x); [|lia]. destruct (Z.ltb_spec x (Z.of_nat n)); [done|lia].
Qed.

Lemma getitem2_locate g x y :
  Py.getitem2 g x y = locate g x y ≫= λ ij, cell g ij.1 ij.2.
Proof.
  unfold Py.getitem2, Py.getitem, locate, cell.
  destruct (Py.index (length g) x) as [i|]; simpl; [|done].
  destruct (g !! i) as [row|] eqn:Hrow; simpl; [|done].
  destruct (Py.index (length row) y) as [j|]; simpl; [|done].
  by rewrite Hrow.
Qed.

Lemma setitem2_locate g x y v :
  Py.setitem2 g x y v = locate g x y ≫= λ ij, Some (set_cell g ij.1 ij.2 v).
Proof.
  unfold Py.setitem2, Py.setitem, locate, set_cell.
  destruct (Py.index (length g) x) as [i|]; simpl; [|done].
  destruct (g !! i) as [row|] eqn:Hrow; simpl; [|done].
  destruct (Py.index (length row) y) as [j|]; simpl; [|done].
  f_equal. apply list_eq. intros k.
  destruct (decide (i = k)) as [->|].
  - rewrite list_lookup_alter_eq, Hrow. simpl.
    apply list_lookup_insert_eq. by eapply lookup_lt_Some.
  - by rewrite list_lookup_alter_ne, list_lookup_insert_ne.
Qed.

Lemma locate_is_Some g x y i j :
  locate g x y = Some (i, j) → is_Some (cell g i j).
Proof.
  unfold locate, cell. intros H.
  destruct (Py.index (length g) x) as [i'|]; simplify_eq/=.
  destruct (g !! i') as [row|] eqn:Hrow; simplify_eq/=.
  destruct (Py.index (length row) y) as [j'|] eqn:Hj; simplify_eq/=.
  rewrite Hrow. simpl. apply lookup_lt_is_Some. by eapply index_lt.
Qed.

Lemma getitem2_Some g x y v :
  Py.getitem2 g x y = Some v ↔ ∃ i j, locate g x y = Some (i, j) ∧ cell g i j = Some v.
Proof.
  rewrite getitem2_locate. split.
  - destruct (locate g x y) as [[i j]|]; simpl; [|done]. eauto.
  - intros (i & j & -> & ?). done.
Qed.

Lemma locate_set_cell g i j v x y :
  locate (set_cell g i j v) x y = locate g x y.
Proof.
  unfold locate, set_cell. rewrite length_alter.
  destruct (Py.index (length g) x) as [i'|]; simpl; [|done].
  destruct (decide (i = i')) as [->|].
  - rewrite list_lookup_alter_eq. destruct (g !! i') as [row|]; simpl; [|done].
    by rewrite length_insert.
  - by rewrite list_lookup_alter_ne.
Qed.

Lemma cell_set_cell_eq g i j v :
  is_Some (cell g i j) → cell (set_cell g i j v) i j = Some v.
Proof.
  unfold cell, set_cell. rewrite list_lookup_alter_eq.
  destruct (g !! i) as [row|]; simpl; [|by intros [? ?]].
  intros ?%lookup_lt_is_Some. by apply list_lookup_insert_eq.
Qed.

Lemma cell_set_cell_ne g i j v i' j' :
  (i, j) ≠ (i', j') → cell (set_cell g i j v) i' j' = cell g i' j'.
Proof.
  unfold cell, set_cell. intros Hne.
  destruct (decide (i = i')) as [->|].
  - rewrite list_lookup_alter_eq. destruct (g !! i') as [row|]; simpl; [|done].
    apply list_lookup_insert_ne. congruence.
  - by rewrite list_lookup_alter_ne.
Qed.

Lemma cell_set_cell_is_Some g i j v i' j' :
  is_Some (cell (set_cell g i j v) i' j') ↔ is_Some (cell g i' j').
Proof.
  destruct (decide ((i, j) = (i', j'))) as [[= <- <-]|].
  - split.
    + unfold cell, set_cell. rewrite list_lookup_alter_eq.
      destruct (g !! i) as [row|]; simpl; [|done].
      rewrite !lookup_lt_is_Some. by rewrite length_insert.
    + intros H. rewrite cell_set_cell_eq; eauto.
  - by rewrite cell_set_cell_ne.
Qed.

End Indexing.

(** ** Counting the pieces of a grid *)

Section Counting.
Context {P : Type}.
Implicit Types (g : Grid P) (row : list (option P)).

Lemma count_pieces_cons row g :
  count_pieces (row :: g) = (length (omap id row) + count_pieces g)%nat.
Proof. unfold count_pieces. simpl. by rewrite omap_app, length_app. Qed.

Lemma count_row_insert row j v old :
  row !! j = Some old →
  (length (omap id (<[j:=v]> row)) + occupied old
   = length (omap id row) + occupied v)%nat.
Proof.
  revert j. induction row as [|c row IH]; intros [|j] Hj; simplify_eq/=.
  - destruct old, v; simpl; lia.
  - specialize (IH _ Hj). destruct c; simpl; lia.
Qed.

(** Writing a cell changes the count by what was there and what is put. *)
Lemma count_pieces_set_cell g i j v old :
  cell g i j = Some old →
  (count_pieces (set_cell g i j v) + occupied old
   = count_pieces g + occupied v)%nat.
Proof.
  unfold cell, set_cell. revert i.
  induction g as [|row g IH]; intros [|i] H; simplify_eq/=.
  - rewrite !count_pieces_cons.
    pose proof (count_row_insert row j v old H). lia.
  - rewrite !count_pieces_cons. specialize (IH _ H).
    change (list_alter (λ row, <[j:=v]> row) i g)
      with (alter (λ row : list (option P), <[j:=v]> row) i g).
    lia.
Qed.

Lemma elem_of_pieces g p :
  p ∈ pieces g ↔ ∃ i j, cell g i j = Some (Some p).
Proof.
  unfold pieces, cell. rewrite list_elem_of_omap. split.
  - intros (c & Hc & Hp). simpl in Hp. subst c.
    apply list_elem_of_In, in_concat in Hc as (row & Hrow & Hin).
    apply list_elem_of_In, list_elem_of_lookup in Hrow as [i Hi].
    apply list_elem_of_In, list_elem_of_lookup in Hin as [j Hj].
    exists i, j. by rewrite Hi.
  - intros (i & j & H). destruct (g !! i) as [row|] eqn:Hi; simplify_eq/=.
    exists (Some p). split; [|done].
    apply list_elem_of_In, in_concat. exists row.
    split; apply list_elem_of_In, list_elem_of_lookup; eauto.
Qed.

(** Writing a cell brings no piece but the one written. *)
Lemma pieces_set_cell g i j v p :
  p ∈ pieces (set_cell g i j v) → p ∈ pieces g ∨ v = Some p.
Proof.
  rewrite !elem_of_pieces. intros (i' & j' & H).
  destruct (decide ((i, j) = (i', j'))) as [[= <- <-]|Hne].
  - right. rewrite cell_set_cell_eq in H; [congruence|].
    apply (cell_set_cell_is_Some g i j v). eauto.
  - left. rewrite cell_set_cell_ne in H by done. eauto.
Qed.

End Counting.

(** ** The initial layouts *)

Lemma chess_initial_board :
  let b k := Some {| kind := k; color := black |} in
  let w k := Some {| kind := k; color := white |} in
  ChessBoard.create_initial_board
  = Some [ b <$> piece_order; replicate 8 (b Pawn);
           replicate 8 None; replicate 8 None; replicate 8 None; replicate 8 None;
           replicate 8 (w Pawn); w <$> piece_order ].
Proof. reflexivity. Qed.

Lemma hex_initial_board :
  let b k := Some {| kind := k; color := black |} in
  let w k := Some {| kind := k; color := white |} in
  let rank (r : list (option ChessPiece)) := [None; None] ++ r ++ [None] in
  HexChessBoard.create_initial_board
  = Some ([ rank (b <$> piece_order); rank (replicate 8 (b Pawn)) ]
          ++ replicate 7 (replicate 11 None)
          ++ [ rank (replicate 8 (w Pawn)); rank (w <$> piece_order) ]).
Proof. reflexivity. Qed.

Lemma checkers_initial_board :
  let b := Some (CheckersPiece.new black) in
  let w := Some (CheckersPiece.new white) in
  let o := @None CheckersPiece.t in
  CheckersBoard.view (CheckersBoard.heap CheckersBoard.init)
                     (CheckersBoard.board CheckersBoard.init)
  = [ [o; b; o; b; o; b; o; b];
      [b; o; b; o; b; o; b; o];
      [o; b; o; b; o; b; o; b];
      replicate 8 o;
      replicate 8 o;
      [w; o; w; o; w; o; w; o];
      [o; w; o; w; o; w; o; w];
      [w; o; w; o; w; o; w; o] ].
Proof. vm_compute. reflexivity. Qed.

(** On an [n] by [n] grid, row and column numbers from 0 to [n - 1] name a
    cell, and writing a cell keeps the grid [n] by [n]. *)
Lemma square_on_grid {A} (g : list (list A)) (n : nat) x y :
  length g = n → Forall (λ row, length row = n) g →
  0 ≤ x < Z.of_nat n → 0 ≤ y < Z.of_nat n →
  is_Some (Py.getitem2 g x y).
Proof.
  intros Hn Hrows Hx Hy. rewrite getitem2_locate. unfold locate.
  rewrite Hn, (index_nonneg n x Hx). simpl.
  destruct (lookup_lt_is_Some_2 g (Z.to_nat x)) as [row Hrow]; [lia|].
  rewrite Hrow. simpl.
  rewrite Forall_lookup in Hrows. rewrite (Hrows _ _ Hrow).
  rewrite (index_nonneg n y Hy). simpl. unfold cell. rewrite Hrow. simpl.
  apply lookup_lt_is_Some_2. rewrite (Hrows _ _ Hrow). lia.
Qed.

Lemma square_set_cell {A} (g : list (list A)) (n : nat) i j v :
  length g = n → Forall (λ row, length row = n) g →
  length (set_cell g i j v) = n
  ∧ Forall (λ row, length row = n) (set_cell g i j v).
Proof.
  intros Hn Hrows. unfold set_cell. rewrite length_alter. split; [done|].
  apply Forall_alter; [done|]. intros row _ Hrow. by rewrite length_insert.
Qed.

(** ** The chess and hex-chess boards *)

Section Permissive.
Import BoardState.
Implicit Types (st : BoardState.t).

(** The two classes have the same [move_piece] and [undo_move]. *)
Lemma hex_move_piece_eq : HexChessBoard.move_piece = ChessBoard.move_piece.
Proof. reflexivity. Qed.

Lemma hex_undo_move_eq : HexChessBoard.undo_move = ChessBoard.undo_move.
Proof. reflexivity. Qed.

(** [move_piece], one case per path through its body. *)
Lemma chess_move_piece_unfold st x1 y1 x2 y2 :
  ChessBoard.move_piece (x1, y1) (x2, y2) st =
  match Py.getitem2 (board st) x1 y1 with
  | None => (Py.Raise Py.IndexError, st)
  | Some None => (Py.Ok Rejected, st)
  | Some (Some p) =>
    let h := move_history st ++ [board st] in
    match Py.setitem2 (board st) x2 y2 (Some p) with
    | None => (Py.Raise Py.IndexError, {| board := board st; move_history := h |})
    | Some b =>
      match Py.setitem2 b x1 y1 None with
      | None => (Py.Raise Py.IndexError, {| board := b; move_history := h |})
      | Some b' => (Py.Ok Applied, {| board := b'; move_history := h |})
      end
    end
  end.
Proof.
  unfold ChessBoard.move_piece, read_cell, write_cell, push_snapshot,
    Py.bind, Py.get, Py.modify, Py.orRaise, Py.ret, Py.raise. simpl.
  destruct (Py.getitem2 (board st) x1 y1) as [[p|]|]; simpl; [|done|done].
  destruct (Py.setitem2 (board st) x2 y2 (Some p)) as [b|]; simpl; [|done].
  destruct (Py.setitem2 b x1 y1 None) as [b'|]; simpl; done.
Qed.

(** An occupied start and an end on the grid: the piece is written at the
    end cell, then the start cell is cleared, and the grid as it was is
    pushed on the history. *)
Lemma chess_move_piece_applied st x1 y1 x2 y2 i1 j1 i2 j2 p :
  locate (board st) x1 y1 = Some (i1, j1) →
  cell (board st) i1 j1 = Some (Some p) →
  locate (board st) x2 y2 = Some (i2, j2) →
  ChessBoard.move_piece (x1, y1) (x2, y2) st =
    (Py.Ok Applied,
     {| board := set_cell (set_cell (board st) i2 j2 (Some p)) i1 j1 None;
        move_history := move_history st ++ [board st] |}).
Proof.
  intros H1 Hp H2. rewrite chess_move_piece_unfold.
  rewrite getitem2_locate, H1. simpl. rewrite Hp.
  cbv zeta. rewrite setitem2_locate, H2. simpl.
  rewrite setitem2_locate, locate_set_cell, H1. done.
Qed.

(** The other way round: an applied move had an occupied start and an end
    on the grid. *)
Lemma chess_move_piece_applied_inv st st' x1 y1 x2 y2 :
  ChessBoard.move_piece (x1, y1) (x2, y2) st = (Py.Ok Applied, st') →
  ∃ i1 j1 i2 j2 p,
    locate (board st) x1 y1 = Some (i1, j1) ∧
    cell (board st) i1 j1 = Some (Some p) ∧
    locate (board st) x2 y2 = Some (i2, j2).
Proof.
  rewrite chess_move_piece_unfold.
  destruct (Py.getitem2 (board st) x1 y1) as [[p|]|] eqn:Hg; [|done|done].
  apply getitem2_Some in Hg as (i1 & j1 & H1 & Hp).
  cbv zeta. rewrite setitem2_locate.
  destruct (locate (board st) x2 y2) as [[i2 j2]|] eqn:H2; simpl; [|done].
  intros _. by exists i1, j1, i2, j2, p.
Qed.

Lemma chess_move_piece_rejected_inv st st' start end_ :
  ChessBoard.move_piece start end_ st = (Py.Ok Rejected, st') → st' = st.
Proof.
  destruct start as [x1 y1], end_ as [x2 y2]. rewrite chess_move_piece_unfold.
  destruct (Py.getitem2 (board st) x1 y1) as [[p|]|]; [|congruence|done].
  cbv zeta. destruct (Py.setitem2 (board st) x2 y2 (Some p)) as [b|]; [|done].
  destruct (Py.setitem2 b x1 y1 None); done.
Qed.

Lemma chess_undo_move_unfold st :
  ChessBoard.undo_move st =
  (Py.Ok Py.None_,
   match Py.pop (move_history st) with
   | Some (h, g) => {| board := g; move_history := h |}
   | None => st
   end).
Proof.
  unfold ChessBoard.undo_move, restore_snapshot, Py.bind, Py.get, Py.modify, Py.ret.
  simpl. by destruct (Py.pop (move_history st)) as [[h g]|].
Qed.

End Permissive.

Lemma pop_snoc {A} (l : list A) (a : A) : Py.pop (l ++ [a]) = Some (l, a).
Proof. unfold Py.pop. by rewrite last_snoc, removelast_last. Qed.

Lemma pop_nil {A} : Py.pop (@nil A) = None.
Proof. reflexivity. Qed.

(** ** The object store *)

Section StoreFacts.
Import CheckersRules.

Lemma extends_refl h : extends h h.
Proof. split; [lia|done]. Qed.

Lemma extends_trans h1 h2 h3 : extends h1 h2 → extends h2 h3 → extends h1 h3.
Proof.
  intros [L1 E1] [L2 E2]. split; [lia|].
  intros a Ha. rewrite E2 by lia. by apply E1.
Qed.

Lemma alloc_extends p h : extends h (Store.alloc p h).2.
Proof.
  split; simpl; [lia|]. intros a Ha.
  destruct (Nat.eqb_spec a (Store.next h)); [lia|done].
Qed.

Lemma copy_cell_extends c st : extends st.1 (Store.copy_cell c st).2.1.
Proof.
  destruct st as [h m], c as [a|]; simpl; [|apply extends_refl].
  destruct (Store.memo_find a m); simpl; [apply extends_refl|].
  apply (alloc_extends (Store.objs h a) h).
Qed.

Lemma copy_row_extends row st : extends st.1 (Store.copy_row row st).2.1.
Proof.
  revert st. induction row as [|c row IH]; intros st; simpl; [apply extends_refl|].
  pose proof (copy_cell_extends c st) as Hc.
  destruct (Store.copy_cell c st) as [c' st1].
  specialize (IH st1). destruct (Store.copy_row row st1) as [r' st2].
  simpl in *. by eapply extends_trans.
Qed.

Lemma copy_grid_extends g st : extends st.1 (Store.copy_grid g st).2.1.
Proof.
  revert st. induction g as [|row g IH]; intros st; simpl; [apply extends_refl|].
  pose proof (copy_row_extends row st) as Hc.
  destruct (Store.copy_row row st) as [row' st1].
  specialize (IH st1). destruct (Store.copy_grid g st1) as [g' st2].
  simpl in *. by eapply extends_trans.
Qed.

(** A deep copy creates objects and writes to none that existed. *)
Lemma deepcopy_extends g h : extends h (Store.deepcopy g h).2.
Proof.
  unfold Store.deepcopy. pose proof (copy_grid_extends g (h, [])) as H.
  destruct (Store.copy_grid g (h, [])) as [g' [h' m]]. done.
Qed.

Lemma copies_mono h0 h' h'' c c' :
  extends h' h'' → copies h0 h' c c' → copies h0 h'' c c'.
Proof.
  intros [Hn Ho] [Hv Ha]. split.
  - rewrite <- Hv. destruct c' as [a'|]; simpl; [|done].
    f_equal. apply Ho. by apply Ha.
  - intros a' E. specialize (Ha a' E). lia.
Qed.

Lemma copy_cell_copies h0 c st :
  copying h0 st →
  (∀ a, c = Some a → (a < Store.next h0)%nat) →
  copying h0 (Store.copy_cell c st).2
  ∧ copies h0 (Store.copy_cell c st).2.1 c (Store.copy_cell c st).1.
Proof.
  destruct st as [h m]. intros [Hext Hm] Hc. simpl in *.
  destruct c as [a|]; simpl.
  2:{ split; [by split|]. split; [done|]. intros ? [=]. }
  specialize (Hc a eq_refl).
  destruct (Store.memo_find a m) as [v|] eqn:Hf; simpl.
  - destruct (Hm a v Hf) as [Hv Ho]. split; [by split|].
    split; simpl; [by rewrite Ho|]. by intros ? [= <-].
  - destruct Hext as [Hn Ho]. simpl in *.
    split; [split|split]; simpl.
    + split; simpl; [lia|]. intros b Hb.
      destruct (Nat.eqb_spec b (Store.next h)); [lia|by apply Ho].
    + intros k v. destruct (Nat.eqb_spec a k) as [->|Hne].
      * intros [= <-]. rewrite Nat.eqb_refl. split; [lia|by apply Ho].
      * intros Hk. destruct (Hm k v Hk) as [Hv Hov].
        split; [lia|]. destruct (Nat.eqb_spec v (Store.next h)); [lia|done].
    + rewrite Nat.eqb_refl. f_equal. by apply Ho.
    + intros ? [= <-]. lia.
Qed.

Lemma copy_row_copies h0 row st :
  copying h0 st → allocated h0 row →
  copying h0 (Store.copy_row row st).2
  ∧ Forall2 (copies h0 (Store.copy_row row st).2.1) row (Store.copy_row row st).1.
Proof.
  revert st. induction row as [|c row IH]; intros st Hst Hrow; simpl.
  { by split. }
  apply Forall_cons in Hrow as [Hc0 Hrow].
  destruct (copy_cell_copies h0 c st Hst Hc0) as [Hst1 Hc].
  pose proof (copy_row_extends row (Store.copy_cell c st).2) as Hext.
  destruct (Store.copy_cell c st) as [c' st1]. simpl in *.
  destruct (IH st1 Hst1 Hrow) as [Hst2 Hr].
  destruct (Store.copy_row row st1) as [r' st2]. simpl in *.
  split; [done|]. constructor; [|done]. by eapply copies_mono.
Qed.

Lemma copy_grid_copies h0 (g : Grid nat) st :
  copying h0 st → Forall (allocated h0) g →
  copying h0 (Store.copy_grid g st).2
  ∧ Forall2 (Forall2 (copies h0 (Store.copy_grid g st).2.1)) g (Store.copy_grid g st).1.
Proof.
  revert st. induction g as [|row g IH]; intros st Hst Hg; simpl.
  { by split. }
  apply Forall_cons in Hg as [Hrow Hg].
  destruct (copy_row_copies h0 row st Hst Hrow) as [Hst1 Hr].
  pose proof (copy_grid_extends g (Store.copy_row row st).2) as Hext.
  destruct (Store.copy_row row st) as [row' st1]. simpl in *.
  destruct (IH st1 Hst1 Hg) as [Hst2 Hrest].
  destruct (Store.copy_grid g st1) as [g' st2]. simpl in *.
  split; [done|]. constructor; [|done].
  eapply Forall2_impl; [done|]. intros c c'. by apply copies_mono.
Qed.

(** A deep copy of a grid shows what the grid shows, and is made of new
    objects only. *)
Lemma deepcopy_copies (g : Grid nat) h :
  Forall (allocated h) g →
  Forall2 (Forall2 (copies h (Store.deepcopy g h).2)) g (Store.deepcopy g h).1.
Proof.
  intros Hg. unfold Store.deepcopy.
  destruct (copy_grid_copies h g (h, [])) as [_ H]; [|done|].
  { split; [apply extends_refl|]. intros k v [=]. }
  by destruct (Store.copy_grid g (h, [])) as [g' [h' m]].
Qed.

Lemma copies_view h0 h' (g g' : Grid nat) :
  Forall2 (Forall2 (copies h0 h')) g g' →
  CheckersBoard.view h' g' = CheckersBoard.view h0 g.
Proof.
  unfold CheckersBoard.view. induction 1 as [|row row' g g' Hrow _ IH]; simpl; [done|].
  f_equal; [|done]. clear IH.
  induction Hrow as [|c c' row row' [Hc _] _ IH]; simpl; [done|]. by f_equal.
Qed.

(** The copy still shows the same after a write to an object that existed
    before the copy was made. *)
Lemma copies_view_write h0 h' (g g' : Grid nat) a p :
  Forall2 (Forall2 (copies h0 h')) g g' → (a < Store.next h0)%nat →
  CheckersBoard.view (Store.write a p h') g' = CheckersBoard.view h0 g.
Proof.
  intros H Ha. rewrite <- (copies_view h0 h' g g' H). unfold CheckersBoard.view.
  induction H as [|row row' g g' Hrow _ IH]; simpl; [done|].
  f_equal; [|done]. clear IH.
  induction Hrow as [|c c' row row' [_ Hc] _ IH]; simpl; [done|].
  f_equal; [|done]. destruct c' as [a'|]; simpl; [|done].
  specialize (Hc a' eq_refl).
  destruct (Nat.eqb_spec a' a); [lia|done].
Qed.

Lemma copies_allocated h0 h' (g g' : Grid nat) :
  Forall2 (Forall2 (copies h0 h')) g g' → Forall (allocated h') g'.
Proof.
  induction 1 as [|row row' g g' Hrow _ IH]; constructor; [|done].
  clear IH. induction Hrow as [|c c' row row' [_ Hc] _ IH]; constructor; [|done].
  intros a' E. specialize (Hc a' E). lia.
Qed.

Lemma allocated_mono h h' (g : Grid nat) :
  (Store.next h ≤ Store.next h')%nat →
  Forall (allocated h) g → Forall (allocated h') g.
Proof.
  intros Hn Hg. eapply Forall_impl; [exact Hg|].
  intros row Hrow. eapply Forall_impl; [exact Hrow|].
  intros c Hc a E. specialize (Hc a E). simpl in Hc. lia.
Qed.

Lemma allocated_set_cell h (g : Grid nat) i j v :
  Forall (allocated h) g →
  (∀ a, v = Some a → (a < Store.next h)%nat) →
  Forall (allocated h) (set_cell g i j v).
Proof.
  intros Hg Hv. unfold set_cell. apply Forall_alter; [done|].
  intros row _ Hrow. by apply Forall_insert.
Qed.

Lemma allocated_cell h (g : Grid nat) i j a :
  Forall (allocated h) g → cell g i j = Some (Some a) → (a < Store.next h)%nat.
Proof.
  unfold cell. intros Hg H.
  destruct (g !! i) as [row|] eqn:Hi; simplify_eq/=.
  rewrite Forall_lookup in Hg. specialize (Hg i row Hi).
  unfold allocated in Hg. rewrite Forall_lookup in Hg. by eapply Hg.
Qed.

End StoreFacts.

(** ** The checkers board *)

Section Checkers.
Import CheckersBoard CheckersRules.
Implicit Types (w : CheckersBoard.t) (a : nat).

Lemma direction_cases c : direction c = -1 ∨ direction c = 1.
Proof. destruct c; simpl; auto. Qed.

(** [is_valid_move], one case per path through its body. *)
Lemma checkers_is_valid_move_unfold w a x1 y1 x2 y2 :
  is_valid_move a (x1, y1) (x2, y2) w =
  let p := Store.objs (heap w) a in
  let dx := x2 - x1 in
  let dy := y2 - y1 in
  match Py.getitem2 (board w) x2 y2 with
  | None => (Py.Raise Py.IndexError, w)
  | Some (Some _) => (Py.Ok false, w)
  | Some None =>
    if CheckersPiece.is_king p then
      (Py.Ok ((Z.abs dx =? Z.abs dy) && ((Z.abs dy =? 1) || (Z.abs dy =? 2))), w)
    else if (dx =? direction (CheckersPiece.color p)) && (Z.abs dy =? 1) then
      (Py.Ok true, w)
    else if (dx =? 2 * direction (CheckersPiece.color p)) && (Z.abs dy =? 2) then
      match Py.getitem2 (board w) ((x1 + x2) / 2) ((y1 + y2) / 2) with
      | None => (Py.Raise Py.IndexError, w)
      | Some None => (Py.Ok false, w)
      | Some (Some q) =>
        if negb (Color_eqb (CheckersPiece.color (Store.objs (heap w) q))
                           (CheckersPiece.color p)) then
          match Py.setitem2 (board w) ((x1 + x2) / 2) ((y1 + y2) / 2) None with
          | None => (Py.Raise Py.IndexError, w)
          | Some b => (Py.Ok true, with_board w b)
          end
        else (Py.Ok false, w)
      end
    else (Py.Ok false, w)
  end.
Proof.
  unfold is_valid_move, direction. unfold_monad.
  destruct (Py.getitem2 (board w) x2 y2) as [[?|]|]; simpl; [done| |done].
  destruct (CheckersPiece.is_king _); [done|].
  destruct (_ && _); [done|].
  destruct (_ && _); [|done].
  destruct (Py.getitem2 (board w) _ _) as [[q|]|]; simpl; [|done|done].
  destruct (negb _); [|done].
  destruct (Py.setitem2 _ _ _ _); done.
Qed.

Lemma Color_eqb_eq c1 c2 : Color_eqb c1 c2 = true ↔ c1 = c2.
Proof. destruct c1, c2; simpl; split; congruence. Qed.

Lemma Color_neqb_ne c1 c2 : negb (Color_eqb c1 c2) = true ↔ c1 ≠ c2.
Proof. destruct c1, c2; simpl; split; congruence. Qed.

(** [is_valid_move] answers [True] exactly when the destination is empty
    and one of the three rules accepts; the grid is then the one the rule
    leaves. *)
Lemma checkers_is_valid_move_true w a x1 y1 x2 y2 w1 :
  is_valid_move a (x1, y1) (x2, y2) w = (Py.Ok true, w1) ↔
  Py.getitem2 (board w) x2 y2 = Some None ∧
  ∃ b, Accepts w a x1 y1 x2 y2 b ∧ w1 = with_board w b.
Proof.
  rewrite checkers_is_valid_move_unfold. cbv zeta.
  pose proof (direction_cases (CheckersPiece.color (Store.objs (heap w) a))) as Hdir.
  split.
  - destruct (Py.getitem2 (board w) x2 y2) as [[?|]|]; [done| |done].
    destruct (CheckersPiece.is_king _) eqn:Hk.
    { intros [= Hg <-]. split; [done|]. exists (board w). split; [|by destruct w].
      apply andb_true_iff in Hg as [?%Z.eqb_eq Hg].
      apply orb_true_iff in Hg as [?%Z.eqb_eq|?%Z.eqb_eq];
        apply accepts_king; auto. }
    destruct (_ && _) eqn:Hs.
    { intros [= <-]. split; [done|]. exists (board w). split; [|by destruct w].
      apply andb_true_iff in Hs as [?%Z.eqb_eq ?%Z.eqb_eq].
      by apply accepts_step. }
    clear Hs. destruct (_ && _) eqn:Hj; [|done].
    apply andb_true_iff in Hj as [?%Z.eqb_eq ?%Z.eqb_eq].
    destruct (Py.getitem2 (board w) _ _) as [[q|]|] eqn:Hm; [|done|done].
    destruct (negb _) eqn:Hc; [|done].
    apply Color_neqb_ne in Hc.
    apply getitem2_Some in Hm as (mi & mj & Hl & Hq).
    rewrite setitem2_locate, Hl. simpl. intros [= <-].
    split; [done|]. eexists. split; [|done]. by eapply accepts_jump.
  - intros [-> (b & Hacc & ->)].
    destruct Hacc as [Hk Hd Hy|Hk Hd Hy|mi mj q Hk Hd Hy Hl Hq Hc].
    + rewrite Hk, Hd, Z.eqb_refl. simpl.
      destruct Hy as [-> | ->]; simpl; by destruct w.
    + rewrite Hk, Hd, Hy, Z.eqb_refl. simpl. by destruct w.
    + rewrite Hk, Hd, Hy, Z.eqb_refl. simpl.
      replace (_ =? _) with false by (symmetry; apply Z.eqb_neq; lia).
      simpl. rewrite getitem2_locate, Hl. simpl. rewrite Hq.
      apply Color_neqb_ne in Hc. rewrite Hc.
      by rewrite setitem2_locate, Hl.
Qed.

(** Any other answer of [is_valid_move], and any exception it raises,
    leaves the board as it was. *)
Lemma checkers_is_valid_move_not_true w a start end_ r w1 :
  is_valid_move a start end_ w = (r, w1) → r ≠ Py.Ok true → w1 = w.
Proof.
  destruct start as [x1 y1], end_ as [x2 y2].
  rewrite checkers_is_valid_move_unfold. cbv zeta.
  destruct (Py.getitem2 (board w) x2 y2) as [[?|]|]; [congruence| |congruence].
  destruct (CheckersPiece.is_king _); [congruence|].
  destruct (_ && _); [congruence|].
  destruct (_ && _); [|congruence].
  destruct (Py.getitem2 (board w) _ _) as [[q|]|]; [|congruence|congruence].
  destruct (negb _); [|congruence].
  destruct (Py.setitem2 _ _ _ _); congruence.
Qed.

(** Validation keeps the shape of the grid. *)
Lemma Accepts_locate w a x1 y1 x2 y2 b x y :
  Accepts w a x1 y1 x2 y2 b → locate b x y = locate (board w) x y.
Proof. intros []; [done|done|apply locate_set_cell]. Qed.

(** The branch of [move_piece] after a successful validation. *)
Lemma checkers_move_piece_tail w a b x1 y1 x2 y2 i1 j1 i2 j2 :
  locate b x1 y1 = Some (i1, j1) →
  locate b x2 y2 = Some (i2, j2) →
  (do_ push_snapshot;
   do_ write_cell x2 y2 (Some a);
   do_ write_cell x1 y1 None;
   do p <- load a;
   do_ (if (Color_eqb (CheckersPiece.color p) white && (x2 =? 0))
           || (Color_eqb (CheckersPiece.color p) black && (x2 =? 7))
        then promote a else Py.ret tt);
   Py.ret Applied) (with_board w b)
  = (Py.Ok Applied, landed w a b i1 j1 i2 j2 x2).
Proof.
  intros H1 H2. unfold landed, last_rank. unfold_monad.
  destruct (Store.deepcopy b (heap w)) as [g h]. simpl.
  rewrite setitem2_locate, H2. simpl.
  rewrite setitem2_locate, locate_set_cell, H1. simpl.
  by destruct (_ || _).
Qed.

(** The first two steps of [move_piece]: read the start cell, validate. *)
Lemma checkers_move_piece_unfold w x1 y1 x2 y2 :
  move_piece (x1, y1) (x2, y2) w =
  match Py.getitem2 (board w) x1 y1 with
  | None => (Py.Raise Py.IndexError, w)
  | Some None => (Py.Ok Rejected, w)
  | Some (Some a) =>
    match is_valid_move a (x1, y1) (x2, y2) w with
    | (Py.Ok true, w1) =>
      (do_ push_snapshot;
       do_ write_cell x2 y2 (Some a);
       do_ write_cell x1 y1 None;
       do p <- load a;
       do_ (if (Color_eqb (CheckersPiece.color p) white && (x2 =? 0))
               || (Color_eqb (CheckersPiece.color p) black && (x2 =? 7))
            then promote a else Py.ret tt);
       Py.ret Applied) w1
    | (Py.Ok false, w1) => (Py.Ok Rejected, w1)
    | (Py.Raise e, w1) => (Py.Raise e, w1)
    end
  end.
Proof.
  unfold move_piece, read_cell, Py.bind, Py.get, Py.orRaise.
  destruct (Py.getitem2 (board w) x1 y1) as [[a|]|]; [|done|done].
  unfold Py.ret at 1.
  destruct (is_valid_move a (x1, y1) (x2, y2) w) as [[[|]|e] w1]; done.
Qed.

(** [move_piece] either applies the move, and then it went as the rules
    say, or leaves the whole state as it was. *)
Lemma checkers_move_piece_cases w x1 y1 x2 y2 :
  (∃ a i1 j1 i2 j2 b,
      locate (board w) x1 y1 = Some (i1, j1) ∧
      cell (board w) i1 j1 = Some (Some a) ∧
      locate (board w) x2 y2 = Some (i2, j2) ∧
      cell (board w) i2 j2 = Some None ∧
      Accepts w a x1 y1 x2 y2 b ∧
      move_piece (x1, y1) (x2, y2) w
        = (Py.Ok Applied, landed w a b i1 j1 i2 j2 x2))
  ∨ (∃ r, r ≠ Py.Ok Applied ∧ move_piece (x1, y1) (x2, y2) w = (r, w)).
Proof.
  rewrite checkers_move_piece_unfold.
  destruct (Py.getitem2 (board w) x1 y1) as [[a|]|] eqn:H1.
  - apply getitem2_Some in H1 as (i1 & j1 & H1 & Ha).
    destruct (is_valid_move a (x1, y1) (x2, y2) w) as [r w1] eqn:Hv.
    assert (r = Py.Ok true ∨ r ≠ Py.Ok true) as [->|Hr]
      by (destruct r as [[|]|e]; auto).
    + apply checkers_is_valid_move_true in Hv as [H2 (b & Hacc & ->)].
      apply getitem2_Some in H2 as (i2 & j2 & H2 & He).
      left. exists a, i1, j1, i2, j2, b. repeat (split; [done|]).
      apply checkers_move_piece_tail; by rewrite (Accepts_locate _ _ _ _ _ _ _ _ _ Hacc).
    + right. apply checkers_is_valid_move_not_true in Hv as ->; [|done].
      destruct r as [[|]|e]; [done| |]; eexists; (split; [|done]); done.
  - right. eexists. split; [|done]. done.
  - right. eexists. split; [|done]. done.
Qed.

Lemma checkers_move_piece_applied_inv w w' x1 y1 x2 y2 :
  move_piece (x1, y1) (x2, y2) w = (Py.Ok Applied, w') →
  ∃ a i1 j1 i2 j2 b,
    locate (board w) x1 y1 = Some (i1, j1) ∧
    cell (board w) i1 j1 = Some (Some a) ∧
    locate (board w) x2 y2 = Some (i2, j2) ∧
    cell (board w) i2 j2 = Some None ∧
    Accepts w a x1 y1 x2 y2 b ∧
    w' = landed w a b i1 j1 i2 j2 x2.
Proof.
  intros H.
  destruct (checkers_move_piece_cases w x1 y1 x2 y2)
    as [(a & i1 & j1 & i2 & j2 & b & ? & ? & ? & ? & ? & E)|(r & Hr & E)].
  - exists a, i1, j1, i2, j2, b. repeat (split; [done|]). congruence.
  - congruence.
Qed.

Lemma checkers_move_piece_applied_intro w a b x1 y1 x2 y2 i1 j1 i2 j2 :
  locate (board w) x1 y1 = Some (i1, j1) →
  cell (board w) i1 j1 = Some (Some a) →
  locate (board w) x2 y2 = Some (i2, j2) →
  cell (board w) i2 j2 = Some None →
  Accepts w a x1 y1 x2 y2 b →
  move_piece (x1, y1) (x2, y2) w = (Py.Ok Applied, landed w a b i1 j1 i2 j2 x2).
Proof.
  intros H1 Ha H2 He Hacc. rewrite checkers_move_piece_unfold.
  assert (Py.getitem2 (board w) x1 y1 = Some (Some a)) as ->
    by (apply getitem2_Some; eauto).
  assert (is_valid_move a (x1, y1) (x2, y2) w = (Py.Ok true, with_board w b)) as ->.
  { apply checkers_is_valid_move_true. split; [|eauto].
    apply getitem2_Some; eauto. }
  apply checkers_move_piece_tail; by rewrite (Accepts_locate _ _ _ _ _ _ _ _ _ Hacc).
Qed.

Lemma checkers_move_piece_rejected_inv w w' start end_ :
  move_piece start end_ w = (Py.Ok Rejected, w') → w' = w.
Proof.
  destruct start as [x1 y1], end_ as [x2 y2]. intros H.
  destruct (checkers_move_piece_cases w x1 y1 x2 y2)
    as [(a & i1 & j1 & i2 & j2 & b & ? & ? & ? & ? & ? & E)|(r & Hr & E)];
    congruence.
Qed.

Lemma checkers_undo_move_unfold w :
  undo_move w =
  (Py.Ok Py.None_,
   match Py.pop (move_history w) with
   | Some (h, g) => {| heap := heap w; board := g; move_history := h |}
   | None => w
   end).
Proof.
  unfold undo_move. unfold_monad.
  by destruct (Py.pop (move_history w)) as [[h g]|].
Qed.

End Checkers.

(** * The claims *)

Section Claims.
Import CheckersRules.

(** An applied chess move, then one undo: the grid and the history are
    those before the move. *)
Lemma chess_undo_after_move st st' start end_ :
  ChessBoard.move_piece start end_ st = (Py.Ok Applied, st') →
  (ChessBoard.undo_move st').2 = st.
Proof.
  destruct start as [x1 y1], end_ as [x2 y2]. intros H.
  destruct (chess_move_piece_applied_inv _ _ _ _ _ _ H)
    as (i1 & j1 & i2 & j2 & p & H1 & Hp & H2).
  rewrite (chess_move_piece_applied _ _ _ _ _ _ _ _ _ _ H1 Hp H2) in H.
  simplify_eq. rewrite chess_undo_move_unfold. simpl.
  rewrite pop_snoc. by destruct st.
Qed.

(** C5. On the chess board and on the hex-chess board, a move from a cell
    that holds a piece to any cell of the grid (the start cell itself and
    occupied cells included) is applied; a move from an empty cell is
    rejected and nothing changes. *)
Theorem placeholder_legality (st : BoardState.t) (x1 y1 x2 y2 : Z) :
  (∀ p, Py.getitem2 (BoardState.board st) x1 y1 = Some (Some p) →
        is_Some (Py.getitem2 (BoardState.board st) x2 y2) →
        ∃ st', ChessBoard.move_piece (x1, y1) (x2, y2) st = (Py.Ok Applied, st')
               ∧ HexChessBoard.move_piece (x1, y1) (x2, y2) st = (Py.Ok Applied, st'))
  ∧ (Py.getitem2 (BoardState.board st) x1 y1 = Some None →
     ChessBoard.move_piece (x1, y1) (x2, y2) st = (Py.Ok Rejected, st)
     ∧ HexChessBoard.move_piece (x1, y1) (x2, y2) st = (Py.Ok Rejected, st)).
Proof.
  rewrite hex_move_piece_eq. split.
  - intros p Hs [c He].
    apply getitem2_Some in Hs as (i1 & j1 & H1 & Hp).
    apply getitem2_Some in He as (i2 & j2 & H2 & _).
    eexists. split; by apply chess_move_piece_applied.
  - intros Hs. rewrite chess_move_piece_unfold, Hs. done.
Qed.

Lemma placeholder_legality_witness :
  (∃ st', ChessBoard.move_piece (6, 4) (1, 4) ChessBoard.init = (Py.Ok Applied, st')
          ∧ HexChessBoard.move_piece (6, 4) (1, 4) ChessBoard.init = (Py.Ok Applied, st'))
  ∧ (ChessBoard.move_piece (4, 4) (3, 4) ChessBoard.init
       = (Py.Ok Rejected, ChessBoard.init)
     ∧ HexChessBoard.move_piece (4, 4) (3, 4) ChessBoard.init
       = (Py.Ok Rejected, ChessBoard.init)).
Proof.
  split.
  - apply (proj1 (placeholder_legality ChessBoard.init 6 4 1 4)
             {| kind := Pawn; color := white |}).
    + reflexivity.
    + exists (Some {| kind := Pawn; color := black |}). reflexivity.
  - apply (proj2 (placeholder_legality ChessBoard.init 4 4 3 4)). reflexivity.
Defined.

(** C10. On the chess board and on the hex-chess board, a move whose end
    is its start, from an occupied cell, is applied: the grid before the
    call is pushed on the history, the cell ends up empty, and the grid
    has one piece fewer. *)
Theorem move_onto_itself (st : BoardState.t) (x y : Z) (p : ChessPiece) :
  Py.getitem2 (BoardState.board st) x y = Some (Some p) →
  ∃ st', ChessBoard.move_piece (x, y) (x, y) st = (Py.Ok Applied, st')
         ∧ HexChessBoard.move_piece (x, y) (x, y) st = (Py.Ok Applied, st')
         ∧ Py.getitem2 (BoardState.board st') x y = Some None
         ∧ BoardState.move_history st'
             = BoardState.move_history st ++ [BoardState.board st]
         ∧ (count_pieces (BoardState.board st') + 1
             = count_pieces (BoardState.board st))%nat.
Proof.
  intros Hs. rewrite hex_move_piece_eq.
  apply getitem2_Some in Hs as (i & j & Hl & Hp).
  eexists. split; [by apply chess_move_piece_applied|].
  split; [by apply chess_move_piece_applied|]. simpl.
  assert (is_Some (cell (set_cell (BoardState.board st) i j (Some p)) i j)) as Hc
    by (apply cell_set_cell_is_Some; eauto).
  split; [|split; [done|]].
  - apply getitem2_Some. exists i, j.
    rewrite !locate_set_cell. split; [done|]. by apply cell_set_cell_eq.
  - pose proof (count_pieces_set_cell _ i j (Some p) _ Hp) as C1.
    assert (cell (set_cell (BoardState.board st) i j (Some p)) i j = Some (Some p)) as Hp'
      by (apply cell_set_cell_eq; eauto).
    pose proof (count_pieces_set_cell _ i j None _ Hp') as C2.
    simpl in *. lia.
Qed.

Lemma move_onto_itself_witness :
  ∃ st', ChessBoard.move_piece (7, 4) (7, 4) ChessBoard.init = (Py.Ok Applied, st')
         ∧ HexChessBoard.move_piece (7, 4) (7, 4) ChessBoard.init = (Py.Ok Applied, st')
         ∧ Py.getitem2 (BoardState.board st') 7 4 = Some None
         ∧ BoardState.move_history st'
             = BoardState.move_history ChessBoard.init
               ++ [BoardState.board ChessBoard.init]
         ∧ (count_pieces (BoardState.board st') + 1
             = count_pieces (BoardState.board ChessBoard.init))%nat.
Proof.
  apply (move_onto_itself ChessBoard.init 7 4 {| kind := King; color := white |}).
  reflexivity.
Defined.

(** C4. In each of the three variants, a call of [move_piece] that ends
    in the rejecting branch leaves the whole state as it was before the
    call: the grid, the history and, for checkers, every piece. *)
Theorem rejected_move_changes_nothing :
  (∀ st st' start end_,
      ChessBoard.move_piece start end_ st = (Py.Ok Rejected, st') → st' = st)
  ∧ (∀ st st' start end_,
      HexChessBoard.move_piece start end_ st = (Py.Ok Rejected, st') → st' = st)
  ∧ (∀ w w' start end_,
      CheckersBoard.move_piece start end_ w = (Py.Ok Rejected, w') → w' = w).
Proof.
  split; [|split].
  - apply chess_move_piece_rejected_inv.
  - rewrite hex_move_piece_eq. apply chess_move_piece_rejected_inv.
  - apply checkers_move_piece_rejected_inv.
Qed.

Lemma rejected_move_changes_nothing_witness :
  (ChessBoard.move_piece (4, 4) (3, 4) ChessBoard.init).2 = ChessBoard.init
  ∧ (HexChessBoard.move_piece (5, 5) (0, 0) HexChessBoard.init).2 = HexChessBoard.init
  ∧ (CheckersBoard.move_piece (5, 2) (3, 4) CheckersBoard.init).2 = CheckersBoard.init.
Proof.
  destruct rejected_move_changes_nothing as (Hc & Hh & Hk).
  split; [|split].
  - apply (Hc ChessBoard.init _ (4, 4) (3, 4)). reflexivity.
  - apply (Hh HexChessBoard.init _ (5, 5) (0, 0)). reflexivity.
  - apply (Hk CheckersBoard.init _ (5, 2) (3, 4)). vm_compute. reflexivity.
Defined.

(** C9, as the code has it. [undo_move] has no [return] statement: in
    each of the three variants the caller receives [None], whether or not
    an undo took place. With a non-empty history the last snapshot is
    popped and becomes the grid; with an empty history nothing changes. *)
Theorem undo_move_result :
  (∀ b h g,
      ChessBoard.undo_move {| BoardState.board := b; BoardState.move_history := h ++ [g] |}
      = (Py.Ok Py.None_, {| BoardState.board := g; BoardState.move_history := h |})
      ∧ HexChessBoard.undo_move
          {| BoardState.board := b; BoardState.move_history := h ++ [g] |}
        = (Py.Ok Py.None_, {| BoardState.board := g; BoardState.move_history := h |}))
  ∧ (∀ b,
      ChessBoard.undo_move {| BoardState.board := b; BoardState.move_history := [] |}
      = (Py.Ok Py.None_, {| BoardState.board := b; BoardState.move_history := [] |})
      ∧ HexChessBoard.undo_move
          {| BoardState.board := b; BoardState.move_history := [] |}
        = (Py.Ok Py.None_, {| BoardState.board := b; BoardState.move_history := [] |}))
  ∧ (∀ s b h g,
      CheckersBoard.undo_move
        {| CheckersBoard.heap := s; CheckersBoard.board := b;
           CheckersBoard.move_history := h ++ [g] |}
      = (Py.Ok Py.None_,
         {| CheckersBoard.heap := s; CheckersBoard.board := g;
            CheckersBoard.move_history := h |}))
  ∧ (∀ s b,
      CheckersBoard.undo_move
        {| CheckersBoard.heap := s; CheckersBoard.board := b;
           CheckersBoard.move_history := [] |}
      = (Py.Ok Py.None_,
         {| CheckersBoard.heap := s; CheckersBoard.board := b;
            CheckersBoard.move_history := [] |})).
Proof.
  rewrite hex_undo_move_eq. repeat split.
  - rewrite chess_undo_move_unfold. simpl. by rewrite pop_snoc.
  - rewrite chess_undo_move_unfold. simpl. by rewrite pop_snoc.
  - intros. rewrite checkers_undo_move_unfold. simpl. by rewrite pop_snoc.
Qed.

(** C9, as the claim has it, fails: after one applied move the history is
    not empty and [undo_move] does undo, yet what it returns is no boolean
    (and, tested as one, is false). *)
Lemma undo_move_returns_none :
  let st := (ChessBoard.move_piece (6, 4) (4, 4) ChessBoard.init).2 in
  BoardState.move_history st ≠ []
  ∧ (ChessBoard.undo_move st).2 = ChessBoard.init
  ∧ ¬ (∃ b : bool, (ChessBoard.undo_move st).1 = Py.Ok (Py.Bool b)
                   ∧ (b = true ↔ BoardState.move_history st ≠ []))
  ∧ (∀ v, (ChessBoard.undo_move st).1 = Py.Ok v → Py.truth v = false).
Proof.
  repeat split.
  - discriminate.
  - intros (b & Hb & _). discriminate Hb.
  - intros v Hv. injection Hv as <-. reflexivity.
Qed.

(** What an applied chess move does to the number of pieces: one fewer
    when the end cell was occupied, the same when it was empty. *)
Lemma chess_move_piece_count st st' x1 y1 x2 y2 c :
  ChessBoard.move_piece (x1, y1) (x2, y2) st = (Py.Ok Applied, st') →
  Py.getitem2 (BoardState.board st) x2 y2 = Some c →
  (count_pieces (BoardState.board st') + occupied c
   = count_pieces (BoardState.board st))%nat.
Proof.
  intros H Hc.
  destruct (chess_move_piece_applied_inv _ _ _ _ _ _ H)
    as (i1 & j1 & i2 & j2 & p & H1 & Hp & H2).
  rewrite (chess_move_piece_applied _ _ _ _ _ _ _ _ _ _ H1 Hp H2) in H.
  simplify_eq. simpl.
  apply getitem2_Some in Hc as (i & j & Hl & Hc). simplify_eq.
  pose proof (count_pieces_set_cell _ i j (Some p) _ Hc) as C1.
  destruct (decide ((i, j) = (i1, j1))) as [[= -> ->]|Hne].
  - assert (cell (set_cell (BoardState.board st) i1 j1 (Some p)) i1 j1
            = Some (Some p)) as Hp' by (apply cell_set_cell_eq; eauto).
    pose proof (count_pieces_set_cell _ i1 j1 None _ Hp') as C2.
    simplify_eq. simpl in *. lia.
  - assert (cell (set_cell (BoardState.board st) i j (Some p)) i1 j1
            = Some (Some p)) as Hp' by (by rewrite cell_set_cell_ne).
    pose proof (count_pieces_set_cell _ i1 j1 None _ Hp') as C2.
    simpl in *. lia.
Qed.

(** An applied chess move puts no piece on the grid that was not there. *)
Lemma chess_move_piece_pieces st st' x1 y1 x2 y2 p :
  ChessBoard.move_piece (x1, y1) (x2, y2) st = (Py.Ok Applied, st') →
  p ∈ pieces (BoardState.board st') → p ∈ pieces (BoardState.board st).
Proof.
  intros H Hin.
  destruct (chess_move_piece_applied_inv _ _ _ _ _ _ H)
    as (i1 & j1 & i2 & j2 & q & H1 & Hq & H2).
  rewrite (chess_move_piece_applied _ _ _ _ _ _ _ _ _ _ H1 Hq H2) in H.
  simplify_eq. simpl in Hin.
  apply pieces_set_cell in Hin as [Hin|?]; [|done].
  apply pieces_set_cell in Hin as [Hin|?]; [done|].
  simplify_eq. apply elem_of_pieces. eauto.
Qed.

(** What an applied checkers move does to the grid: the moved piece leaves
    its cell for an empty one, and the grid it moves on is the one the rule
    left. *)
Lemma checkers_landed_count w a b i1 j1 i2 j2 x2 :
  cell b i1 j1 = Some (Some a) →
  cell b i2 j2 = Some None →
  count_pieces (CheckersBoard.board (landed w a b i1 j1 i2 j2 x2)) = count_pieces b.
Proof.
  intros Ha He. unfold landed.
  destruct (Store.deepcopy b (CheckersBoard.heap w)) as [g h]. simpl.
  pose proof (count_pieces_set_cell _ i2 j2 (Some a) _ He) as C1.
  assert ((i2, j2) ≠ (i1, j1)) as Hne by (intros [= -> ->]; congruence).
  assert (cell (set_cell b i2 j2 (Some a)) i1 j1 = Some (Some a)) as Ha'
    by (by rewrite cell_set_cell_ne).
  pose proof (count_pieces_set_cell _ i1 j1 None _ Ha') as C2.
  simpl in *. lia.
Qed.

Lemma checkers_landed_pieces w a b i1 j1 i2 j2 x2 q :
  cell b i1 j1 = Some (Some a) →
  q ∈ pieces (CheckersBoard.board (landed w a b i1 j1 i2 j2 x2)) → q ∈ pieces b.
Proof.
  intros Ha. unfold landed.
  destruct (Store.deepcopy b (CheckersBoard.heap w)) as [g h]. simpl. intros Hin.
  apply pieces_set_cell in Hin as [Hin|?]; [|done].
  apply pieces_set_cell in Hin as [Hin|?]; [done|].
  simplify_eq. apply elem_of_pieces. eauto.
Qed.

(** The grid a rule leaves still has the moving piece on its cell and the
    destination empty. *)
Lemma Accepts_cells w a x1 y1 x2 y2 b i1 j1 i2 j2 :
  Accepts w a x1 y1 x2 y2 b →
  cell (CheckersBoard.board w) i1 j1 = Some (Some a) →
  cell (CheckersBoard.board w) i2 j2 = Some None →
  cell b i1 j1 = Some (Some a) ∧ cell b i2 j2 = Some None.
Proof.
  intros [Hk Hd Hy|Hk Hd Hy|mi mj q Hk Hd Hy Hl Hq Hc] Ha He; [done|done|].
  split; rewrite cell_set_cell_ne; try done; intros [= -> ->]; congruence.
Qed.

(** Only the jump of a piece that is not a king takes a piece away. *)
Lemma Accepts_count w a x1 y1 x2 y2 b :
  Accepts w a x1 y1 x2 y2 b →
  (count_pieces b
   + (if negb (CheckersPiece.is_king (Store.objs (CheckersBoard.heap w) a))
         && (Z.abs (x2 - x1) =? 2)%Z then 1 else 0)
   = count_pieces (CheckersBoard.board w))%nat.
Proof.
  intros [Hk Hd Hy|Hk Hd Hy|mi mj q Hk Hd Hy Hl Hq Hc]; rewrite Hk; simpl.
  - lia.
  - destruct (direction_cases
               (CheckersPiece.color (Store.objs (CheckersBoard.heap w) a))) as [E|E];
      rewrite Hd, E; simpl; lia.
  - pose proof (count_pieces_set_cell _ mi mj None _ Hq) as C.
    destruct (direction_cases
               (CheckersPiece.color (Store.objs (CheckersBoard.heap w) a))) as [E|E];
      rewrite Hd, E; simpl in *; lia.
Qed.

Lemma Accepts_pieces w a x1 y1 x2 y2 b q :
  Accepts w a x1 y1 x2 y2 b → q ∈ pieces b → q ∈ pieces (CheckersBoard.board w).
Proof.
  intros [| |mi mj q' Hk Hd Hy Hl Hq Hc] Hin; [done|done|].
  by apply pieces_set_cell in Hin as [Hin|?].
Qed.

(** Whatever [move_piece] does on the chess board, no piece is on the grid
    afterwards that was not on it, and there are no more pieces. *)
Lemma chess_move_piece_adds_nothing st start end_ :
  (∀ p, p ∈ pieces (BoardState.board (ChessBoard.move_piece start end_ st).2) →
        p ∈ pieces (BoardState.board st))
  ∧ (count_pieces (BoardState.board (ChessBoard.move_piece start end_ st).2)
     ≤ count_pieces (BoardState.board st))%nat.
Proof.
  destruct start as [x1 y1], end_ as [x2 y2].
  destruct (ChessBoard.move_piece (x1, y1) (x2, y2) st) as [r st'] eqn:H.
  assert (r = Py.Ok Applied ∨ BoardState.board st' = BoardState.board st) as [->|E].
  { rewrite chess_move_piece_unfold in H.
    destruct (Py.getitem2 (BoardState.board st) x1 y1) as [[p|]|] eqn:Hg;
      [|by injection H as <- <-; right..].
    apply getitem2_Some in Hg as (i1 & j1 & H1 & Hp).
    cbv zeta in H. rewrite setitem2_locate in H.
    destruct (locate (BoardState.board st) x2 y2) as [[i2 j2]|]; simpl in H;
      [|by injection H as <- <-; right].
    rewrite setitem2_locate, locate_set_cell, H1 in H. simpl in H.
    injection H as <- <-. by left. }
  - simpl. split.
    + intros p. by eapply chess_move_piece_pieces.
    + destruct (chess_move_piece_applied_inv _ _ _ _ _ _ H)
        as (i1 & j1 & i2 & j2 & p & H1 & Hp & H2).
      destruct (locate_is_Some _ _ _ _ _ H2) as [c Hc].
      assert (Py.getitem2 (BoardState.board st) x2 y2 = Some c) as Hc'
        by (apply getitem2_Some; eauto).
      pose proof (chess_move_piece_count _ _ _ _ _ _ _ H Hc'). lia.
  - simpl. by rewrite E.
Qed.

Lemma checkers_move_piece_adds_nothing w start end_ :
  (∀ q, q ∈ pieces (CheckersBoard.board (CheckersBoard.move_piece start end_ w).2) →
        q ∈ pieces (CheckersBoard.board w))
  ∧ (count_pieces (CheckersBoard.board (CheckersBoard.move_piece start end_ w).2)
     ≤ count_pieces (CheckersBoard.board w))%nat.
Proof.
  destruct start as [x1 y1], end_ as [x2 y2].
  destruct (checkers_move_piece_cases w x1 y1 x2 y2)
    as [(a & i1 & j1 & i2 & j2 & b & H1 & Ha & H2 & He & Hacc & ->)|(r & _ & ->)];
    [|done].
  destruct (Accepts_cells _ _ _ _ _ _ _ _ _ _ _ Hacc Ha He) as [Ha' He'].
  simpl. split.
  - intros q Hq. eapply Accepts_pieces; [done|]. by eapply checkers_landed_pieces.
  - rewrite checkers_landed_count by done.
    pose proof (Accepts_count _ _ _ _ _ _ _ Hacc) as C. lia.
Qed.

Lemma pop_last {A} (l : list A) : snd <$> Py.pop l = last l.
Proof. unfold Py.pop. by destruct (last l). Qed.


(** C8, as the code has it. A piece leaves the grid in two ways: as the
    piece jumped over by a checkers piece that is not a king, and, in chess
    and hex-chess, as the occupant of the end cell of an applied move, which
    is overwritten. An applied chess or hex-chess move onto an empty cell
    keeps the number of pieces; an applied checkers move keeps it unless it
    is the jump of a piece that is not a king, which takes exactly one. No
    [move_piece] call, whatever its outcome, puts a piece on the grid that
    was not there, or leaves more pieces than it found. [undo_move] does:
    it makes the last snapshot the grid, and right after an applied chess
    or hex-chess move that is the grid before the move, with the piece the
    move overwrote. *)
Theorem pieces_leave_by_capture :
  (∀ st st' x1 y1 x2 y2 c,
      ChessBoard.move_piece (x1, y1) (x2, y2) st = (Py.Ok Applied, st')
      ∨ HexChessBoard.move_piece (x1, y1) (x2, y2) st = (Py.Ok Applied, st') →
      Py.getitem2 (BoardState.board st) x2 y2 = Some c →
      (∀ p, p ∈ pieces (BoardState.board st') → p ∈ pieces (BoardState.board st))
      ∧ (count_pieces (BoardState.board st') + occupied c
         = count_pieces (BoardState.board st))%nat)
  ∧ (∀ w w' x1 y1 x2 y2 a,
      CheckersBoard.move_piece (x1, y1) (x2, y2) w = (Py.Ok Applied, w') →
      Py.getitem2 (CheckersBoard.board w) x1 y1 = Some (Some a) →
      (∀ q, q ∈ pieces (CheckersBoard.board w') → q ∈ pieces (CheckersBoard.board w))
      ∧ (count_pieces (CheckersBoard.board w')
         + (if negb (CheckersPiece.is_king (Store.objs (CheckersBoard.heap w) a))
               && (Z.abs (x2 - x1) =? 2)%Z then 1 else 0)
         = count_pieces (CheckersBoard.board w))%nat)
  ∧ (∀ st start end_,
      let after := BoardState.board (ChessBoard.move_piece start end_ st).2 in
      HexChessBoard.move_piece start end_ st = ChessBoard.move_piece start end_ st
      ∧ (∀ p, p ∈ pieces after → p ∈ pieces (BoardState.board st))
      ∧ (count_pieces after ≤ count_pieces (BoardState.board st))%nat)
  ∧ (∀ w start end_,
      let after := CheckersBoard.board (CheckersBoard.move_piece start end_ w).2 in
      (∀ q, q ∈ pieces after → q ∈ pieces (CheckersBoard.board w))
      ∧ (count_pieces after ≤ count_pieces (CheckersBoard.board w))%nat)
  ∧ (∀ st,
      BoardState.board (ChessBoard.undo_move st).2
      = default (BoardState.board st) (last (BoardState.move_history st))
      ∧ HexChessBoard.undo_move st = ChessBoard.undo_move st)
  ∧ (∀ w,
      CheckersBoard.board (CheckersBoard.undo_move w).2
      = default (CheckersBoard.board w) (last (CheckersBoard.move_history w)))
  ∧ (∀ st st' start end_,
      ChessBoard.move_piece start end_ st = (Py.Ok Applied, st')
      ∨ HexChessBoard.move_piece start end_ st = (Py.Ok Applied, st') →
      BoardState.board (ChessBoard.undo_move st').2 = BoardState.board st
      ∧ BoardState.board (HexChessBoard.undo_move st').2 = BoardState.board st).
Proof.
  split; [|split; [|split; [|split; [|split; [|split]]]]].
  - intros st st' x1 y1 x2 y2 c H Hc. rewrite hex_move_piece_eq in H.
    assert (ChessBoard.move_piece (x1, y1) (x2, y2) st = (Py.Ok Applied, st')) as H'
      by (by destruct H).
    split.
    + intros p. by eapply chess_move_piece_pieces.
    + by eapply chess_move_piece_count.
  - intros w w' x1 y1 x2 y2 a H Hs.
    apply checkers_move_piece_applied_inv in H
      as (a' & i1 & j1 & i2 & j2 & b & H1 & Ha & H2 & He & Hacc & ->).
    apply getitem2_Some in Hs as (i & j & Hl & Hs). simplify_eq.
    destruct (Accepts_cells _ _ _ _ _ _ _ _ _ _ _ Hacc Ha He) as [Ha' He'].
    split.
    + intros q Hq. eapply Accepts_pieces; [done|].
      by eapply checkers_landed_pieces.
    + rewrite checkers_landed_count by done. by eapply Accepts_count.
  - intros st start end_. split; [by rewrite hex_move_piece_eq|].
    apply chess_move_piece_adds_nothing.
  - intros w start end_. apply checkers_move_piece_adds_nothing.
  - intros st. split; [|by rewrite hex_undo_move_eq].
    rewrite chess_undo_move_unfold. simpl. rewrite <- pop_last.
    by destruct (Py.pop (BoardState.move_history st)) as [[h g]|].
  - intros w. rewrite checkers_undo_move_unfold. simpl. rewrite <- pop_last.
    by destruct (Py.pop (CheckersBoard.move_history w)) as [[h g]|].
  - intros st st' start end_ H. rewrite hex_move_piece_eq in H. rewrite hex_undo_move_eq.
    assert (ChessBoard.move_piece start end_ st = (Py.Ok Applied, st')) as H'
      by (by destruct H).
    by rewrite (chess_undo_after_move _ _ _ _ H').
Qed.

Lemma pieces_leave_by_capture_witness :
  (count_pieces (BoardState.board
     (ChessBoard.move_piece (6, 4)%Z (1, 4)%Z ChessBoard.init).2) + 1
   = count_pieces (BoardState.board ChessBoard.init))%nat
  ∧ (count_pieces (CheckersBoard.board
       (CheckersBoard.move_piece (5, 2)%Z (3, 4)%Z Scenario.jump).2) + 1
     = count_pieces (CheckersBoard.board Scenario.jump))%nat
  ∧ BoardState.board
      (ChessBoard.undo_move (ChessBoard.move_piece (6, 4)%Z (1, 4)%Z ChessBoard.init).2).2
    = BoardState.board ChessBoard.init.
Proof.
  destruct pieces_leave_by_capture as (Hc & Hk & _ & _ & _ & _ & Hu). split; [|split].
  - apply (Hc ChessBoard.init _ 6 4 1 4 (Some {| kind := Pawn; color := black |}));
      [left|]; reflexivity.
  - apply (Hk Scenario.jump _ 5 2 3 4 0%nat); vm_compute; reflexivity.
  - apply (Hu ChessBoard.init _ (6, 4) (1, 4)). left. reflexivity.
Defined.

(** C8, as the claim has it, fails: on the initial chess board the white
    pawn of the e-file moved onto the black pawn of that file is an applied
    move, and 31 of the 32 pieces remain. *)
Lemma chess_move_onto_piece_removes_it :
  let st := ChessBoard.init in
  let r := ChessBoard.move_piece (6, 4) (1, 4) st in
  r.1 = Py.Ok Applied
  ∧ count_pieces (BoardState.board st) = 32%nat
  ∧ count_pieces (BoardState.board r.2) = 31%nat
  ∧ ¬ (count_pieces (BoardState.board st) ≤ count_pieces (BoardState.board r.2))%nat.
Proof. repeat split. vm_compute. lia. Qed.

(** C8 also fails in its last part: pieces appear on the grid after
    board initialization, through [undo_move]. On the initial chess board
    the white pawn of the e-file takes the black one, 31 pieces remain, and
    one [undo_move] makes them 32 again. On the initial checkers board,
    after one step and one [undo_move] the 24 pieces on the grid are
    objects created after the board was initialized, none of which was on
    the grid before the undo. *)
Lemma undo_puts_pieces_on_the_grid :
  (let st := (ChessBoard.move_piece (6, 4) (1, 4) ChessBoard.init).2 in
   count_pieces (BoardState.board st) = 31%nat
   ∧ count_pieces (BoardState.board (ChessBoard.undo_move st).2) = 32%nat)
  ∧ (let w := (CheckersBoard.move_piece (5, 2) (4, 3) CheckersBoard.init).2 in
     let g := CheckersBoard.board (CheckersBoard.undo_move w).2 in
     count_pieces g = 24%nat
     ∧ Forall (λ q, Store.next (CheckersBoard.heap CheckersBoard.init) ≤ q
                    ∧ q ∉ pieces (CheckersBoard.board w))%nat (pieces g)).
Proof.
  split; [by vm_compute|]. cbv zeta. split; [by vm_compute|].
  apply Forall_forall. intros q Hq. 
  assert (Forall (λ q, bool_decide (24 ≤ q)%nat
                       && bool_decide (q ∉ pieces (CheckersBoard.board
                            (CheckersBoard.move_piece (5, 2) (4, 3) CheckersBoard.init).2)))
                 (pieces (CheckersBoard.board (CheckersBoard.undo_move
                            (CheckersBoard.move_piece (5, 2) (4, 3) CheckersBoard.init).2).2)))
    as Hall by (vm_compute; repeat constructor).
  rewrite Forall_forall in Hall. specialize (Hall q Hq).
  apply andb_prop_elim in Hall as [H1 H2].
  apply bool_decide_unpack in H1, H2. split; [|done].
  change (Store.next (CheckersBoard.heap CheckersBoard.init)) with 24%nat. done.
Qed.

(** Reading a cell through Python indices after a write by position. *)
Lemma getitem2_set_cell_eq {A} (g : list (list A)) x y i j v :
  locate g x y = Some (i, j) → Py.getitem2 (set_cell g i j v) x y = Some v.
Proof.
  intros Hl. apply getitem2_Some. exists i, j. rewrite locate_set_cell.
  split; [done|]. apply cell_set_cell_eq. by eapply locate_is_Some.
Qed.

Lemma getitem2_set_cell_ne {A} (g : list (list A)) x y i j i' j' v :
  locate g x y = Some (i, j) → (i', j') ≠ (i, j) →
  Py.getitem2 (set_cell g i' j' v) x y = Py.getitem2 g x y.
Proof.
  intros Hl Hne. rewrite !getitem2_locate, locate_set_cell, Hl. simpl.
  by apply cell_set_cell_ne.
Qed.

(** The grid after an applied checkers move, cell by cell. *)
Lemma checkers_landed_board w a b i1 j1 i2 j2 x2 :
  CheckersBoard.board (landed w a b i1 j1 i2 j2 x2)
  = set_cell (set_cell b i2 j2 (Some a)) i1 j1 None.
Proof.
  unfold landed. by destruct (Store.deepcopy b (CheckersBoard.heap w)).
Qed.

Lemma two_directions c :
  2 * direction c = match c with white => -2 | black => 2 end.
Proof. by destruct c. Qed.

(** C3. For a checkers piece that is not a king, a jump of two rows in its
    forward direction and two columns sideways onto an empty cell is
    applied exactly when the cell in between holds a piece of the other
    colour; once applied, that cell is empty, the piece stands on the end
    cell and its start cell is empty. In particular, with a white piece
    that is not a king on (5,2), a black piece on (4,3) and (3,4) empty,
    the move from (5,2) to (3,4) is applied and leaves (4,3) empty, one
    piece fewer on the grid. *)
Theorem checkers_jump_capture :
  (∀ w a x1 y1 x2 y2,
      Py.getitem2 (CheckersBoard.board w) x1 y1 = Some (Some a) →
      CheckersPiece.is_king (Store.objs (CheckersBoard.heap w) a) = false →
      x2 - x1 = match CheckersPiece.color (Store.objs (CheckersBoard.heap w) a) with
                | white => -2 | black => 2 end →
      Z.abs (y2 - y1) = 2 →
      Py.getitem2 (CheckersBoard.board w) x2 y2 = Some None →
      ((∃ w', CheckersBoard.move_piece (x1, y1) (x2, y2) w = (Py.Ok Applied, w'))
       ↔ ∃ q, Py.getitem2 (CheckersBoard.board w) ((x1 + x2) / 2) ((y1 + y2) / 2)
                = Some (Some q)
              ∧ CheckersPiece.color (Store.objs (CheckersBoard.heap w) q)
                ≠ CheckersPiece.color (Store.objs (CheckersBoard.heap w) a))
      ∧ (∀ w', CheckersBoard.move_piece (x1, y1) (x2, y2) w = (Py.Ok Applied, w') →
           Py.getitem2 (CheckersBoard.board w') ((x1 + x2) / 2) ((y1 + y2) / 2)
             = Some None
           ∧ Py.getitem2 (CheckersBoard.board w') x2 y2 = Some (Some a)
           ∧ Py.getitem2 (CheckersBoard.board w') x1 y1 = Some None
           ∧ (count_pieces (CheckersBoard.board w') + 1
              = count_pieces (CheckersBoard.board w))%nat))
  ∧ (∀ w a q,
      Py.getitem2 (CheckersBoard.board w) 5 2 = Some (Some a) →
      Store.objs (CheckersBoard.heap w) a = CheckersPiece.new white →
      Py.getitem2 (CheckersBoard.board w) 4 3 = Some (Some q) →
      CheckersPiece.color (Store.objs (CheckersBoard.heap w) q) = black →
      Py.getitem2 (CheckersBoard.board w) 3 4 = Some None →
      ∃ w', CheckersBoard.move_piece (5, 2) (3, 4) w = (Py.Ok Applied, w')
            ∧ Py.getitem2 (CheckersBoard.board w') 4 3 = Some None
            ∧ (count_pieces (CheckersBoard.board w') + 1
               = count_pieces (CheckersBoard.board w))%nat).
Proof.
  assert (∀ w a x1 y1 x2 y2,
      Py.getitem2 (CheckersBoard.board w) x1 y1 = Some (Some a) →
      CheckersPiece.is_king (Store.objs (CheckersBoard.heap w) a) = false →
      x2 - x1 = match CheckersPiece.color (Store.objs (CheckersBoard.heap w) a) with
                | white => -2 | black => 2 end →
      Z.abs (y2 - y1) = 2 →
      Py.getitem2 (CheckersBoard.board w) x2 y2 = Some None →
      ((∃ w', CheckersBoard.move_piece (x1, y1) (x2, y2) w = (Py.Ok Applied, w'))
       ↔ ∃ q, Py.getitem2 (CheckersBoard.board w) ((x1 + x2) / 2) ((y1 + y2) / 2)
                = Some (Some q)
              ∧ CheckersPiece.color (Store.objs (CheckersBoard.heap w) q)
                ≠ CheckersPiece.color (Store.objs (CheckersBoard.heap w) a))
      ∧ (∀ w', CheckersBoard.move_piece (x1, y1) (x2, y2) w = (Py.Ok Applied, w') →
           Py.getitem2 (CheckersBoard.board w') ((x1 + x2) / 2) ((y1 + y2) / 2)
             = Some None
           ∧ Py.getitem2 (CheckersBoard.board w') x2 y2 = Some (Some a)
           ∧ Py.getitem2 (CheckersBoard.board w') x1 y1 = Some None
           ∧ (count_pieces (CheckersBoard.board w') + 1
              = count_pieces (CheckersBoard.board w))%nat)) as General.
  { intros w a x1 y1 x2 y2 Hs Hk Hdx Hdy He.
    rewrite <- two_directions in Hdx.
    pose proof (direction_cases
                  (CheckersPiece.color (Store.objs (CheckersBoard.heap w) a))) as Hdir.
    apply getitem2_Some in Hs as (i1 & j1 & H1 & Ha).
    apply getitem2_Some in He as (i2 & j2 & H2 & He).
    assert (∀ w', CheckersBoard.move_piece (x1, y1) (x2, y2) w = (Py.Ok Applied, w') →
              ∃ mi mj q,
                locate (CheckersBoard.board w) ((x1 + x2) / 2) ((y1 + y2) / 2)
                  = Some (mi, mj)
                ∧ cell (CheckersBoard.board w) mi mj = Some (Some q)
                ∧ CheckersPiece.color (Store.objs (CheckersBoard.heap w) q)
                  ≠ CheckersPiece.color (Store.objs (CheckersBoard.heap w) a)
                ∧ w' = landed w a (set_cell (CheckersBoard.board w) mi mj None)
                         i1 j1 i2 j2 x2) as Inv.
    { intros w' H.
      apply checkers_move_piece_applied_inv in H
        as (a' & i1' & j1' & i2' & j2' & b & H1' & Ha' & H2' & He' & Hacc & ->).
      simplify_eq.
      destruct Hacc as [Hk' _ _|_ Hd _|mi mj q _ _ _ Hl Hq Hc].
      - congruence.
      - lia.
      - by exists mi, mj, q. }
    split; [split|].
    - intros [w' H]. destruct (Inv w' H) as (mi & mj & q & Hl & Hq & Hc & _).
      exists q. split; [|done]. apply getitem2_Some. eauto.
    - intros (q & Hm & Hc). apply getitem2_Some in Hm as (mi & mj & Hl & Hq).
      eexists. apply checkers_move_piece_applied_intro; try done.
      by eapply accepts_jump.
    - intros w' H. destruct (Inv w' H) as (mi & mj & q & Hl & Hq & Hc & ->).
      rewrite checkers_landed_board.
      assert ((mi, mj) ≠ (i1, j1)) as Hm1 by (intros [= -> ->]; congruence).
      assert ((mi, mj) ≠ (i2, j2)) as Hm2 by (intros [= -> ->]; congruence).
      assert ((i1, j1) ≠ (i2, j2)) as H12 by (intros [= -> ->]; congruence).
      set (b := set_cell (CheckersBoard.board w) mi mj None).
      assert (cell b i1 j1 = Some (Some a)) as Ha'
        by (unfold b; by rewrite cell_set_cell_ne).
      assert (cell b i2 j2 = Some None) as He'
        by (unfold b; by rewrite cell_set_cell_ne).
      repeat split.
      + rewrite getitem2_set_cell_ne with (i := mi) (j := mj);
          [|by (unfold b; rewrite !locate_set_cell)|congruence].
        rewrite getitem2_set_cell_ne with (i := mi) (j := mj);
          [|by (unfold b; rewrite !locate_set_cell)|congruence].
        by apply getitem2_set_cell_eq.
      + rewrite getitem2_set_cell_ne with (i := i2) (j := j2);
          [|by (unfold b; rewrite !locate_set_cell)|done].
        apply getitem2_set_cell_eq. by (unfold b; rewrite !locate_set_cell).
      + apply getitem2_set_cell_eq. by (unfold b; rewrite !locate_set_cell).
      + pose proof (count_pieces_set_cell _ mi mj None _ Hq) as C0.
        pose proof (checkers_landed_count w a b i1 j1 i2 j2 x2 Ha' He') as C1.
        rewrite checkers_landed_board in C1. fold b in C0. simpl in *. lia. }
  split; [exact General|].
  intros w a q Hs Hp Hm Hq He.
  destruct (General w a 5 2 3 4 Hs) as [[_ Hiff] Hafter];
    try (rewrite Hp; reflexivity); try done.
  destruct Hiff as [w' H].
  { exists q. split; [exact Hm|]. rewrite Hp, Hq. done. }
  exists w'. destruct (Hafter w' H) as (Hmid & _ & _ & Hcount). done.
Qed.

Lemma checkers_jump_capture_witness :
  ((∃ w', CheckersBoard.move_piece (4, 3) (2, 5) Scenario.opening = (Py.Ok Applied, w'))
   ↔ ∃ q, Py.getitem2 (CheckersBoard.board Scenario.opening) ((4 + 2) / 2) ((3 + 5) / 2)
            = Some (Some q)
          ∧ CheckersPiece.color (Store.objs (CheckersBoard.heap Scenario.opening) q)
            ≠ CheckersPiece.color (Store.objs (CheckersBoard.heap Scenario.opening) 13))
  ∧ ∃ w', CheckersBoard.move_piece (5, 2) (3, 4) Scenario.jump = (Py.Ok Applied, w')
          ∧ Py.getitem2 (CheckersBoard.board w') 4 3 = Some None
          ∧ (count_pieces (CheckersBoard.board w') + 1
             = count_pieces (CheckersBoard.board Scenario.jump))%nat.
Proof.
  destruct checkers_jump_capture as [General Concrete]. split.
  - apply (General Scenario.opening 13%nat 4 3 2 5); vm_compute; reflexivity.
  - apply (Concrete Scenario.jump 0%nat 1%nat); vm_compute; reflexivity.
Defined.

(** C6. For a checkers king the move is applied exactly when the end cell
    is empty and the move goes as many rows as columns, one or two. Once
    applied, the grid is the old one with the king written on the end cell
    and the start cell cleared, and nothing else: every other piece stands
    where it stood, the one a two-step move passes over included, and the
    number of pieces is the same. *)
Theorem checkers_king_move (w : CheckersBoard.t) (a : nat) (x1 y1 x2 y2 : Z) :
  Py.getitem2 (CheckersBoard.board w) x1 y1 = Some (Some a) →
  CheckersPiece.is_king (Store.objs (CheckersBoard.heap w) a) = true →
  ((∃ w', CheckersBoard.move_piece (x1, y1) (x2, y2) w = (Py.Ok Applied, w'))
   ↔ Py.getitem2 (CheckersBoard.board w) x2 y2 = Some None
     ∧ Z.abs (x2 - x1) = Z.abs (y2 - y1)
     ∧ (Z.abs (x2 - x1) = 1 ∨ Z.abs (x2 - x1) = 2))
  ∧ (∀ w', CheckersBoard.move_piece (x1, y1) (x2, y2) w = (Py.Ok Applied, w') →
       (Py.setitem2 (CheckersBoard.board w) x2 y2 (Some a)
          ≫= λ b, Py.setitem2 b x1 y1 None) = Some (CheckersBoard.board w')
       ∧ count_pieces (CheckersBoard.board w') = count_pieces (CheckersBoard.board w)
       ∧ ∀ x y q, Py.getitem2 (CheckersBoard.board w) x y = Some (Some q) → q ≠ a →
                  Py.getitem2 (CheckersBoard.board w') x y = Some (Some q)).
Proof.
  intros Hs Hk.
  apply getitem2_Some in Hs as (i1 & j1 & H1 & Ha).
  assert (∀ w', CheckersBoard.move_piece (x1, y1) (x2, y2) w = (Py.Ok Applied, w') →
            ∃ i2 j2, locate (CheckersBoard.board w) x2 y2 = Some (i2, j2)
                     ∧ cell (CheckersBoard.board w) i2 j2 = Some None
                     ∧ Z.abs (x2 - x1) = Z.abs (y2 - y1)
                     ∧ (Z.abs (y2 - y1) = 1 ∨ Z.abs (y2 - y1) = 2)
                     ∧ w' = landed w a (CheckersBoard.board w) i1 j1 i2 j2 x2) as Inv.
  { intros w' H.
    apply checkers_move_piece_applied_inv in H
      as (a' & i1' & j1' & i2 & j2 & b & H1' & Ha' & H2 & He & Hacc & ->).
    simplify_eq. exists i2, j2.
    destruct Hacc as [_ Hd Hy|Hk' _ _|mi mj q Hk' _ _ _ _ _]; [done|congruence..]. }
  split; [split|].
  - intros [w' H]. destruct (Inv w' H) as (i2 & j2 & H2 & He & Hd & Hy & _).
    split; [apply getitem2_Some; eauto|]. split; [done|]. by rewrite Hd.
  - intros (He & Hd & Hy). apply getitem2_Some in He as (i2 & j2 & H2 & He).
    eexists. apply checkers_move_piece_applied_intro; try done.
    apply accepts_king; [done|done|by rewrite <- Hd].
  - intros w' H. destruct (Inv w' H) as (i2 & j2 & H2 & He & _ & _ & ->).
    rewrite checkers_landed_board. split; [|split].
    + rewrite setitem2_locate, H2. simpl.
      by rewrite setitem2_locate, locate_set_cell, H1.
    + rewrite <- checkers_landed_board with (w := w) (x2 := x2).
      by apply checkers_landed_count.
    + intros x y q Hq Hne. apply getitem2_Some in Hq as (i & j & Hl & Hq).
      rewrite !getitem2_set_cell_ne with (i := i) (j := j);
        [apply getitem2_Some; eauto|done|..].
      * intros [= -> ->]. congruence.
      * by rewrite locate_set_cell.
      * intros [= -> ->]. congruence.
Qed.

Lemma checkers_king_move_witness :
  ((∃ w', CheckersBoard.move_piece (4, 3) (2, 5) Scenario.king = (Py.Ok Applied, w'))
   ↔ Py.getitem2 (CheckersBoard.board Scenario.king) 2 5 = Some None
     ∧ Z.abs (2 - 4) = Z.abs (5 - 3)
     ∧ (Z.abs (2 - 4) = 1 ∨ Z.abs (2 - 4) = 2))
  ∧ (∀ w', CheckersBoard.move_piece (4, 3) (2, 5) Scenario.king = (Py.Ok Applied, w') →
       (Py.setitem2 (CheckersBoard.board Scenario.king) 2 5 (Some 0%nat)
          ≫= λ b, Py.setitem2 b 4 3 None) = Some (CheckersBoard.board w')
       ∧ count_pieces (CheckersBoard.board w')
         = count_pieces (CheckersBoard.board Scenario.king)
       ∧ ∀ x y q, Py.getitem2 (CheckersBoard.board Scenario.king) x y = Some (Some q) →
                  q ≠ 0%nat →
                  Py.getitem2 (CheckersBoard.board w') x y = Some (Some q)).
Proof.
  apply (checkers_king_move Scenario.king 0%nat 4 3 2 5); vm_compute; reflexivity.
Defined.

(** The store after an applied checkers move: the objects that existed are
    as they were, except that the moved piece may have been promoted. *)
Lemma checkers_landed_heap w a b i1 j1 i2 j2 x2 c :
  (c < Store.next (CheckersBoard.heap w))%nat →
  Store.objs (CheckersBoard.heap (landed w a b i1 j1 i2 j2 x2)) c
  = if Nat.eqb c a
       && last_rank (CheckersPiece.color (Store.objs (CheckersBoard.heap w) a)) x2
    then CheckersPiece.promote (Store.objs (CheckersBoard.heap w) c)
    else Store.objs (CheckersBoard.heap w) c.
Proof.
  intros Hc. unfold landed.
  pose proof (deepcopy_extends b (CheckersBoard.heap w)) as [_ Hext].
  destruct (Store.deepcopy b (CheckersBoard.heap w)) as [g h]. simpl in *.
  destruct (Nat.eqb_spec c a) as [->|Hne]; simpl.
  - rewrite (Hext a Hc). destruct (last_rank _ x2); simpl.
    + by rewrite Nat.eqb_refl.
    + by apply Hext.
  - destruct (last_rank _ x2); simpl.
    + destruct (Nat.eqb_spec c a); [done|]. by apply Hext.
    + by apply Hext.
Qed.

(** C7. When an applied checkers move lands a piece on the last rank for
    its colour (end row 0 for white, end row 7 for black), that same object
    stands on the end cell with its king flag set, its colour unchanged.
    And the flag is never cleared: [promote] sets it, and neither
    [move_piece], however it ends, nor [undo_move] turns a king among the
    objects of the store into a piece that is not one. *)
Theorem checkers_promotion :
  (∀ w w' a x1 y1 x2 y2,
      Py.getitem2 (CheckersBoard.board w) x1 y1 = Some (Some a) →
      (a < Store.next (CheckersBoard.heap w))%nat →
      CheckersBoard.move_piece (x1, y1) (x2, y2) w = (Py.Ok Applied, w') →
      (CheckersPiece.color (Store.objs (CheckersBoard.heap w) a) = white ∧ x2 = 0)
      ∨ (CheckersPiece.color (Store.objs (CheckersBoard.heap w) a) = black ∧ x2 = 7) →
      Py.getitem2 (CheckersBoard.board w') x2 y2 = Some (Some a)
      ∧ CheckersPiece.is_king (Store.objs (CheckersBoard.heap w') a) = true
      ∧ CheckersPiece.color (Store.objs (CheckersBoard.heap w') a)
        = CheckersPiece.color (Store.objs (CheckersBoard.heap w) a))
  ∧ (∀ p, CheckersPiece.is_king (CheckersPiece.promote p) = true)
  ∧ (∀ w a start end_,
      (a < Store.next (CheckersBoard.heap w))%nat →
      CheckersPiece.is_king (Store.objs (CheckersBoard.heap w) a) = true →
      CheckersPiece.is_king
        (Store.objs (CheckersBoard.heap (CheckersBoard.move_piece start end_ w).2) a)
      = true
      ∧ CheckersPiece.is_king
          (Store.objs (CheckersBoard.heap (CheckersBoard.undo_move w).2) a)
        = true).
Proof.
  split; [|split].
  - intros w w' a x1 y1 x2 y2 Hs Hlt H Hrank.
    apply getitem2_Some in Hs as (i1 & j1 & H1 & Ha).
    apply checkers_move_piece_applied_inv in H
      as (a' & i1' & j1' & i2 & j2 & b & H1' & Ha' & H2 & He & Hacc & ->).
    simplify_eq.
    destruct (Accepts_cells _ _ _ _ _ _ _ _ _ _ _ Hacc Ha He) as [Hab Heb].
    split.
    + rewrite checkers_landed_board.
      rewrite getitem2_set_cell_ne with (i := i2) (j := j2).
      * apply getitem2_set_cell_eq. by rewrite (Accepts_locate _ _ _ _ _ _ _ _ _ Hacc).
      * by rewrite locate_set_cell, (Accepts_locate _ _ _ _ _ _ _ _ _ Hacc).
      * intros [= -> ->]. congruence.
    + rewrite checkers_landed_heap by done. rewrite Nat.eqb_refl.
      assert (last_rank (CheckersPiece.color (Store.objs (CheckersBoard.heap w) a)) x2
              = true) as ->.
      { unfold last_rank. destruct Hrank as [[-> ->]|[-> ->]]; reflexivity. }
      done.
  - done.
  - intros w a [x1 y1] [x2 y2] Hlt Hk. split.
    + destruct (checkers_move_piece_cases w x1 y1 x2 y2)
        as [(a' & i1 & j1 & i2 & j2 & b & _ & _ & _ & _ & _ & ->)|(r & _ & ->)];
        [|done].
      simpl. rewrite checkers_landed_heap by done.
      by destruct (_ && _).
    + rewrite checkers_undo_move_unfold. simpl.
      by destruct (Py.pop (CheckersBoard.move_history w)) as [[h g]|].
Qed.

Lemma checkers_promotion_witness :
  (Py.getitem2 (CheckersBoard.board
      (CheckersBoard.move_piece (1, 2) (0, 3) Scenario.before_last_rank).2) 0 3
   = Some (Some 0%nat)
   ∧ CheckersPiece.is_king
       (Store.objs (CheckersBoard.heap
          (CheckersBoard.move_piece (1, 2) (0, 3) Scenario.before_last_rank).2) 0)
     = true
   ∧ CheckersPiece.color
       (Store.objs (CheckersBoard.heap
          (CheckersBoard.move_piece (1, 2) (0, 3) Scenario.before_last_rank).2) 0)
     = CheckersPiece.color
         (Store.objs (CheckersBoard.heap Scenario.before_last_rank) 0))
  ∧ (CheckersPiece.is_king
       (Store.objs (CheckersBoard.heap
          (CheckersBoard.move_piece (4, 3) (3, 2) Scenario.king).2) 0) = true
     ∧ CheckersPiece.is_king
         (Store.objs (CheckersBoard.heap (CheckersBoard.undo_move Scenario.king).2) 0)
       = true).
Proof.
  destruct checkers_promotion as (Hland & _ & Hmono). split.
  - apply (Hland Scenario.before_last_rank _ 0%nat 1 2 0 3).
    + vm_compute. reflexivity.
    + vm_compute. lia.
    + vm_compute. reflexivity.
    + left. vm_compute. split; reflexivity.
  - apply (Hmono Scenario.king 0%nat (4, 3) (3, 2)).
    + vm_compute. lia.
    + vm_compute. reflexivity.
Defined.

Lemma pop_Some {A} (l h : list A) (g : A) : Py.pop l = Some (h, g) → l = h ++ [g].
Proof.
  unfold Py.pop. destruct (last l) as [a|] eqn:E; [|done].
  apply last_Some in E as [l' ->]. rewrite removelast_last. congruence.
Qed.

(** What one [undo_move] restores after an applied checkers move: the grid
    as validation left it. For a king's move and for a single step that is
    the grid before the call; for a jump it is that grid without the piece
    jumped over. *)
Lemma checkers_undo_after_move w w' x1 y1 x2 y2 :
  Forall (allocated (CheckersBoard.heap w)) (CheckersBoard.board w) →
  CheckersBoard.move_piece (x1, y1) (x2, y2) w = (Py.Ok Applied, w') →
  ∃ a b, Accepts w a x1 y1 x2 y2 b
         ∧ CheckersBoard.view (CheckersBoard.heap (CheckersBoard.undo_move w').2)
                              (CheckersBoard.board (CheckersBoard.undo_move w').2)
           = CheckersBoard.view (CheckersBoard.heap w) b
         ∧ CheckersBoard.move_history (CheckersBoard.undo_move w').2
           = CheckersBoard.move_history w.
Proof.
  intros Hwf H.
  apply checkers_move_piece_applied_inv in H
    as (a & i1 & j1 & i2 & j2 & b & H1 & Ha & H2 & He & Hacc & ->).
  exists a, b. split; [done|].
  assert (Forall (allocated (CheckersBoard.heap w)) b) as Hb.
  { destruct Hacc; [done|done|]. by apply allocated_set_cell. }
  pose proof (allocated_cell _ _ _ _ _ Hwf Ha) as Hlt.
  pose proof (deepcopy_copies b (CheckersBoard.heap w) Hb) as Hcp.
  rewrite checkers_undo_move_unfold. unfold landed.
  destruct (Store.deepcopy b (CheckersBoard.heap w)) as [g h]. simpl in *.
  rewrite pop_snoc. simpl. split; [|done].
  destruct (last_rank _ x2).
  - by apply copies_view_write.
  - by apply copies_view.
Qed.

(** The boards the program builds are well formed. *)
Lemma checkers_wf_init : wf CheckersBoard.init.
Proof.
  split; [|constructor]. vm_compute.
  repeat (constructor; [repeat (constructor; [intros ? [=]; subst; lia|]);
                        constructor|]).
  constructor.
Qed.

Lemma checkers_wf_move_piece w start end_ :
  wf w → wf (CheckersBoard.move_piece start end_ w).2.
Proof.
  destruct start as [x1 y1], end_ as [x2 y2]. intros [Hb Hh].
  destruct (checkers_move_piece_cases w x1 y1 x2 y2)
    as [(a & i1 & j1 & i2 & j2 & b & H1 & Ha & H2 & He & Hacc & ->)|(r & _ & ->)];
    [|done].
  simpl.
  assert (Forall (allocated (CheckersBoard.heap w)) b) as Hbb.
  { destruct Hacc; [done|done|]. by apply allocated_set_cell. }
  pose proof (allocated_cell _ _ _ _ _ Hb Ha) as Hlt.
  pose proof (deepcopy_copies b (CheckersBoard.heap w) Hbb) as Hcp.
  pose proof (deepcopy_extends b (CheckersBoard.heap w)) as [Hn _].
  unfold wf, landed.
  destruct (Store.deepcopy b (CheckersBoard.heap w)) as [g h]. simpl in *.
  set (h' := if last_rank _ x2 then _ else h).
  assert (Store.next h' = Store.next h) as Hn' by (unfold h'; by destruct (last_rank _ _)).
  split.
  - apply allocated_mono with (h := CheckersBoard.heap w); [lia|].
    apply allocated_set_cell; [|done].
    apply allocated_set_cell; [done|]. by intros ? [= <-].
  - apply Forall_app. split.
    + eapply Forall_impl; [exact Hh|]. intros g0.
      apply allocated_mono. lia.
    + constructor; [|done]. apply allocated_mono with (h := h); [lia|].
      by eapply copies_allocated.
Qed.

Lemma checkers_wf_undo_move w : wf w → wf (CheckersBoard.undo_move w).2.
Proof.
  intros [Hb Hh]. rewrite checkers_undo_move_unfold. simpl.
  destruct (Py.pop (CheckersBoard.move_history w)) as [[h g]|] eqn:E; [|done].
  apply pop_Some in E. rewrite E in Hh. apply Forall_app in Hh as [Hh Hg].
  apply Forall_cons in Hg as [Hg _]. by split.
Qed.

(** C1, on the checkers board, at a capture. From the initial position
    white plays (5,2) to (4,3) and black (2,5) to (3,4); call the position
    reached P. White then jumps (4,3) to (2,5) over the black piece on
    (3,4), which is applied, and one [undo_move] follows. The snapshot that
    was pushed, and so the grid after the undo, has (3,4) empty: it is not
    P, which has the black piece there, but P with the capture already
    made (23 pieces instead of 24). *)
Theorem checkers_undo_after_capture :
  let P := Scenario.opening in
  let r := CheckersBoard.move_piece (4, 3) (2, 5) P in
  let undone := (CheckersBoard.undo_move r.2).2 in
  r.1 = Py.Ok Applied
  ∧ Py.getitem2 (CheckersBoard.view (CheckersBoard.heap P) (CheckersBoard.board P)) 3 4
    = Some (Some (CheckersPiece.new black))
  ∧ Py.getitem2 (CheckersBoard.view (CheckersBoard.heap undone)
                   (CheckersBoard.board undone)) 3 4
    = Some None
  ∧ CheckersBoard.view (CheckersBoard.heap undone) (CheckersBoard.board undone)
    ≠ CheckersBoard.view (CheckersBoard.heap P) (CheckersBoard.board P)
  ∧ count_pieces (CheckersBoard.board P) = 24%nat
  ∧ count_pieces (CheckersBoard.board undone) = 23%nat.
Proof.
  cbv zeta. split; [|split; [|split; [|split; [|split]]]].
  - vm_compute. reflexivity.
  - vm_compute. reflexivity.
  - vm_compute. reflexivity.
  - intros H. apply (f_equal (λ g, Py.getitem2 g 3 4)) in H.
    vm_compute in H. discriminate H.
  - vm_compute. reflexivity.
  - vm_compute. reflexivity.
Qed.

(** ** The game sessions *)

Lemma chess_play_step_attempt g start end_ s e o b' :
  String.eqb (Py.lower start) "undo" || String.eqb (Py.lower end_) "undo" = false →
  ChessGame.coords start g = (Py.Ok s, g) →
  ChessGame.coords end_ g = (Py.Ok e, g) →
  ChessBoard.move_piece s e (ChessGame.board g) = (Py.Ok o, b') →
  ChessGame.play_step start end_ g
  = (Py.Ok tt,
     {| ChessGame.board := b';
        ChessGame.turn := if Color_eqb (ChessGame.turn g) white then black else white;
        ChessGame.move_count := ChessGame.move_count g + 1 |}).
Proof.
  intros Hu Hs He Hm. unfold ChessGame.play_step. rewrite Hu.
  unfold Py.try_except, Py.bind. rewrite Hs, He.
  unfold ChessGame.on_board. rewrite Hm. reflexivity.
Qed.

Lemma hex_play_step_attempt g start end_ s e o b' :
  is_Some (Py.getitem (HexChessGame.players g) (HexChessGame.turn_index g)) →
  String.eqb (Py.lower start) "undo" || String.eqb (Py.lower end_) "undo" = false →
  HexChessGame.convert_to_coords start g = (Py.Ok s, g) →
  HexChessGame.convert_to_coords end_ g = (Py.Ok e, g) →
  HexChessBoard.move_piece s e (HexChessGame.board g) = (Py.Ok o, b') →
  HexChessGame.play_step start end_ g
  = (Py.Ok tt,
     {| HexChessGame.board := b';
        HexChessGame.players := HexChessGame.players g;
        HexChessGame.turn_index := (HexChessGame.turn_index g + 1) mod 2;
        HexChessGame.move_count := HexChessGame.move_count g + 1 |}).
Proof.
  intros [c Hc] Hu Hs He Hm. unfold HexChessGame.play_step.
  unfold Py.bind at 1 2. unfold Py.get at 1. rewrite Hc. simpl. rewrite Hu.
  unfold Py.try_except, Py.bind. rewrite Hs, He.
  unfold HexChessGame.on_board. rewrite Hm. reflexivity.
Qed.

(** C2, as the code has it. In a chess or hex-chess session, an attempt
    whose two inputs are coordinates and whose [move_piece] call returns,
    be the move applied or rejected, switches the turn and adds exactly one
    to [move_count]. *)
Theorem attempt_switches_turn_and_counts :
  (∀ g start end_ s e o b',
      String.eqb (Py.lower start) "undo" || String.eqb (Py.lower end_) "undo" = false →
      ChessGame.coords start g = (Py.Ok s, g) →
      ChessGame.coords end_ g = (Py.Ok e, g) →
      ChessBoard.move_piece s e (ChessGame.board g) = (Py.Ok o, b') →
      let g' := (ChessGame.play_step start end_ g).2 in
      ChessGame.board g' = b'
      ∧ ChessGame.turn g' ≠ ChessGame.turn g
      ∧ ChessGame.move_count g' = ChessGame.move_count g + 1)
  ∧ (∀ g start end_ s e o b',
      is_Some (Py.getitem (HexChessGame.players g) (HexChessGame.turn_index g)) →
      String.eqb (Py.lower start) "undo" || String.eqb (Py.lower end_) "undo" = false →
      HexChessGame.convert_to_coords start g = (Py.Ok s, g) →
      HexChessGame.convert_to_coords end_ g = (Py.Ok e, g) →
      HexChessBoard.move_piece s e (HexChessGame.board g) = (Py.Ok o, b') →
      let g' := (HexChessGame.play_step start end_ g).2 in
      HexChessGame.board g' = b'
      ∧ HexChessGame.turn_index g' = (HexChessGame.turn_index g + 1) mod 2
      ∧ HexChessGame.move_count g' = HexChessGame.move_count g + 1).
Proof.
  split.
  - intros g start end_ s e o b' Hu Hs He Hm. cbv zeta.
    rewrite (chess_play_step_attempt _ _ _ _ _ _ _ Hu Hs He Hm). simpl.
    split; [done|]. split; [|done]. by destruct (ChessGame.turn g).
  - intros g start end_ s e o b' Hp Hu Hs He Hm. cbv zeta.
    by rewrite (hex_play_step_attempt _ _ _ _ _ _ _ Hp Hu Hs He Hm).
Qed.

Lemma attempt_switches_turn_and_counts_witness :
  (let g' := (ChessGame.play_step "E4" "E5" ChessGame.init).2 in
   ChessGame.board g' = ChessGame.board ChessGame.init
   ∧ ChessGame.turn g' ≠ ChessGame.turn ChessGame.init
   ∧ ChessGame.move_count g' = ChessGame.move_count ChessGame.init + 1)
  ∧ (let g' := (HexChessGame.play_step "E5" "E6" HexChessGame.init).2 in
     HexChessGame.board g' = HexChessGame.board HexChessGame.init
     ∧ HexChessGame.turn_index g' = (HexChessGame.turn_index HexChessGame.init + 1) mod 2
     ∧ HexChessGame.move_count g' = HexChessGame.move_count HexChessGame.init + 1).
Proof.
  destruct attempt_switches_turn_and_counts as [Hc Hh]. split.
  - apply (Hc ChessGame.init "E4" "E5" (4, 4) (3, 4) Rejected)%string; reflexivity.
  - apply (Hh HexChessGame.init "E5" "E6" (6, 5) (5, 5) Rejected)%string;
      [by eexists|reflexivity..].
Defined.

(** C2, as the claim has it, fails: in a new chess session the attempt
    E4 to E5 starts from an empty cell and is rejected; the turn passes to
    black, and [move_count] goes from 0 to 1. *)
Lemma rejected_attempt_is_counted :
  let g := ChessGame.init in
  let g' := (ChessGame.play_step "E4" "E5" g).2 in
  (ChessGame.coords "E4" g).1 = Py.Ok (4, 4)
  ∧ (ChessGame.coords "E5" g).1 = Py.Ok (3, 4)
  ∧ Py.getitem2 (BoardState.board (ChessGame.board g)) 4 4 = Some None
  ∧ ChessBoard.move_piece (4, 4) (3, 4) (ChessGame.board g)
    = (Py.Ok Rejected, ChessGame.board g)
  ∧ ChessGame.turn g = white ∧ ChessGame.turn g' = black
  ∧ ChessGame.move_count g = 0 ∧ ChessGame.move_count g' = 1
  ∧ ChessGame.move_count g' ≠ ChessGame.move_count g.
Proof. repeat split. discriminate. Qed.

End Claims.

(** * Further properties of the boards *)

Section ChessBoardFacts.
Import BoardState.

Lemma getitem2_None {A} (g : list (list A)) x y :
  Py.getitem2 g x y = None ↔ locate g x y = None.
Proof.
  rewrite getitem2_locate. destruct (locate g x y) as [[i j]|] eqn:E; simpl; [|done].
  destruct (locate_is_Some g x y i j E) as [c Hc]. rewrite Hc. split; discriminate.
Qed.

Lemma setitem2_None {A} (g : list (list A)) x y v :
  Py.setitem2 g x y v = None ↔ Py.getitem2 g x y = None.
Proof.
  rewrite getitem2_None, setitem2_locate.
  destruct (locate g x y) as [[i j]|]; simpl; split; done.
Qed.

(** X1. On the chess and hex-chess boards the snapshot an applied move
    pushes is the grid before the call, and one [undo_move] right after
    the move gives back the whole state, grid and history. *)
Theorem chess_move_then_undo st st' start end_ :
  ChessBoard.move_piece start end_ st = (Py.Ok Applied, st')
  ∨ HexChessBoard.move_piece start end_ st = (Py.Ok Applied, st') →
  move_history st' = move_history st ++ [board st]
  ∧ ChessBoard.undo_move st' = (Py.Ok Py.None_, st)
  ∧ HexChessBoard.undo_move st' = (Py.Ok Py.None_, st).
Proof.
  rewrite hex_move_piece_eq, hex_undo_move_eq. intros H.
  assert (ChessBoard.move_piece start end_ st = (Py.Ok Applied, st')) as H'
    by (by destruct H).
  clear H. destruct start as [x1 y1], end_ as [x2 y2].
  destruct (chess_move_piece_applied_inv _ _ _ _ _ _ H')
    as (i1 & j1 & i2 & j2 & p & H1 & Hp & H2).
  rewrite (chess_move_piece_applied _ _ _ _ _ _ _ _ _ _ H1 Hp H2) in H'.
  injection H' as <-. simpl. split; [done|].
  rewrite chess_undo_move_unfold. simpl. rewrite pop_snoc. by destruct st.
Qed.

Lemma chess_move_then_undo_witness :
  let st' := (ChessBoard.move_piece (6, 4) (4, 4) ChessBoard.init).2 in
  move_history st' = move_history ChessBoard.init ++ [board ChessBoard.init]
  ∧ ChessBoard.undo_move st' = (Py.Ok Py.None_, ChessBoard.init)
  ∧ HexChessBoard.undo_move st' = (Py.Ok Py.None_, ChessBoard.init).
Proof.
  apply (chess_move_then_undo ChessBoard.init _ (6, 4) (4, 4)). left. reflexivity.
Defined.

(** X2. An applied chess or hex-chess move writes two cells and no other:
    the start cell is empty afterwards, the end cell, when it is another
    cell, holds the piece that stood on the start cell, and every other
    cell holds what it held. *)
Theorem chess_move_frame st st' x1 y1 x2 y2 i1 j1 i2 j2 :
  ChessBoard.move_piece (x1, y1) (x2, y2) st = (Py.Ok Applied, st')
  ∨ HexChessBoard.move_piece (x1, y1) (x2, y2) st = (Py.Ok Applied, st') →
  locate (board st) x1 y1 = Some (i1, j1) →
  locate (board st) x2 y2 = Some (i2, j2) →
  cell (board st') i1 j1 = Some None
  ∧ ((i2, j2) ≠ (i1, j1) → cell (board st') i2 j2 = cell (board st) i1 j1)
  ∧ ∀ i j, (i, j) ≠ (i1, j1) → (i, j) ≠ (i2, j2) →
           cell (board st') i j = cell (board st) i j.
Proof.
  rewrite hex_move_piece_eq. intros H H1 H2.
  assert (ChessBoard.move_piece (x1, y1) (x2, y2) st = (Py.Ok Applied, st')) as H'
    by (by destruct H).
  destruct (chess_move_piece_applied_inv _ _ _ _ _ _ H')
    as (i1' & j1' & i2' & j2' & p & H1' & Hp & H2').
  rewrite (chess_move_piece_applied _ _ _ _ _ _ _ _ _ _ H1' Hp H2') in H'.
  simplify_eq. simpl. split; [|split].
  - apply cell_set_cell_eq. apply cell_set_cell_is_Some. eauto.
  - intros Hne. rewrite cell_set_cell_ne by congruence. rewrite Hp.
    apply cell_set_cell_eq. by eapply locate_is_Some.
  - intros i j N1 N2. by rewrite !cell_set_cell_ne by congruence.
Qed.

Lemma chess_move_frame_witness :
  let st' := (ChessBoard.move_piece (6, 4) (4, 4) ChessBoard.init).2 in
  cell (board st') 6 4 = Some None
  ∧ ((4, 4)%nat ≠ (6, 4)%nat →
     cell (board st') 4 4 = cell (board ChessBoard.init) 6 4)
  ∧ ∀ i j, (i, j) ≠ (6, 4)%nat → (i, j) ≠ (4, 4)%nat →
           cell (board st') i j = cell (board ChessBoard.init) i j.
Proof.
  apply (chess_move_frame ChessBoard.init _ 6 4 4 4 6 4 4 4)%nat;
    [left|..]; reflexivity.
Defined.

(** X3. When the index pair of the start is off the grid, the chess and
    hex-chess [move_piece] raises [IndexError] and nothing has changed.
    When the start holds a piece and the index pair of the end is off the
    grid, it raises [IndexError] with the grid unchanged but after the
    snapshot has been appended: the history is one entry longer although
    no move was made. *)
Theorem chess_move_off_grid st x1 y1 x2 y2 :
  (Py.getitem2 (board st) x1 y1 = None →
   ChessBoard.move_piece (x1, y1) (x2, y2) st = (Py.Raise Py.IndexError, st)
   ∧ HexChessBoard.move_piece (x1, y1) (x2, y2) st = (Py.Raise Py.IndexError, st))
  ∧ (∀ p, Py.getitem2 (board st) x1 y1 = Some (Some p) →
          Py.getitem2 (board st) x2 y2 = None →
          ChessBoard.move_piece (x1, y1) (x2, y2) st
          = (Py.Raise Py.IndexError,
             {| board := board st; move_history := move_history st ++ [board st] |})
          ∧ HexChessBoard.move_piece (x1, y1) (x2, y2) st
            = (Py.Raise Py.IndexError,
               {| board := board st; move_history := move_history st ++ [board st] |})).
Proof.
  rewrite hex_move_piece_eq, !chess_move_piece_unfold. split.
  - by intros ->.
  - intros p -> He. apply setitem2_None with (v := Some p) in He.
    cbv zeta. by rewrite He.
Qed.

Lemma chess_move_off_grid_witness :
  (ChessBoard.move_piece (8, 0) (4, 4) ChessBoard.init
   = (Py.Raise Py.IndexError, ChessBoard.init)
   ∧ HexChessBoard.move_piece (8, 0) (4, 4) ChessBoard.init
     = (Py.Raise Py.IndexError, ChessBoard.init))
  ∧ (ChessBoard.move_piece (6, 4) (4, 8) ChessBoard.init
     = (Py.Raise Py.IndexError,
        {| board := board ChessBoard.init;
           move_history := move_history ChessBoard.init ++ [board ChessBoard.init] |})
     ∧ HexChessBoard.move_piece (6, 4) (4, 8) ChessBoard.init
       = (Py.Raise Py.IndexError,
          {| board := board ChessBoard.init;
             move_history := move_history ChessBoard.init ++ [board ChessBoard.init] |})).
Proof.
  split.
  - apply (proj1 (chess_move_off_grid ChessBoard.init 8 0 4 4)). reflexivity.
  - apply (proj2 (chess_move_off_grid ChessBoard.init 6 4 4 8)
             {| kind := Pawn; color := white |}); reflexivity.
Defined.

Lemma chess_undos_empty k b :
  chess_undos k {| board := b; move_history := [] |}
  = {| board := b; move_history := [] |}.
Proof.
  unfold chess_undos. induction k as [|k IH]; simpl; [done|]. by rewrite IH.
Qed.

Lemma chess_undos_succ k st :
  chess_undos (S k) st = chess_undos k (ChessBoard.undo_move st).2.
Proof. unfold chess_undos. by rewrite Nat.iter_succ_r. Qed.

(** X4. Undo is a stack: as many [undo_move] calls as the last part [h2]
    of the history has snapshots pop exactly that part, and the grid is
    then the oldest snapshot of [h2]; with as many calls as the whole
    history has entries or more, the history is empty, the grid is the
    first snapshot ever pushed, and further calls change nothing. *)
Theorem chess_undo_is_a_stack :
  (∀ h2 h1 b,
      chess_undos (length h2) {| board := b; move_history := h1 ++ h2 |}
      = {| board := hd b h2; move_history := h1 |})
  ∧ (∀ k h b, (length h ≤ k)%nat →
      chess_undos k {| board := b; move_history := h |}
      = {| board := hd b h; move_history := [] |}).
Proof.
  assert (∀ h2 h1 b,
      chess_undos (length h2) {| board := b; move_history := h1 ++ h2 |}
      = {| board := hd b h2; move_history := h1 |}) as Hstack.
  { induction h2 as [|g h2 IH] using rev_ind; intros h1 b.
    - by rewrite app_nil_r.
    - rewrite length_app. simpl length. rewrite Nat.add_1_r, chess_undos_succ.
      rewrite chess_undo_move_unfold. simpl.
      rewrite app_assoc, pop_snoc, IH. f_equal. by destruct h2. }
  split; [exact Hstack|].
  intros k h b Hk. replace k with ((k - length h) + length h)%nat by lia.
  unfold chess_undos. rewrite Nat.iter_add.
  fold (chess_undos (length h) {| board := b; move_history := h |}).
  pose proof (Hstack h [] b) as E. simpl in E. rewrite E.
  apply chess_undos_empty.
Qed.

Lemma chess_undo_is_a_stack_witness :
  chess_undos 5 {| board := [[None]]; move_history := [[]; [[]]] |}
  = {| board := hd [[None]] [[]; [[]]]; move_history := [] |}.
Proof.
  apply (proj2 chess_undo_is_a_stack 5%nat [[]; [[]]] [[None]]). simpl. lia.
Defined.

Lemma setitem2_square {A} (n : nat) (g g' : list (list A)) x y v :
  square n g → Py.setitem2 g x y v = Some g' → square n g'.
Proof.
  intros [Hn Hrows]. rewrite setitem2_locate.
  destruct (locate g x y) as [[i j]|]; simpl; [|done]. intros [= <-].
  by apply square_set_cell.
Qed.

Lemma chess_move_piece_shaped n st start end_ :
  chess_shaped n st → chess_shaped n (ChessBoard.move_piece start end_ st).2.
Proof.
  intros [Hb Hh]. destruct start as [x1 y1], end_ as [x2 y2].
  assert (Forall (square n) (BoardState.move_history st ++ [BoardState.board st])) as Hh'
    by (apply Forall_app; split; [done|by constructor]).
  rewrite chess_move_piece_unfold.
  destruct (Py.getitem2 (BoardState.board st) x1 y1) as [[p|]|]; [|done|done].
  cbv zeta. destruct (Py.setitem2 (BoardState.board st) x2 y2 (Some p)) as [b|] eqn:E1; [|done].
  pose proof (setitem2_square n _ _ _ _ _ Hb E1) as Hb1.
  destruct (Py.setitem2 b x1 y1 None) as [b'|] eqn:E2; [|done].
  pose proof (setitem2_square n _ _ _ _ _ Hb1 E2) as Hb2. done.
Qed.

Lemma chess_undo_move_shaped n st :
  chess_shaped n st → chess_shaped n (ChessBoard.undo_move st).2.
Proof.
  intros [Hb Hh]. rewrite chess_undo_move_unfold. simpl.
  destruct (Py.pop (BoardState.move_history st)) as [[h g]|] eqn:E; [|done].
  apply pop_Some in E. rewrite E in Hh. apply Forall_app in Hh as [Hh1 Hg].
  apply Forall_cons in Hg as [Hg _]. done.
Qed.

(** X5. The dimensions are fixed: whatever [move_piece] does on a chess
    or hex-chess board (apply, reject or raise), and whatever [undo_move]
    does, a board whose grid and snapshots are [n] by [n] stays so. *)
Theorem chess_shape_is_kept n st :
  chess_shaped n st →
  (∀ start end_, chess_shaped n (ChessBoard.move_piece start end_ st).2
                 ∧ chess_shaped n (HexChessBoard.move_piece start end_ st).2)
  ∧ chess_shaped n (ChessBoard.undo_move st).2
  ∧ chess_shaped n (HexChessBoard.undo_move st).2.
Proof.
  intros Hsh. rewrite hex_move_piece_eq, hex_undo_move_eq. split.
  - intros start end_. split; by apply chess_move_piece_shaped.
  - split; by apply chess_undo_move_shaped.
Qed.

Lemma chess_init_shaped : chess_shaped 8 ChessBoard.init ∧ chess_shaped 11 HexChessBoard.init.
Proof.
  split; (split; [split; [reflexivity|repeat constructor]|constructor]).
Qed.

Lemma chess_shape_is_kept_witness :
  (∀ start end_, chess_shaped 8 (ChessBoard.move_piece start end_ ChessBoard.init).2
                 ∧ chess_shaped 8 (HexChessBoard.move_piece start end_ ChessBoard.init).2)
  ∧ chess_shaped 8 (ChessBoard.undo_move ChessBoard.init).2
  ∧ chess_shaped 8 (HexChessBoard.undo_move ChessBoard.init).2.
Proof.
  apply (chess_shape_is_kept 8 ChessBoard.init).
  split; [split; [reflexivity|repeat constructor]|constructor].
Defined.

End ChessBoardFacts.

Section CheckersBoardFacts.
Import CheckersBoard CheckersRules.

Lemma index_is_Some n x :
  is_Some (Py.index n x) ↔ - Z.of_nat n ≤ x < Z.of_nat n.
Proof.
  unfold Py.index.
  destruct (Z.leb_spec 0 x), (Z.ltb_spec x (Z.of_nat n)),
    (Z.leb_spec (- Z.of_nat n) x), (Z.ltb_spec x 0); simpl;
    split; intros Hx; try (by eexists); try lia; by destruct Hx.
Qed.

(** On an [n] by [n] grid the index pairs that do not raise are those with
    both indices from [-n] to [n - 1]. *)
Lemma square_getitem2_is_Some {A} (g : list (list A)) (n : nat) x y :
  square n g →
  is_Some (Py.getitem2 g x y)
  ↔ (- Z.of_nat n ≤ x < Z.of_nat n) ∧ (- Z.of_nat n ≤ y < Z.of_nat n).
Proof.
  intros [Hn Hrows]. rewrite <- !index_is_Some.
  unfold Py.getitem2, Py.getitem. rewrite Hn.
  destruct (Py.index n x) as [i|] eqn:Hi; simpl.
  2:{ split; [by intros [? ?]|by intros [[? ?] _]]. }
  destruct (lookup_lt_is_Some_2 g i) as [row Hrow].
  { rewrite Hn. by eapply index_lt. }
  rewrite Hrow. simpl. rewrite Forall_lookup in Hrows. rewrite (Hrows _ _ Hrow).
  destruct (Py.index n y) as [j|] eqn:Hj; simpl.
  2:{ split; [by intros [? ?]|by intros [_ [? ?]]]. }
  split; [by eauto|]. intros _. apply lookup_lt_is_Some.
  rewrite (Hrows _ _ Hrow). by eapply index_lt.
Qed.

(** Between two cells of a square grid lies a cell of the grid. *)
Lemma square_midpoint {A} (g : list (list A)) (n : nat) x1 y1 x2 y2 :
  square n g →
  is_Some (Py.getitem2 g x1 y1) → is_Some (Py.getitem2 g x2 y2) →
  is_Some (Py.getitem2 g ((x1 + x2) / 2) ((y1 + y2) / 2)).
Proof.
  intros Hsq I1 I2.
  apply (square_getitem2_is_Some _ n) in I1, I2; try done.
  apply (square_getitem2_is_Some _ n); [done|].
  split; split; try (apply Z.div_le_lower_bound; lia);
    apply Z.div_lt_upper_bound; lia.
Qed.

Lemma checkers_is_valid_move_raise w a x1 y1 x2 y2 e w1 :
  is_valid_move a (x1, y1) (x2, y2) w = (Py.Raise e, w1) →
  e = Py.IndexError
  ∧ (Py.getitem2 (board w) x2 y2 = None
     ∨ Py.getitem2 (board w) ((x1 + x2) / 2) ((y1 + y2) / 2) = None).
Proof.
  rewrite checkers_is_valid_move_unfold. cbv zeta.
  destruct (Py.getitem2 (board w) x2 y2) as [[?|]|]; [done| |by intros [= <- <-]; auto].
  destruct (CheckersPiece.is_king _); [done|].
  destruct (_ && _); [done|]. destruct (_ && _); [|done].
  destruct (Py.getitem2 (board w) _ _) as [[q|]|] eqn:Hm;
    [|done|by intros [= <- <-]; auto].
  destruct (negb _); [|done].
  destruct (Py.setitem2 _ _ _ _) eqn:Hs; [done|].
  apply setitem2_None in Hs. congruence.
Qed.

Lemma checkers_is_valid_move_end_off w a x1 y1 x2 y2 :
  Py.getitem2 (board w) x2 y2 = None →
  is_valid_move a (x1, y1) (x2, y2) w = (Py.Raise Py.IndexError, w).
Proof. intros H. by rewrite checkers_is_valid_move_unfold, H. Qed.

(** A checkers [move_piece] that raises: the start was off the grid, or the
    exception came out of [is_valid_move]; the board is as it was. *)
Lemma checkers_move_piece_raise_inv w x1 y1 x2 y2 e w' :
  move_piece (x1, y1) (x2, y2) w = (Py.Raise e, w') →
  w' = w
  ∧ (Py.getitem2 (board w) x1 y1 = None ∧ e = Py.IndexError
     ∨ ∃ a, Py.getitem2 (board w) x1 y1 = Some (Some a)
            ∧ is_valid_move a (x1, y1) (x2, y2) w = (Py.Raise e, w)).
Proof.
  intros H. rewrite checkers_move_piece_unfold in H.
  destruct (Py.getitem2 (board w) x1 y1) as [[a|]|] eqn:H1; [|done|].
  - destruct (is_valid_move a (x1, y1) (x2, y2) w) as [[[|]|e'] w1] eqn:Hv.
    + exfalso. apply checkers_is_valid_move_true in Hv as [H2 (b & Hacc & ->)].
      apply getitem2_Some in H1 as (i1 & j1 & H1 & _).
      apply getitem2_Some in H2 as (i2 & j2 & H2 & _).
      rewrite (checkers_move_piece_tail w a b x1 y1 x2 y2 i1 j1 i2 j2) in H;
        [done|by rewrite (Accepts_locate _ _ _ _ _ _ _ _ _ Hacc)..].
    + done.
    + injection H as -> ->.
      assert (w' = w) as ->
        by (eapply checkers_is_valid_move_not_true; [exact Hv|done]).
      split; [done|]. right. by exists a.
  - injection H as <- <-. split; [done|]. by left.
Qed.

Lemma checkers_move_piece_raise_same w x1 y1 x2 y2 e w' :
  move_piece (x1, y1) (x2, y2) w = (Py.Raise e, w') → e = Py.IndexError ∧ w' = w.
Proof.
  intros H.
  destruct (checkers_move_piece_raise_inv _ _ _ _ _ _ _ H) as [-> [[_ ->]|(a & _ & Hv)]];
    [done|].
  by apply checkers_is_valid_move_raise in Hv as [-> _].
Qed.

(** X6. A checkers [move_piece] that raises has changed nothing, and
    what it raises is [IndexError]. On an [n] by [n] grid it raises
    exactly when the start is off the grid, or the start holds a piece and
    the end is off the grid. *)
Theorem checkers_move_raises w x1 y1 x2 y2 :
  (∀ e w', move_piece (x1, y1) (x2, y2) w = (Py.Raise e, w') →
           e = Py.IndexError ∧ w' = w)
  ∧ (∀ n, square n (board w) →
      ((∃ e w', move_piece (x1, y1) (x2, y2) w = (Py.Raise e, w'))
       ↔ Py.getitem2 (board w) x1 y1 = None
         ∨ (∃ a, Py.getitem2 (board w) x1 y1 = Some (Some a))
           ∧ Py.getitem2 (board w) x2 y2 = None)).
Proof.
  pose proof (checkers_move_piece_raise_inv w x1 y1 x2 y2) as Inv.
  split.
  - intros e w' H. by eapply checkers_move_piece_raise_same.
  - intros n Hsq. split.
    + intros (e & w' & H). destruct (Inv e w' H) as [-> [[? _]|(a & Ha & Hv)]]; [by left|].
      right. split; [by eauto|].
      apply checkers_is_valid_move_raise in Hv as [_ [?|Hm]]; [done|].
      destruct (Py.getitem2 (board w) x2 y2) eqn:He; [|done]. exfalso.
      destruct (square_midpoint (board w) n x1 y1 x2 y2) as [m Hm']; eauto.
      congruence.
    + rewrite checkers_move_piece_unfold. intros [->|[[a ->] He]]; [by eauto|].
      rewrite (checkers_is_valid_move_end_off _ _ _ _ _ _ He). eauto.
Qed.

Lemma checkers_move_raises_witness :
  (Py.IndexError = Py.IndexError
   ∧ (move_piece (5, 2) (4, 8) CheckersBoard.init).2 = CheckersBoard.init)
  ∧ ((∃ e w', move_piece (5, 2) (4, 8) CheckersBoard.init = (Py.Raise e, w'))
     ↔ Py.getitem2 (board CheckersBoard.init) 5 2 = None
       ∨ (∃ a, Py.getitem2 (board CheckersBoard.init) 5 2 = Some (Some a))
         ∧ Py.getitem2 (board CheckersBoard.init) 4 8 = None).
Proof.
  split.
  - apply (proj1 (checkers_move_raises CheckersBoard.init 5 2 4 8)).
    vm_compute. reflexivity.
  - apply (proj2 (checkers_move_raises CheckersBoard.init 5 2 4 8) 8%nat).
    split; [reflexivity|]. vm_compute. repeat constructor.
Defined.

(** The moves validation accepts are diagonal, of one or two cells, and
    forward for a piece that is not a king. *)
Lemma Accepts_geometry w a x1 y1 x2 y2 b :
  Accepts w a x1 y1 x2 y2 b →
  Z.abs (x2 - x1) = Z.abs (y2 - y1)
  ∧ (Z.abs (x2 - x1) = 1 ∨ Z.abs (x2 - x1) = 2)
  ∧ (CheckersPiece.is_king (Store.objs (heap w) a) = false →
     match CheckersPiece.color (Store.objs (heap w) a) with
     | white => x2 < x1
     | black => x1 < x2
     end).
Proof.
  intros [Hk Hd Hy|Hk Hd Hy|mi mj q Hk Hd Hy _ _ _].
  - split; [done|]. split; [by rewrite Hd|]. congruence.
  - destruct (CheckersPiece.color (Store.objs (heap w) a)) eqn:Ec;
      unfold direction in Hd; simpl in Hd;
      (split; [lia|]); (split; [lia|]); intros _; lia.
  - destruct (CheckersPiece.color (Store.objs (heap w) a)) eqn:Ec;
      unfold direction in Hd; simpl in Hd;
      (split; [lia|]); (split; [lia|]); intros _; lia.
Qed.

(** X7. Every applied checkers move is diagonal and short: it starts on
    a piece, ends on a cell that was empty and goes as many rows as
    columns, one or two. A piece that is not a king only goes forward:
    to a lower row number when white, to a higher one when black. *)
Theorem checkers_applied_move_geometry w w' x1 y1 x2 y2 :
  move_piece (x1, y1) (x2, y2) w = (Py.Ok Applied, w') →
  ∃ a, Py.getitem2 (board w) x1 y1 = Some (Some a)
       ∧ Py.getitem2 (board w) x2 y2 = Some None
       ∧ Z.abs (x2 - x1) = Z.abs (y2 - y1)
       ∧ (Z.abs (x2 - x1) = 1 ∨ Z.abs (x2 - x1) = 2)
       ∧ (CheckersPiece.is_king (Store.objs (heap w) a) = false →
          match CheckersPiece.color (Store.objs (heap w) a) with
          | white => x2 < x1
          | black => x1 < x2
          end).
Proof.
  intros H.
  apply checkers_move_piece_applied_inv in H
    as (a & i1 & j1 & i2 & j2 & b & H1 & Ha & H2 & He & Hacc & _).
  exists a. split; [apply getitem2_Some; eauto|].
  split; [apply getitem2_Some; eauto|].
  by eapply Accepts_geometry.
Qed.

Lemma checkers_applied_move_geometry_witness :
  ∃ a, Py.getitem2 (board CheckersBoard.init) 5 2 = Some (Some a)
       ∧ Py.getitem2 (board CheckersBoard.init) 4 3 = Some None
       ∧ Z.abs (4 - 5) = Z.abs (3 - 2)
       ∧ (Z.abs (4 - 5) = 1 ∨ Z.abs (4 - 5) = 2)
       ∧ (CheckersPiece.is_king (Store.objs (heap CheckersBoard.init) a) = false →
          match CheckersPiece.color (Store.objs (heap CheckersBoard.init) a) with
          | white => 4 < 5
          | black => 5 < 4
          end).
Proof.
  apply (checkers_applied_move_geometry CheckersBoard.init
           (move_piece (5, 2) (4, 3) CheckersBoard.init).2 5 2 4 3).
  vm_compute. reflexivity.
Defined.

(** X8. The colour of a piece object never changes: whatever
    [move_piece] does, and whatever [undo_move] does, every object of the
    store has afterwards the colour it had. *)
Theorem checkers_colour_is_kept w a :
  (a < Store.next (heap w))%nat →
  (∀ start end_,
      CheckersPiece.color (Store.objs (heap (move_piece start end_ w).2) a)
      = CheckersPiece.color (Store.objs (heap w) a))
  ∧ CheckersPiece.color (Store.objs (heap (undo_move w).2) a)
    = CheckersPiece.color (Store.objs (heap w) a).
Proof.
  intros Hlt. split.
  - intros [x1 y1] [x2 y2].
    destruct (checkers_move_piece_cases w x1 y1 x2 y2)
      as [(a' & i1 & j1 & i2 & j2 & b & _ & _ & _ & _ & _ & ->)|(r & _ & ->)];
      [|done].
    simpl. rewrite checkers_landed_heap by done. by destruct (_ && _).
  - rewrite checkers_undo_move_unfold. simpl.
    by destruct (Py.pop (move_history w)) as [[h g]|].
Qed.

Lemma checkers_colour_is_kept_witness :
  (∀ start end_,
      CheckersPiece.color
        (Store.objs (heap (move_piece start end_ Scenario.before_last_rank).2) 0)
      = CheckersPiece.color (Store.objs (heap Scenario.before_last_rank) 0))
  ∧ CheckersPiece.color (Store.objs (heap (undo_move Scenario.before_last_rank).2) 0)
    = CheckersPiece.color (Store.objs (heap Scenario.before_last_rank) 0).
Proof.
  apply (checkers_colour_is_kept Scenario.before_last_rank 0). vm_compute. lia.
Defined.

(** X9. Promotion happens exactly on the last rank: after an applied
    checkers move the moved piece is a king if and only if it was one or
    the end row passed to [move_piece] is 0 for a white piece, 7 for a
    black one; and no other object of the store has its king flag
    changed. *)
Theorem checkers_promotion_exactly w w' a x1 y1 x2 y2 :
  Py.getitem2 (board w) x1 y1 = Some (Some a) →
  (a < Store.next (heap w))%nat →
  move_piece (x1, y1) (x2, y2) w = (Py.Ok Applied, w') →
  CheckersPiece.is_king (Store.objs (heap w') a)
  = CheckersPiece.is_king (Store.objs (heap w) a)
    || match CheckersPiece.color (Store.objs (heap w) a) with
       | white => x2 =? 0
       | black => x2 =? 7
       end
  ∧ ∀ c, (c < Store.next (heap w))%nat → c ≠ a →
         Store.objs (heap w') c = Store.objs (heap w) c.
Proof.
  intros Hs Hlt H.
  apply getitem2_Some in Hs as (i1 & j1 & H1 & Ha).
  apply checkers_move_piece_applied_inv in H
    as (a' & i1' & j1' & i2 & j2 & b & H1' & Ha' & _ & _ & _ & ->).
  simplify_eq. split.
  - rewrite checkers_landed_heap by done. rewrite Nat.eqb_refl. unfold last_rank.
    destruct (Store.objs (heap w) a) as [[|] [|]]; simpl;
      by destruct (x2 =? 0), (x2 =? 7).
  - intros c Hc Hne. rewrite checkers_landed_heap by done.
    by destruct (Nat.eqb_spec c a).
Qed.

Lemma checkers_promotion_exactly_witness :
  let w' := (move_piece (6, 5) (7, 4) Scenario.before_last_rank).2 in
  CheckersPiece.is_king (Store.objs (heap w') 1)
  = CheckersPiece.is_king (Store.objs (heap Scenario.before_last_rank) 1)
    || match CheckersPiece.color (Store.objs (heap Scenario.before_last_rank) 1) with
       | white => 7 =? 0
       | black => 7 =? 7
       end
  ∧ ∀ c, (c < Store.next (heap Scenario.before_last_rank))%nat → c ≠ 1%nat →
         Store.objs (heap w') c = Store.objs (heap Scenario.before_last_rank) c.
Proof.
  apply (checkers_promotion_exactly Scenario.before_last_rank _ 1 6 5 7 4).
  - vm_compute. reflexivity.
  - vm_compute. lia.
  - vm_compute. reflexivity.
Defined.

(** X10. What one [undo_move] gives back after an applied checkers move.
    After a king's move or a single step the grid shows again exactly
    what it showed before the move, and the history is the one before the
    move. After a jump of a piece that is not a king it shows the grid
    before the move without the piece jumped over. *)
Theorem checkers_move_then_undo w w' a x1 y1 x2 y2 :
  Forall (allocated (heap w)) (board w) →
  Py.getitem2 (board w) x1 y1 = Some (Some a) →
  move_piece (x1, y1) (x2, y2) w = (Py.Ok Applied, w') →
  let undone := (undo_move w').2 in
  move_history undone = move_history w
  ∧ (CheckersPiece.is_king (Store.objs (heap w) a) = true ∨ Z.abs (x2 - x1) = 1 →
     view (heap undone) (board undone) = view (heap w) (board w))
  ∧ (CheckersPiece.is_king (Store.objs (heap w) a) = false → Z.abs (x2 - x1) = 2 →
     ∃ mi mj, locate (board w) ((x1 + x2) / 2) ((y1 + y2) / 2) = Some (mi, mj)
              ∧ view (heap undone) (board undone)
                = view (heap w) (set_cell (board w) mi mj None)).
Proof.
  intros Hwf Hs H. cbv zeta.
  apply getitem2_Some in Hs as (i1 & j1 & H1 & Ha).
  apply checkers_move_piece_applied_inv in H
    as (a' & i1' & j1' & i2 & j2 & b & H1' & Ha' & _ & _ & Hacc & ->).
  simplify_eq.
  assert (move_history (undo_move (landed w a b i1 j1 i2 j2 x2)).2 = move_history w
          ∧ view (heap (undo_move (landed w a b i1 j1 i2 j2 x2)).2)
                 (board (undo_move (landed w a b i1 j1 i2 j2 x2)).2)
            = view (heap w) b) as [Hhist Hview].
  { assert (Forall (allocated (heap w)) b) as Hb.
    { destruct Hacc; [done|done|]. by apply allocated_set_cell. }
    pose proof (allocated_cell _ _ _ _ _ Hwf Ha) as Hlt.
    pose proof (deepcopy_copies b (heap w) Hb) as Hcp.
    rewrite checkers_undo_move_unfold. unfold landed.
    destruct (Store.deepcopy b (heap w)) as [g h]. simpl in *.
    rewrite pop_snoc. simpl. split; [done|].
    destruct (last_rank _ x2); [by apply copies_view_write|by apply copies_view]. }
  split; [done|]. rewrite Hview. clear Hview Hhist.
  pose proof (direction_cases (CheckersPiece.color (Store.objs (heap w) a))) as Hdir.
  split.
  - intros Hcase. destruct Hacc as [| |mi mj q Hk Hd _ _ _ _]; [done|done|].
    destruct Hcase as [?|?]; [congruence|lia].
  - intros Hk Hd. destruct Hacc as [Hk' _ _|_ Hd' _|mi mj q _ _ _ Hl _ _].
    + congruence.
    + lia.
    + by exists mi, mj.
Qed.

Lemma checkers_move_then_undo_witness :
  let undone :=
    (undo_move (move_piece (4, 3) (2, 5) Scenario.opening).2).2 in
  move_history undone = move_history Scenario.opening
  ∧ (CheckersPiece.is_king (Store.objs (heap Scenario.opening) 13) = true
     ∨ Z.abs (2 - 4) = 1 →
     view (heap undone) (board undone)
     = view (heap Scenario.opening) (board Scenario.opening))
  ∧ (CheckersPiece.is_king (Store.objs (heap Scenario.opening) 13) = false →
     Z.abs (2 - 4) = 2 →
     ∃ mi mj, locate (board Scenario.opening) ((4 + 2) / 2) ((3 + 5) / 2) = Some (mi, mj)
              ∧ view (heap undone) (board undone)
                = view (heap Scenario.opening)
                       (set_cell (board Scenario.opening) mi mj None)).
Proof.
  apply (checkers_move_then_undo Scenario.opening _ 13 4 3 2 5).
  - vm_compute.
    repeat (constructor; [repeat (constructor; [intros ? [=]; subst; lia|]);
                          constructor|]).
    constructor.
  - vm_compute. reflexivity.
  - vm_compute. reflexivity.
Defined.

End CheckersBoardFacts.

Section CheckersInvariants.
Import CheckersBoard CheckersRules.

Lemma copy_row_occupancy row st :
  Forall2 (λ c c' : option nat, is_Some c' ↔ is_Some c) row (Store.copy_row row st).1.
Proof.
  revert st. induction row as [|c row IH]; intros st; simpl; [constructor|].
  assert (is_Some (Store.copy_cell c st).1 ↔ is_Some c) as Hc.
  { destruct st as [h m], c as [a|]; simpl; [|done].
    destruct (Store.memo_find a m); simpl; split; by eauto. }
  destruct (Store.copy_cell c st) as [c' st1]. specialize (IH st1).
  destruct (Store.copy_row row st1) as [r' st2]. simpl in *. by constructor.
Qed.

Lemma copy_grid_occupancy g st : same_occupancy g (Store.copy_grid g st).1.
Proof.
  revert st. induction g as [|row g IH]; intros st; simpl; [constructor|].
  pose proof (copy_row_occupancy row st) as Hr.
  destruct (Store.copy_row row st) as [row' st1]. specialize (IH st1).
  destruct (Store.copy_grid g st1) as [g' st2]. simpl in *. by constructor.
Qed.

Lemma deepcopy_occupancy g h : same_occupancy g (Store.deepcopy g h).1.
Proof.
  unfold Store.deepcopy. pose proof (copy_grid_occupancy g (h, [])) as H.
  by destruct (Store.copy_grid g (h, [])) as [g' [h' m]].
Qed.

Lemma same_occupancy_square n g g' : same_occupancy g g' → square n g → square n g'.
Proof.
  intros H [Hn Hrows]. split.
  - by rewrite <- (Forall2_length _ _ _ H).
  - apply Forall_lookup. intros i row' Hi.
    destruct (Forall2_lookup_r _ _ _ _ _ H Hi) as (row & Hrow & Hr).
    rewrite <- (Forall2_length _ _ _ Hr).
    rewrite Forall_lookup in Hrows. by eapply Hrows.
Qed.

Lemma same_occupancy_dark g g' :
  same_occupancy g g' → on_dark_cells g → on_dark_cells g'.
Proof.
  intros H Hd i j a' Hc. unfold cell in Hc.
  destruct (g' !! i) as [row'|] eqn:Hi; simplify_eq/=.
  destruct (Forall2_lookup_r _ _ _ _ _ H Hi) as (row & Hrow & Hr).
  destruct (Forall2_lookup_r _ _ _ _ _ Hr Hc) as (c & Hcell & Hiff).
  destruct c as [a|]; [|by destruct (proj1 Hiff (ltac:(eauto)))].
  apply (Hd i j a). unfold cell. by rewrite Hrow.
Qed.

Lemma Accepts_square n w a x1 y1 x2 y2 b :
  Accepts w a x1 y1 x2 y2 b → square n (board w) → square n b.
Proof. intros [| |] [? ?]; [done|done|by apply square_set_cell]. Qed.

Lemma checkers_move_piece_shaped n w start end_ :
  checkers_shaped n w → checkers_shaped n (move_piece start end_ w).2.
Proof.
  intros [Hb Hh]. destruct start as [x1 y1], end_ as [x2 y2].
  destruct (checkers_move_piece_cases w x1 y1 x2 y2)
    as [(a & i1 & j1 & i2 & j2 & b & _ & _ & _ & _ & Hacc & ->)|(r & _ & ->)];
    [|done].
  simpl. pose proof (Accepts_square n _ _ _ _ _ _ _ Hacc Hb) as Hsq.
  pose proof (deepcopy_occupancy b (heap w)) as Hocc.
  unfold checkers_shaped, landed.
  destruct (Store.deepcopy b (heap w)) as [g h]. simpl in *. split.
  - destruct Hsq as [? ?].
    destruct (square_set_cell b n i2 j2 (Some a)) as [? ?]; [done..|].
    by apply square_set_cell.
  - apply Forall_app. split; [done|]. constructor; [|done].
    by eapply same_occupancy_square.
Qed.

Lemma checkers_undo_move_shaped n w :
  checkers_shaped n w → checkers_shaped n (undo_move w).2.
Proof.
  intros [Hb Hh]. rewrite checkers_undo_move_unfold. simpl.
  destruct (Py.pop (move_history w)) as [[h g]|] eqn:E; [|done].
  apply pop_Some in E. rewrite E in Hh. apply Forall_app in Hh as [Hh1 Hg].
  apply Forall_cons in Hg as [Hg _]. done.
Qed.

(** X11. The dimensions of the checkers board are fixed: whatever
    [move_piece] does and whatever [undo_move] does, a board whose grid
    and snapshots are [n] by [n] stays so. *)
Theorem checkers_shape_is_kept n w :
  checkers_shaped n w →
  (∀ start end_, checkers_shaped n (move_piece start end_ w).2)
  ∧ checkers_shaped n (undo_move w).2.
Proof.
  intros Hsh. split.
  - intros start end_. by apply checkers_move_piece_shaped.
  - by apply checkers_undo_move_shaped.
Qed.

Lemma checkers_init_shaped : checkers_shaped 8 CheckersBoard.init.
Proof.
  split; [|constructor]. split; [reflexivity|]. vm_compute. repeat constructor.
Qed.

Lemma checkers_shape_is_kept_witness :
  (∀ start end_, checkers_shaped 8 (move_piece start end_ CheckersBoard.init).2)
  ∧ checkers_shaped 8 (undo_move CheckersBoard.init).2.
Proof.
  apply (checkers_shape_is_kept 8 CheckersBoard.init).
  split; [|constructor]. split; [reflexivity|]. vm_compute. repeat constructor.
Defined.

Lemma index_cases n x i :
  Py.index n x = Some i → Z.of_nat i = x ∨ Z.of_nat i = Z.of_nat n + x.
Proof.
  unfold Py.index.
  destruct ((0 <=? x) && (x <? Z.of_nat n)) eqn:E1.
  - intros [= <-]. apply andb_true_iff in E1 as [?%Z.leb_le _]. left. lia.
  - destruct ((- Z.of_nat n <=? x) && (x <? 0)) eqn:E2; [|done].
    intros [= <-]. apply andb_true_iff in E2 as [?%Z.leb_le _]. right. lia.
Qed.

Lemma locate_cases {A} (g : list (list A)) (n : nat) x y i j :
  square n g → locate g x y = Some (i, j) →
  (Z.of_nat i = x ∨ Z.of_nat i = Z.of_nat n + x)
  ∧ (Z.of_nat j = y ∨ Z.of_nat j = Z.of_nat n + y).
Proof.
  intros [Hn Hrows]. unfold locate. rewrite Hn.
  destruct (Py.index n x) as [i'|] eqn:Hi; simpl; [|done].
  destruct (g !! i') as [row|] eqn:Hrow; simpl; [|done].
  rewrite Forall_lookup in Hrows. rewrite (Hrows _ _ Hrow).
  destruct (Py.index n y) as [j'|] eqn:Hj; simpl; [|done].
  intros [= <- <-]. split; by apply index_cases.
Qed.

Lemma on_dark_cells_set_cell {A} (g : Grid A) i j v :
  on_dark_cells g →
  (is_Some v → (Z.of_nat i + Z.of_nat j) mod 2 = 1) →
  on_dark_cells (set_cell g i j v).
Proof.
  intros Hd Hv i' j' a Hc.
  destruct (decide ((i, j) = (i', j'))) as [[= <- <-]|Hne].
  - apply Hv. rewrite cell_set_cell_eq in Hc.
    + simplify_eq. eauto.
    + apply (cell_set_cell_is_Some g i j v). eauto.
  - rewrite cell_set_cell_ne in Hc by done. by eapply Hd.
Qed.

(** X12. Checkers pieces stay on the cells of one colour: if, on an 8 by
    8 board, every piece of the grid and of the snapshots stands on a cell
    whose row and column numbers add up to an odd number, as on the initial
    board, then this still holds whatever [move_piece] and [undo_move]
    do. *)
Theorem checkers_pieces_stay_on_dark_cells w :
  checkers_on_dark_cells w →
  (∀ start end_, checkers_on_dark_cells (move_piece start end_ w).2)
  ∧ checkers_on_dark_cells (undo_move w).2.
Proof.
  intros (Hsh & Hb & Hh).
  pose proof (λ s e, checkers_move_piece_shaped 8 w s e Hsh) as Hsh1.
  pose proof (checkers_undo_move_shaped 8 w Hsh) as Hsh2. split.
  - intros [x1 y1] [x2 y2]. split; [apply Hsh1|].
    destruct (checkers_move_piece_cases w x1 y1 x2 y2)
      as [(a & i1 & j1 & i2 & j2 & b & H1 & Ha & H2 & He & Hacc & E)|(r & _ & ->)];
      [|done].
    rewrite E. destruct (Accepts_geometry _ _ _ _ _ _ _ Hacc) as (Hd & Hy & _).
    clear E.
    assert (on_dark_cells b) as Hbd.
    { destruct Hacc; [done|done|]. apply on_dark_cells_set_cell; [done|].
      by intros [? ?]. }
    pose proof (deepcopy_occupancy b (heap w)) as Hocc.
    unfold landed. destruct (Store.deepcopy b (heap w)) as [g h]. simpl. split.
    + apply on_dark_cells_set_cell; [|by intros [? ?]].
      apply on_dark_cells_set_cell; [done|]. intros _.
      destruct Hsh as [Hsq _].
      destruct (locate_cases _ 8 _ _ _ _ Hsq H1) as [Hi1 Hj1].
      destruct (locate_cases _ 8 _ _ _ _ Hsq H2) as [Hi2 Hj2].
      specialize (Hb i1 j1 a Ha). revert Hb. clear -Hi1 Hj1 Hi2 Hj2 Hd Hy.
      intros Hb. Z.div_mod_to_equations. lia.
    + apply Forall_app. split; [done|]. constructor; [|done].
      by eapply same_occupancy_dark.
  - split; [done|]. rewrite checkers_undo_move_unfold. simpl.
    destruct (Py.pop (move_history w)) as [[h g]|] eqn:E; [|done].
    apply pop_Some in E. rewrite E in Hh. apply Forall_app in Hh as [Hh1 Hg].
    apply Forall_cons in Hg as [Hg _]. done.
Qed.

Lemma checkers_init_on_dark_cells : checkers_on_dark_cells CheckersBoard.init.
Proof.
  split; [apply checkers_init_shaped|]. split; [|constructor].
  intros i j a. vm_compute.
  do 8 (destruct i as [|i]; [do 8 (destruct j as [|j]; [try done|]); by destruct j|]).
  by destruct i.
Qed.

Lemma checkers_pieces_stay_on_dark_cells_witness :
  (∀ start end_, checkers_on_dark_cells (move_piece start end_ CheckersBoard.init).2)
  ∧ checkers_on_dark_cells (undo_move CheckersBoard.init).2.
Proof.
  apply (checkers_pieces_stay_on_dark_cells CheckersBoard.init).
  split; [|split; [|constructor]].
  - split; [|constructor]. split; [reflexivity|]. vm_compute. repeat constructor.
  - intros i j a. vm_compute.
    do 8 (destruct i as [|i]; [do 8 (destruct j as [|j]; [try done|]); by destruct j|]).
    by destruct i.
Defined.

End CheckersInvariants.

Section SnapshotIsolation.
Import CheckersBoard CheckersRules.

Lemma disjoint_grids_sym g1 g2 : disjoint_grids g1 g2 → disjoint_grids g2 g1.
Proof. intros H a H2 H1. by apply (H a). Qed.

Lemma separated_snoc gs x :
  separated (gs ++ [x]) ↔ separated gs ∧ Forall (λ g, disjoint_grids g x) gs.
Proof.
  induction gs as [|g gs IH]; simpl.
  - split; [by intros _; split|done].
  - rewrite Forall_app, IH, !Forall_cons, Forall_nil. tauto.
Qed.

Lemma allocated_pieces h (g : Grid nat) a :
  Forall (allocated h) g → a ∈ pieces g → (a < Store.next h)%nat.
Proof.
  intros Hg Ha. apply elem_of_pieces in Ha as (i & j & Hc).
  by eapply allocated_cell.
Qed.

Lemma copies_fresh h0 h' (g g' : Grid nat) a' :
  Forall2 (Forall2 (copies h0 h')) g g' → a' ∈ pieces g' →
  (Store.next h0 ≤ a')%nat.
Proof.
  intros H Ha. apply elem_of_pieces in Ha as (i & j & Hc). unfold cell in Hc.
  destruct (g' !! i) as [row'|] eqn:Hi; simplify_eq/=.
  destruct (Forall2_lookup_r _ _ _ _ _ H Hi) as (row & Hrow & Hr).
  destruct (Forall2_lookup_r _ _ _ _ _ Hr Hc) as (c & Hcell & [_ Hfresh]).
  specialize (Hfresh a' eq_refl). lia.
Qed.

(** A grid shows the same in two stores that agree on its objects. *)
Lemma view_ext h h' (g : Grid nat) :
  (∀ a, a ∈ pieces g → Store.objs h' a = Store.objs h a) → view h' g = view h g.
Proof.
  intros H. unfold view. apply list_eq. intros i. rewrite !list_lookup_fmap.
  destruct (g !! i) as [row|] eqn:Hi; simpl; [|done]. f_equal.
  apply list_eq. intros j. rewrite !list_lookup_fmap.
  destruct (row !! j) as [[a|]|] eqn:Hj; simpl; [|done|done].
  do 2 f_equal. apply H. apply elem_of_pieces. exists i, j. unfold cell.
  by rewrite Hi.
Qed.

(** What [move_piece] leaves of the store: an object that existed and is
    not the piece on the start cell is as it was. *)
Lemma checkers_move_piece_heap w x1 y1 x2 y2 c :
  (c < Store.next (heap w))%nat →
  Py.getitem2 (board w) x1 y1 ≠ Some (Some c) →
  Store.objs (heap (move_piece (x1, y1) (x2, y2) w).2) c = Store.objs (heap w) c.
Proof.
  intros Hc Hne.
  destruct (checkers_move_piece_cases w x1 y1 x2 y2)
    as [(a & i1 & j1 & i2 & j2 & b & H1 & Ha & _ & _ & _ & ->)|(r & _ & ->)];
    [|done].
  simpl. rewrite checkers_landed_heap by done.
  destruct (Nat.eqb_spec c a) as [->|]; [|done].
  exfalso. apply Hne. apply getitem2_Some. eauto.
Qed.

(** X13. Snapshots are independent copies. On a checkers board whose
    grid and snapshots share no piece object (as on the initial board),
    whatever [move_piece] does, promotion included, every snapshot stored
    before the call shows afterwards exactly what it showed; and the grid
    and the snapshots still share no piece object after [move_piece] and
    after [undo_move]. *)
Theorem checkers_snapshots_are_independent w :
  unshared w →
  (∀ start end_,
      unshared (move_piece start end_ w).2
      ∧ ∀ g, g ∈ move_history w →
             view (heap (move_piece start end_ w).2) g = view (heap w) g)
  ∧ unshared (undo_move w).2.
Proof.
  intros (Hwf & Hdis & Hsep). split.
  - intros [x1 y1] [x2 y2]. split.
    + split; [by apply checkers_wf_move_piece|].
      destruct Hwf as [Hb Hh].
      destruct (checkers_move_piece_cases w x1 y1 x2 y2)
        as [(a & i1 & j1 & i2 & j2 & b & H1 & Ha & H2 & He & Hacc & ->)|(r & _ & ->)];
        [|done].
      simpl.
      assert (Forall (allocated (heap w)) b) as Hbb.
      { destruct Hacc; [done|done|]. by apply allocated_set_cell. }
      pose proof (deepcopy_copies b (heap w) Hbb) as Hcp.
      destruct (Accepts_cells _ _ _ _ _ _ _ _ _ _ _ Hacc Ha He) as [Hab _].
      assert (∀ c, c ∈ pieces (board (landed w a b i1 j1 i2 j2 x2)) →
                   c ∈ pieces (board w)) as Hsub.
      { intros c Hc. eapply Accepts_pieces; [done|].
        by eapply checkers_landed_pieces. }
      revert Hsub. unfold landed.
      destruct (Store.deepcopy b (heap w)) as [g h]. simpl. intros Hsub.
      assert (∀ g0, Forall (allocated (heap w)) g0 → disjoint_grids g0 g) as Hfresh.
      { intros g0 Hg0 c Hc Hc'. pose proof (allocated_pieces _ _ _ Hg0 Hc).
        pose proof (copies_fresh _ _ _ _ _ Hcp Hc'). lia. }
      split.
      * apply Forall_app. split.
        -- eapply Forall_impl; [exact Hdis|]. intros g0 Hg0 c Hc. apply Hg0. auto.
        -- constructor; [|done]. intros c Hc Hc'.
           pose proof (allocated_pieces _ _ _ Hb (Hsub c Hc)).
           pose proof (copies_fresh _ _ _ _ _ Hcp Hc'). lia.
      * apply separated_snoc. split; [done|].
        rewrite Forall_forall in Hh. apply Forall_forall. intros g0 Hg0.
        apply Hfresh. by apply Hh.
    + intros g Hg. apply view_ext. intros c Hc.
      destruct Hwf as [Hb Hh]. rewrite Forall_forall in Hh, Hdis.
      apply checkers_move_piece_heap.
      * eapply allocated_pieces; [by apply Hh|done].
      * intros Hs. apply getitem2_Some in Hs as (i & j & _ & Hcell).
        apply (Hdis g Hg c); [|done]. apply elem_of_pieces. eauto.
  - split; [by apply checkers_wf_undo_move|].
    rewrite checkers_undo_move_unfold. simpl.
    destruct (Py.pop (move_history w)) as [[h g]|] eqn:E; [|done].
    apply pop_Some in E. rewrite E in Hsep, Hdis. simpl.
    apply separated_snoc in Hsep as [Hsep Hg]. split; [|done].
    eapply Forall_impl; [exact Hg|]. intros g0. apply disjoint_grids_sym.
Qed.

Lemma checkers_init_unshared : unshared CheckersBoard.init.
Proof. split; [apply checkers_wf_init|]. split; [constructor|exact I]. Qed.

Lemma checkers_snapshots_are_independent_witness :
  let w := (move_piece (5, 2) (4, 3) CheckersBoard.init).2 in
  (∀ start end_,
      unshared (move_piece start end_ w).2
      ∧ ∀ g, g ∈ move_history w →
             view (heap (move_piece start end_ w).2) g = view (heap w) g)
  ∧ unshared (undo_move w).2.
Proof.
  apply (checkers_snapshots_are_independent
           (move_piece (5, 2) (4, 3) CheckersBoard.init).2).
  apply (checkers_snapshots_are_independent CheckersBoard.init).
  split; [|split; [constructor|exact I]].
  split; [|constructor]. vm_compute.
  repeat (constructor; [repeat (constructor; [intros ? [=]; subst; lia|]);
                        constructor|]).
  constructor.
Defined.

End SnapshotIsolation.

(** * Further properties of the sessions *)

Section Sessions.

Lemma try_except_returns {S} (m : Py.M S unit) s :
  ∃ s', Py.try_except m s = (Py.Ok tt, s').
Proof. unfold Py.try_except. destruct (m s) as [[?|?] s']; eauto. Qed.

Lemma getitem_ready {A} (l : list A) i :
  length l = 2%nat → 0 ≤ i < 2 → is_Some (Py.getitem l i).
Proof.
  intros Hl Hi. unfold Py.getitem. rewrite Hl, (index_nonneg 2 i) by done. simpl.
  apply lookup_lt_is_Some. lia.
Qed.

Lemma chess_play_step_returns start end_ g :
  ∃ g', ChessGame.play_step start end_ g = (Py.Ok tt, g').
Proof.
  unfold ChessGame.play_step. destruct (_ || _).
  - unfold Py.bind, ChessGame.on_board. rewrite chess_undo_move_unfold. simpl. eauto.
  - apply try_except_returns.
Qed.

Lemma hex_switch_turn_ready g :
  length (HexChessGame.players g) = 2%nat →
  hex_ready (HexChessGame.switch_turn g).2.
Proof.
  intros Hl. split; [done|]. simpl.
  apply Z.mod_pos_bound. lia.
Qed.

Lemma hex_play_step_returns start end_ g :
  hex_ready g →
  ∃ g', HexChessGame.play_step start end_ g = (Py.Ok tt, g') ∧ hex_ready g'.
Proof.
  intros [Hl Hi]. destruct (getitem_ready _ _ Hl Hi) as [c Hc].
  unfold HexChessGame.play_step. unfold Py.bind at 1 2. unfold Py.get at 1.
  rewrite Hc. simpl. destruct (_ || _).
  - unfold Py.bind, HexChessGame.on_board. rewrite hex_undo_move_eq.
    rewrite chess_undo_move_unfold. simpl. eexists. split; [done|].
    split; [done|]. simpl. apply Z.mod_pos_bound. lia.
  - unfold Py.try_except, Py.bind.
    destruct (HexChessGame.convert_to_coords start g) as [[s|e] g1] eqn:Hs.
    2:{ exists g1. split; [done|].
        revert Hs. unfold HexChessGame.convert_to_coords, Py.bind, Py.orRaise, Py.ret, Py.raise.
        destruct (Py.char_at start 0); [|by intros [= _ <-]].
        destruct (Py.int (Py.tail start)); by intros [= _ <-]. }
    assert (g1 = g) as ->.
    { revert Hs. unfold HexChessGame.convert_to_coords, Py.bind, Py.orRaise, Py.ret, Py.raise.
      destruct (Py.char_at start 0); [|done].
      destruct (Py.int (Py.tail start)); by intros [= _ <-]. }
    destruct (HexChessGame.convert_to_coords end_ g) as [[e|e] g1] eqn:He.
    2:{ exists g1. split; [done|].
        revert He. unfold HexChessGame.convert_to_coords, Py.bind, Py.orRaise, Py.ret, Py.raise.
        destruct (Py.char_at end_ 0); [|by intros [= _ <-]].
        destruct (Py.int (Py.tail end_)); by intros [= _ <-]. }
    assert (g1 = g) as ->.
    { revert He. unfold HexChessGame.convert_to_coords, Py.bind, Py.orRaise, Py.ret, Py.raise.
      destruct (Py.char_at end_ 0); [|done].
      destruct (Py.int (Py.tail end_)); by intros [= _ <-]. }
    unfold HexChessGame.on_board.
    destruct (HexChessBoard.move_piece s e (HexChessGame.board g)) as [[o|x] b'].
    + simpl. eexists. split; [done|]. split; [done|]. simpl.
      apply Z.mod_pos_bound. lia.
    + eexists. split; [done|]. by split.
Qed.

Lemma checkers_play_step_returns start end_ g :
  checkers_ready g →
  ∃ g', CheckersGame.play_step start end_ g = (Py.Ok tt, g') ∧ checkers_ready g'.
Proof.
  intros [Hl Hi]. destruct (getitem_ready _ _ Hl Hi) as [c Hc].
  unfold CheckersGame.play_step. unfold Py.bind at 1 2. unfold Py.get at 1.
  rewrite Hc. simpl. destruct (_ || _).
  - unfold Py.bind, CheckersGame.on_board.
    rewrite checkers_undo_move_unfold. simpl. eexists. split; [done|].
    split; [done|]. simpl. apply Z.mod_pos_bound. lia.
  - unfold Py.try_except, Py.bind.
    destruct (CheckersGame.convert_to_coords start g) as [[s|e] g1] eqn:Hs.
    2:{ exists g1. split; [done|].
        revert Hs. unfold CheckersGame.convert_to_coords, Py.bind, Py.orRaise, Py.ret, Py.raise.
        destruct (Py.char_at start 0); [|by intros [= _ <-]].
        destruct (Py.char_at start 1); [|by intros [= _ <-]].
        destruct (Py.int _); by intros [= _ <-]. }
    assert (g1 = g) as ->.
    { revert Hs. unfold CheckersGame.convert_to_coords, Py.bind, Py.orRaise, Py.ret, Py.raise.
      destruct (Py.char_at start 0); [|done].
      destruct (Py.char_at start 1); [|done].
      destruct (Py.int _); by intros [= _ <-]. }
    destruct (CheckersGame.convert_to_coords end_ g) as [[e|e] g1] eqn:He.
    2:{ exists g1. split; [done|].
        revert He. unfold CheckersGame.convert_to_coords, Py.bind, Py.orRaise, Py.ret, Py.raise.
        destruct (Py.char_at end_ 0); [|by intros [= _ <-]].
        destruct (Py.char_at end_ 1); [|by intros [= _ <-]].
        destruct (Py.int _); by intros [= _ <-]. }
    assert (g1 = g) as ->.
    { revert He. unfold CheckersGame.convert_to_coords, Py.bind, Py.orRaise, Py.ret, Py.raise.
      destruct (Py.char_at end_ 0); [|done].
      destruct (Py.char_at end_ 1); [|done].
      destruct (Py.int _); by intros [= _ <-]. }
    unfold CheckersGame.on_board.
    destruct (CheckersBoard.move_piece s e (CheckersGame.board g)) as [[o|x] b'].
    + simpl. eexists. split; [done|]. split; [done|]. simpl.
      apply Z.mod_pos_bound. lia.
    + eexists. split; [done|]. by split.
Qed.

(** [int] of one character: its value when it is a decimal digit, a
    [ValueError] otherwise. *)
Lemma int_single d :
  Py.int (String d EmptyString)
  = if Py.is_digit d then Some (Py.ord d - Py.ord "0") else None.
Proof. destruct d as [[|] [|] [|] [|] [|] [|] [|] [|]]; reflexivity. Qed.

(** What the coordinates of the chess and checkers sessions are made of:
    the first two characters, the second a decimal digit. *)
Lemma chess_coords_unfold s g :
  ChessGame.coords s g =
  match s with
  | String c (String d _) =>
    if Py.is_digit d
    then (Py.Ok (8 - (Py.ord d - Py.ord "0"), Py.ord (Py.lower_char c) - Py.ord "a"), g)
    else (Py.Raise Py.ValueError, g)
  | _ => (Py.Raise Py.IndexError, g)
  end.
Proof.
  unfold ChessGame.coords, Py.bind, Py.orRaise, Py.ret, Py.raise, Py.char_at.
  destruct s as [|c [|d rest]]; simpl; [done|done|].
  rewrite int_single. by destruct (Py.is_digit d).
Qed.

Lemma checkers_coords_unfold s g :
  CheckersGame.convert_to_coords s g =
  match s with
  | String c (String d _) =>
    if Py.is_digit d
    then (Py.Ok (8 - (Py.ord d - Py.ord "0"), Py.ord (Py.lower_char c) - Py.ord "a"), g)
    else (Py.Raise Py.ValueError, g)
  | _ => (Py.Raise Py.IndexError, g)
  end.
Proof.
  unfold CheckersGame.convert_to_coords, Py.bind, Py.orRaise, Py.ret, Py.raise, Py.char_at.
  destruct s as [|c [|d rest]]; simpl; [done|done|].
  rewrite int_single. by destruct (Py.is_digit d).
Qed.

Lemma hex_coords_unfold s g :
  HexChessGame.convert_to_coords s g =
  match s with
  | String c rest =>
    match Py.int rest with
    | Some n => (Py.Ok (11 - n, Py.ord (Py.lower_char c) - Py.ord "a" + 1), g)
    | None => (Py.Raise Py.ValueError, g)
    end
  | EmptyString => (Py.Raise Py.IndexError, g)
  end.
Proof.
  unfold HexChessGame.convert_to_coords, Py.bind, Py.orRaise, Py.ret, Py.raise, Py.char_at.
  destruct s as [|c rest]; simpl; [done|]. by destruct (Py.int rest).
Qed.

Lemma chess_coords_cases s g :
  (digit_second s ∧ ∃ xy, ChessGame.coords s g = (Py.Ok xy, g))
  ∨ (¬ digit_second s ∧ ∃ e, ChessGame.coords s g = (Py.Raise e, g)).
Proof.
  rewrite chess_coords_unfold. destruct s as [|c [|d rest]].
  - right. split; [by intros (? & ? & ? & ? & _)|eauto].
  - right. split; [by intros (? & ? & ? & ? & _)|eauto].
  - destruct (Py.is_digit d) eqn:E.
    + left. split; [by exists c, d, rest|eauto].
    + right. split; [|eauto]. intros (? & ? & ? & [= <- <- <-] & ?). congruence.
Qed.

Lemma checkers_coords_cases s g :
  (digit_second s ∧ ∃ xy, CheckersGame.convert_to_coords s g = (Py.Ok xy, g))
  ∨ (¬ digit_second s ∧ ∃ e, CheckersGame.convert_to_coords s g = (Py.Raise e, g)).
Proof.
  rewrite checkers_coords_unfold. destruct s as [|c [|d rest]].
  - right. split; [by intros (? & ? & ? & ? & _)|eauto].
  - right. split; [by intros (? & ? & ? & ? & _)|eauto].
  - destruct (Py.is_digit d) eqn:E.
    + left. split; [by exists c, d, rest|eauto].
    + right. split; [|eauto]. intros (? & ? & ? & [= <- <- <-] & ?). congruence.
Qed.



(** X15. A move typed in and applied, then [undo] typed in (in either
    line, in any letter case): in a chess or hex-chess session the board is
    back as it was, grid and history, and the same player is to move; but
    [move_count] is one higher than before, since undo never lowers it. *)
Theorem move_then_undo_in_session :
  (∀ g start end_ s e b' x y,
      is_undo start end_ = false →
      ChessGame.coords start g = (Py.Ok s, g) →
      ChessGame.coords end_ g = (Py.Ok e, g) →
      ChessBoard.move_piece s e (ChessGame.board g) = (Py.Ok Applied, b') →
      is_undo x y = true →
      ChessGame.play [(start, end_); (x, y)] g
      = (Py.Ok tt,
         {| ChessGame.board := ChessGame.board g;
            ChessGame.turn := ChessGame.turn g;
            ChessGame.move_count := ChessGame.move_count g + 1 |}))
  ∧ (∀ g start end_ s e b' x y,
      hex_ready g →
      is_undo start end_ = false →
      HexChessGame.convert_to_coords start g = (Py.Ok s, g) →
      HexChessGame.convert_to_coords end_ g = (Py.Ok e, g) →
      HexChessBoard.move_piece s e (HexChessGame.board g) = (Py.Ok Applied, b') →
      is_undo x y = true →
      HexChessGame.play [(start, end_); (x, y)] g
      = (Py.Ok tt,
         {| HexChessGame.board := HexChessGame.board g;
            HexChessGame.players := HexChessGame.players g;
            HexChessGame.turn_index := HexChessGame.turn_index g;
            HexChessGame.move_count := HexChessGame.move_count g + 1 |})).
Proof.
  split.
  - intros g start end_ s e b' x y Hu Hs He Hm Hx. simpl. unfold Py.bind at 1.
    rewrite (chess_play_step_attempt _ _ _ _ _ _ _ Hu Hs He Hm).
    unfold Py.bind at 1. unfold ChessGame.play_step. unfold is_undo in Hx.
    rewrite Hx. unfold Py.bind, ChessGame.on_board. simpl.
    rewrite chess_undo_move_unfold.
    pose proof (chess_undo_after_move _ _ _ _ Hm) as Hb.
    rewrite chess_undo_move_unfold in Hb. simpl in Hb. rewrite Hb. simpl.
    unfold Py.ret. f_equal. f_equal. by destruct (ChessGame.turn g).
  - intros g start end_ s e b' x y Hg Hu Hs He Hm Hx. simpl. unfold Py.bind at 1.
    destruct Hg as [Hl Hi].
    rewrite (hex_play_step_attempt _ _ _ _ _ _ _ (getitem_ready _ _ Hl Hi) Hu Hs He Hm).
    unfold Py.bind at 1. unfold HexChessGame.play_step.
    unfold Py.bind at 1 2. unfold Py.get at 1. simpl.
    destruct (getitem_ready (HexChessGame.players g)
                ((HexChessGame.turn_index g + 1) mod 2) Hl) as [c ->].
    { apply Z.mod_pos_bound. lia. }
    simpl. unfold is_undo in Hx. rewrite Hx.
    unfold Py.bind, HexChessGame.on_board. simpl.
    rewrite hex_undo_move_eq, chess_undo_move_unfold.
    rewrite hex_move_piece_eq in Hm.
    pose proof (chess_undo_after_move _ _ _ _ Hm) as Hb.
    rewrite chess_undo_move_unfold in Hb. simpl in Hb. rewrite Hb. simpl.
    unfold Py.ret. f_equal. f_equal.
    rewrite Zplus_mod_idemp_l.
    replace (HexChessGame.turn_index g + 1 + 1) with (HexChessGame.turn_index g + 1 * 2) by lia.
    rewrite Z.mod_add by lia. apply Z.mod_small. lia.
Qed.

Lemma move_then_undo_in_session_witness :
  ChessGame.play [("E2", "E4"); ("Undo", "")]%string ChessGame.init
  = (Py.Ok tt,
     {| ChessGame.board := ChessGame.board ChessGame.init;
        ChessGame.turn := ChessGame.turn ChessGame.init;
        ChessGame.move_count := ChessGame.move_count ChessGame.init + 1 |})
  ∧ HexChessGame.play [("B2", "B4"); ("x", "UNDO")]%string HexChessGame.init
    = (Py.Ok tt,
       {| HexChessGame.board := HexChessGame.board HexChessGame.init;
          HexChessGame.players := HexChessGame.players HexChessGame.init;
          HexChessGame.turn_index := HexChessGame.turn_index HexChessGame.init;
          HexChessGame.move_count := HexChessGame.move_count HexChessGame.init + 1 |}).
Proof.
  destruct move_then_undo_in_session as [Hc Hh]. split.
  - apply (Hc ChessGame.init "E2" "E4" (6, 4) (4, 4)
             (ChessBoard.move_piece (6, 4) (4, 4) ChessBoard.init).2 "Undo" "")%string;
      reflexivity.
  - apply (Hh HexChessGame.init "B2" "B4" (9, 2) (7, 2)
             (HexChessBoard.move_piece (9, 2) (7, 2) HexChessBoard.init).2 "x" "UNDO")%string;
      [split; [reflexivity|simpl; lia]|reflexivity..].
Defined.

(** X16. A chess move typed with a start that holds a piece and an end
    off the board (a column after H, or row 0): the pass switches no turn
    and counts no move, and the grid is unchanged, but the history has
    gained a snapshot of it. An [undo] typed next therefore changes
    nothing on the grid; it removes that snapshot and passes the turn. *)
Theorem chess_attempt_off_board g start end_ s e p :
  is_undo start end_ = false →
  ChessGame.coords start g = (Py.Ok s, g) →
  ChessGame.coords end_ g = (Py.Ok e, g) →
  Py.getitem2 (BoardState.board (ChessGame.board g)) s.1 s.2 = Some (Some p) →
  Py.getitem2 (BoardState.board (ChessGame.board g)) e.1 e.2 = None →
  ChessGame.play_step start end_ g
  = (Py.Ok tt,
     {| ChessGame.board :=
          {| BoardState.board := BoardState.board (ChessGame.board g);
             BoardState.move_history :=
               BoardState.move_history (ChessGame.board g)
               ++ [BoardState.board (ChessGame.board g)] |};
        ChessGame.turn := ChessGame.turn g;
        ChessGame.move_count := ChessGame.move_count g |})
  ∧ ∀ x y, is_undo x y = true →
      ChessGame.play [(start, end_); (x, y)] g
      = (Py.Ok tt,
         {| ChessGame.board := ChessGame.board g;
            ChessGame.turn := if Color_eqb (ChessGame.turn g) white then black else white;
            ChessGame.move_count := ChessGame.move_count g |}).
Proof.
  intros Hu Hs He Hp Hoff. destruct s as [x1 y1], e as [x2 y2]. simpl in *.
  assert (ChessGame.play_step start end_ g
          = (Py.Ok tt,
             {| ChessGame.board :=
                  {| BoardState.board := BoardState.board (ChessGame.board g);
                     BoardState.move_history :=
                       BoardState.move_history (ChessGame.board g)
                       ++ [BoardState.board (ChessGame.board g)] |};
                ChessGame.turn := ChessGame.turn g;
                ChessGame.move_count := ChessGame.move_count g |})) as Hstep.
  { unfold ChessGame.play_step. unfold is_undo in Hu. rewrite Hu.
    unfold Py.try_except, Py.bind. rewrite Hs, He. unfold ChessGame.on_board.
    rewrite chess_move_piece_unfold, Hp. cbv zeta.
    by rewrite (proj2 (setitem2_None _ x2 y2 (Some p)) Hoff). }
  split; [done|]. intros x y Hx. simpl. unfold Py.bind at 1. rewrite Hstep.
  unfold Py.bind at 1. unfold ChessGame.play_step. unfold is_undo in Hx. rewrite Hx.
  unfold Py.bind, ChessGame.on_board. simpl. rewrite chess_undo_move_unfold. simpl.
  rewrite pop_snoc. simpl. by destruct (ChessGame.board g).
Qed.

Lemma chess_attempt_off_board_witness :
  ChessGame.play_step "E2" "I4" ChessGame.init
  = (Py.Ok tt,
     {| ChessGame.board :=
          {| BoardState.board := BoardState.board (ChessGame.board ChessGame.init);
             BoardState.move_history :=
               BoardState.move_history (ChessGame.board ChessGame.init)
               ++ [BoardState.board (ChessGame.board ChessGame.init)] |};
        ChessGame.turn := ChessGame.turn ChessGame.init;
        ChessGame.move_count := ChessGame.move_count ChessGame.init |})
  ∧ ∀ x y, is_undo x y = true →
      ChessGame.play [("E2", "I4"); (x, y)]%string ChessGame.init
      = (Py.Ok tt,
         {| ChessGame.board := ChessGame.board ChessGame.init;
            ChessGame.turn :=
              if Color_eqb (ChessGame.turn ChessGame.init) white then black else white;
            ChessGame.move_count := ChessGame.move_count ChessGame.init |}).
Proof.
  apply (chess_attempt_off_board ChessGame.init "E2" "I4" (6, 4) (4, 8)
           {| kind := Pawn; color := white |})%string; reflexivity.
Defined.

(** X17. In a checkers session every attempt whose [move_piece] call
    returns passes the turn to the other player, whether the move was
    applied or rejected; a rejected attempt changes nothing else. An
    attempt whose [move_piece] call raises leaves the whole session as it
    was. *)
Theorem checkers_attempt g start end_ s e :
  checkers_ready g →
  is_undo start end_ = false →
  CheckersGame.convert_to_coords start g = (Py.Ok s, g) →
  CheckersGame.convert_to_coords end_ g = (Py.Ok e, g) →
  (∀ o b', CheckersBoard.move_piece s e (CheckersGame.board g) = (Py.Ok o, b') →
           CheckersGame.play_step start end_ g
           = (Py.Ok tt,
              {| CheckersGame.board := b';
                 CheckersGame.players := CheckersGame.players g;
                 CheckersGame.turn_index := (CheckersGame.turn_index g + 1) mod 2 |})
           ∧ (CheckersGame.turn_index g + 1) mod 2 ≠ CheckersGame.turn_index g
           ∧ (o = Rejected → b' = CheckersGame.board g))
  ∧ (∀ x b', CheckersBoard.move_piece s e (CheckersGame.board g) = (Py.Raise x, b') →
             CheckersGame.play_step start end_ g = (Py.Ok tt, g)).
Proof.
  intros [Hl Hi] Hu Hs He. destruct (getitem_ready _ _ Hl Hi) as [c Hc].
  assert (∀ r b', CheckersBoard.move_piece s e (CheckersGame.board g) = (r, b') →
            CheckersGame.play_step start end_ g
            = match r with
              | Py.Ok _ =>
                (Py.Ok tt,
                 {| CheckersGame.board := b';
                    CheckersGame.players := CheckersGame.players g;
                    CheckersGame.turn_index := (CheckersGame.turn_index g + 1) mod 2 |})
              | Py.Raise _ =>
                (Py.Ok tt,
                 {| CheckersGame.board := b';
                    CheckersGame.players := CheckersGame.players g;
                    CheckersGame.turn_index := CheckersGame.turn_index g |})
              end) as Hstep.
  { intros r b' Hm. unfold CheckersGame.play_step.
    unfold Py.bind at 1 2. unfold Py.get at 1. rewrite Hc. simpl.
    unfold is_undo in Hu. rewrite Hu. unfold Py.try_except, Py.bind.
    rewrite Hs, He. unfold CheckersGame.on_board. rewrite Hm. by destruct r. }
  split.
  - intros o b' Hm. rewrite (Hstep _ _ Hm). split; [done|]. split.
    + assert (CheckersGame.turn_index g = 0 ∨ CheckersGame.turn_index g = 1)
        as [-> | ->] by lia; done.
    + intros ->. destruct s, e.
      by eapply checkers_move_piece_rejected_inv.
  - intros x b' Hm. rewrite (Hstep _ _ Hm). destruct s as [x1 y1], e as [x2 y2].
    destruct (checkers_move_piece_raise_same _ _ _ _ _ _ _ Hm) as [_ ->].
    by destruct g.
Qed.

Lemma checkers_attempt_witness :
  (CheckersGame.play_step "C3" "E5" CheckersGame.init
   = (Py.Ok tt,
      {| CheckersGame.board := CheckersGame.board CheckersGame.init;
         CheckersGame.players := CheckersGame.players CheckersGame.init;
         CheckersGame.turn_index := (CheckersGame.turn_index CheckersGame.init + 1) mod 2 |})
   ∧ (CheckersGame.turn_index CheckersGame.init + 1) mod 2
     ≠ CheckersGame.turn_index CheckersGame.init
   ∧ (Rejected = Rejected →
      CheckersGame.board CheckersGame.init = CheckersGame.board CheckersGame.init))
  ∧ CheckersGame.play_step "C3" "D0" CheckersGame.init = (Py.Ok tt, CheckersGame.init).
Proof.
  destruct (checkers_attempt CheckersGame.init "C3" "E5" (5, 2) (3, 4))%string
    as [Hret _]; [split; [reflexivity|simpl; lia]|reflexivity..|].
  destruct (checkers_attempt CheckersGame.init "C3" "D0" (5, 2) (8, 3))%string
    as [_ Hraise]; [split; [reflexivity|simpl; lia]|reflexivity..|].
  split.
  - apply (Hret Rejected). vm_compute. reflexivity.
  - apply (Hraise Py.IndexError CheckersBoard.init). vm_compute. reflexivity.
Defined.

(** X18. The turn alternates between the two players: one [switch_turn]
    always gives the other player, two give back the one who was to move;
    in the hex-chess and checkers sessions the index after a switch is 0 or
    1 whatever it was before. *)
Theorem turn_alternates :
  (∀ g, ChessGame.turn (ChessGame.switch_turn g).2 ≠ ChessGame.turn g
        ∧ (ChessGame.switch_turn (ChessGame.switch_turn g).2).2 = g)
  ∧ (∀ g, 0 ≤ HexChessGame.turn_index (HexChessGame.switch_turn g).2 < 2)
  ∧ (∀ g, 0 ≤ CheckersGame.turn_index (CheckersGame.switch_turn g).2 < 2)
  ∧ (∀ g, 0 ≤ HexChessGame.turn_index g < 2 →
          HexChessGame.turn_index (HexChessGame.switch_turn g).2
          ≠ HexChessGame.turn_index g
          ∧ (HexChessGame.switch_turn (HexChessGame.switch_turn g).2).2 = g)
  ∧ (∀ g, 0 ≤ CheckersGame.turn_index g < 2 →
          CheckersGame.turn_index (CheckersGame.switch_turn g).2
          ≠ CheckersGame.turn_index g
          ∧ (CheckersGame.switch_turn (CheckersGame.switch_turn g).2).2 = g).
Proof.
  split; [|split; [|split; [|split]]].
  - intros [b [|] n]; by split.
  - intros g. simpl. apply Z.mod_pos_bound. lia.
  - intros g. simpl. apply Z.mod_pos_bound. lia.
  - intros [b ps i n] Hi. simpl in *.
    assert (i = 0 ∨ i = 1) as [-> | ->] by lia; by split.
  - intros [b ps i] Hi. simpl in *.
    assert (i = 0 ∨ i = 1) as [-> | ->] by lia; by split.
Qed.

Lemma turn_alternates_witness :
  (HexChessGame.turn_index (HexChessGame.switch_turn HexChessGame.init).2
   ≠ HexChessGame.turn_index HexChessGame.init
   ∧ (HexChessGame.switch_turn (HexChessGame.switch_turn HexChessGame.init).2).2
     = HexChessGame.init)
  ∧ (CheckersGame.turn_index (CheckersGame.switch_turn CheckersGame.init).2
     ≠ CheckersGame.turn_index CheckersGame.init
     ∧ (CheckersGame.switch_turn (CheckersGame.switch_turn CheckersGame.init).2).2
       = CheckersGame.init).
Proof.
  destruct turn_alternates as (_ & _ & _ & Hh & Hc). split.
  - apply Hh. simpl. lia.
  - apply Hc. simpl. lia.
Defined.

End Sessions.

(** * Further properties of the displays *)

Section DisplayFacts.

Lemma get_spaced chs (k : nat) :
  String.get (2 * k) (spaced chs) = chs !! k.
Proof.
  revert k. induction chs as [|ch chs IH]; intros [|k]; try done.
  replace (2 * S k)%nat with (S (S (2 * k))) by lia. simpl. apply IH.
Qed.

Lemma get_app_l (s1 s2 : string) n :
  (n < String.length s1)%nat → String.get n (s1 ++ s2) = String.get n s1.
Proof. intros. symmetry. by apply append_correct1. Qed.

Lemma length_spaced chs : String.length (spaced chs) = (2 * length chs)%nat.
Proof. induction chs; simpl; lia. Qed.

(** What the inner loop of [display] has built when it did not raise: one
    character and a space for each cell it read. *)
Lemma cells_text_spaced {P} (str : P → string) (g : Grid P) i js s :
  (∀ p, ∃ ch, str p = String ch EmptyString) →
  Display.cells_text str g i js = Some s →
  ∃ chs, s = spaced chs
    ∧ Forall2 (λ j ch, ∃ c, Py.getitem2 g i j = Some c
                 ∧ Display.cell_text str c = String ch EmptyString) js chs.
Proof.
  intros Hstr. revert s. induction js as [|j js IH]; intros s; simpl.
  - intros [= <-]. by exists [].
  - destruct (Py.getitem2 g i j) as [c|] eqn:Ec; [|done]. simpl.
    destruct (Display.cells_text str g i js) as [rest|]; [|done]. simpl.
    intros [= <-]. destruct (IH rest eq_refl) as (chs & -> & Hall).
    assert (∃ ch, Display.cell_text str c = String ch EmptyString) as [ch Hch].
    { destruct c as [p|]; simpl; [apply Hstr|by eexists]. }
    exists (ch :: chs). split; [by rewrite Hch|].
    constructor; [by exists c|done].
Qed.

Lemma print_rows_lookup line rows ls (k : nat) i :
  Display.print_rows line rows = (ls, Py.Ok tt) →
  rows !! k = Some i →
  ∃ l, line i = Some l ∧ ls !! k = Some l.
Proof.
  revert ls k. induction rows as [|r rows IH]; intros ls k; [done|]. simpl.
  destruct (line r) as [l|] eqn:El; [|done].
  destruct (Display.print_rows line rows) as [ls' r'] eqn:E.
  intros [= <- ->]. destruct k as [|k]; simpl.
  - intros [= <-]. by exists l.
  - intros Hk. by apply IH.
Qed.

Lemma range_lookup n (k : nat) : (k < n)%nat → PyStr.range n !! k = Some (Z.of_nat k).
Proof.
  intros. unfold PyStr.range. rewrite list_lookup_fmap, lookup_seq_lt by done. done.
Qed.

Lemma symbol_single p : ∃ ch, symbol p = String ch EmptyString.
Proof. destruct p as [[] []]; by eexists. Qed.

Lemma checkers_str_single p : ∃ ch, CheckersPiece.str p = String ch EmptyString.
Proof.
  destruct p as [[] []]; by eexists.
Qed.


Lemma cells_text_is_Some {P} (str : P → string) (g : Grid P) i js :
  Forall (λ j, is_Some (Py.getitem2 g i j)) js →
  is_Some (Display.cells_text str g i js).
Proof.
  induction 1 as [|j js [c Hc] _ [rest IH]]; simpl; [done|].
  rewrite Hc, IH. simpl. done.
Qed.

Lemma print_rows_ok line rows :
  Forall (λ i, is_Some (line i)) rows →
  ∃ ls, Display.print_rows line rows = (ls, Py.Ok tt) ∧ length ls = length rows.
Proof.
  induction 1 as [|i rows [l Hl] _ (ls & IH & Hlen)]; simpl; [by exists []|].
  rewrite Hl, IH. exists (l :: ls). simpl. by rewrite Hlen.
Qed.

Lemma range_bounds n : Forall (λ i, 0 ≤ i < Z.of_nat n) (PyStr.range n).
Proof.
  unfold PyStr.range. rewrite Forall_fmap. apply Forall_forall.
  intros k Hk%elem_of_seq. simpl. lia.
Qed.

Lemma length_range n : length (PyStr.range n) = n.
Proof. unfold PyStr.range. by rewrite length_fmap, length_seq. Qed.

(** The digit that labels row [i] of an 8-row display, read back. *)
Lemma label8 (i : nat) :
  (i < 8)%nat →
  ∃ d, PyStr.str_int (8 - Z.of_nat i) = String d EmptyString
       ∧ Py.is_digit d = true ∧ 8 - (Py.ord d - Py.ord "0") = Z.of_nat i.
Proof.
  intros Hi. do 8 (destruct i as [|i]; [by eexists|]). lia.
Qed.

(** The letter above column [j] of an 8-column display, read back. *)
Lemma letter8 (j : nat) :
  (j < 8)%nat →
  ∃ c, String.get (2 + 2 * j) Display.chess_header = Some c
       ∧ Py.ord (Py.lower_char c) - Py.ord "a" = Z.of_nat j.
Proof.
  intros Hj. do 8 (destruct j as [|j]; [by eexists|]). lia.
Qed.

Lemma line8_shows {P} (str : P → string) (g : Grid P) (i j : nat) cells :
  (∀ p, ∃ ch, str p = String ch EmptyString) →
  (i < 8)%nat → (j < 8)%nat →
  Display.cells_text str g (Z.of_nat i) (PyStr.range 8) = Some cells →
  ∃ content d,
    Py.getitem2 g (Z.of_nat i) (Z.of_nat j) = Some content
    ∧ String.get (2 + 2 * j)
        (PyStr.str_int (8 - Z.of_nat i) ++ " " ++ cells ++ PyStr.str_int (8 - Z.of_nat i))
      = String.get 0 (Display.cell_text str content)
    ∧ String.get 0
        (PyStr.str_int (8 - Z.of_nat i) ++ " " ++ cells ++ PyStr.str_int (8 - Z.of_nat i))
      = Some d
    ∧ Py.is_digit d = true ∧ 8 - (Py.ord d - Py.ord "0") = Z.of_nat i.
Proof.
  intros Hstr Hi Hj Hcells.
  destruct (cells_text_spaced str g _ _ _ Hstr Hcells) as (chs & -> & Hall).
  destruct (label8 i Hi) as (d & -> & Hd & Hrow).
  pose proof (Forall2_length _ _ _ Hall) as Hlen. rewrite length_range in Hlen.
  destruct (Forall2_lookup_l _ _ _ j (Z.of_nat j) Hall (range_lookup 8 j Hj))
    as (ch & Hch & content & Hget & Htext).
  exists content, d. split; [done|]. split; [|done].
  rewrite Htext. change (String.get 0 (String ch EmptyString)) with (Some ch).
  change (String.get (2 + 2 * j) (String d EmptyString ++ " " ++ spaced chs ++ String d EmptyString))
    with (String.get (2 * j) (spaced chs ++ String d EmptyString)).
  rewrite get_app_l by (rewrite length_spaced; lia).
  by rewrite get_spaced.
Qed.

(** X19. What the chess display shows is what the session reads back. On
    an 8 by 8 grid [display] raises nothing and prints twelve lines; the
    line of row [i] shows the cell of row [i] and column [j] (its symbol,
    or a dot) at character [2 + 2 * j], under the [j]-th letter of the
    header, and begins with the digit of the row; that letter followed by
    that digit is read by the session as the coordinates [(i, j)]. *)
Theorem chess_display_matches_input st :
  square 8 (BoardState.board st) →
  ∃ lines,
    Display.ChessBoard_display st = (lines, Py.Ok tt)
    ∧ length lines = 12%nat
    ∧ ∀ i j : nat, (i < 8)%nat → (j < 8)%nat →
      ∃ line content c d,
        lines !! (2 + i)%nat = Some line
        ∧ Py.getitem2 (BoardState.board st) (Z.of_nat i) (Z.of_nat j) = Some content
        ∧ String.get (2 + 2 * j) line = String.get 0 (Display.cell_text symbol content)
        ∧ String.get (2 + 2 * j) Display.chess_header = Some c
        ∧ String.get 0 line = Some d
        ∧ ∀ g, ChessGame.coords (String c (String d EmptyString)) g
               = (Py.Ok (Z.of_nat i, Z.of_nat j), g).
Proof.
  intros Hsq. unfold Display.ChessBoard_display.
  destruct (print_rows_ok (Display.chess_line (BoardState.board st)) (PyStr.range 8))
    as (ls & Hls & Hlen).
  { eapply Forall_impl; [apply (range_bounds 8)|]. intros i Hi. unfold Display.chess_line.
    assert (is_Some (Display.cells_text symbol (BoardState.board st) i (PyStr.range 8)))
      as [cells ->]; [|by eexists].
    apply cells_text_is_Some.
    eapply Forall_impl; [apply (range_bounds 8)|]. intros j Hj. simpl.
    apply (square_getitem2_is_Some _ 8 _ _ Hsq). simpl in Hi, Hj. lia. }
  rewrite Hls. simpl. eexists. split; [done|]. rewrite length_range in Hlen.
  split; [by simpl; rewrite length_app, Hlen|].
  intros i j Hi Hj.
  destruct (print_rows_lookup _ _ _ i (Z.of_nat i) Hls (range_lookup 8 i Hi))
    as (line & Hline & Hlook).
  unfold Display.chess_line in Hline.
  destruct (Display.cells_text symbol (BoardState.board st) (Z.of_nat i) (PyStr.range 8))
    as [cells|] eqn:Hcells; [|done]. simpl in Hline. injection Hline as <-.
  destruct (line8_shows symbol _ i j cells symbol_single Hi Hj Hcells)
    as (content & d & Hget & Hshow & Hlabel & Hd & Hrow).
  destruct (letter8 j Hj) as (c & Hc & Hcol).
  eexists _, content, c, d. split.
  { simpl. by rewrite lookup_app_l by (rewrite Hlen; lia). }
  do 4 (split; [done|]). intros g.
  rewrite chess_coords_unfold, Hd, Hrow, Hcol. done.
Qed.


Lemma chess_display_matches_input_witness :
  ∃ lines,
    Display.ChessBoard_display ChessBoard.init = (lines, Py.Ok tt)
    ∧ length lines = 12%nat
    ∧ ∀ i j : nat, (i < 8)%nat → (j < 8)%nat →
      ∃ line content c d,
        lines !! (2 + i)%nat = Some line
        ∧ Py.getitem2 (BoardState.board ChessBoard.init) (Z.of_nat i) (Z.of_nat j)
          = Some content
        ∧ String.get (2 + 2 * j) line = String.get 0 (Display.cell_text symbol content)
        ∧ String.get (2 + 2 * j) Display.chess_header = Some c
        ∧ String.get 0 line = Some d
        ∧ ∀ g, ChessGame.coords (String c (String d EmptyString)) g
               = (Py.Ok (Z.of_nat i, Z.of_nat j), g).
Proof.
  apply (chess_display_matches_input ChessBoard.init).
  split; [reflexivity|repeat constructor].
Defined.

(** X20. The same for checkers: on an 8 by 8 grid [display] raises nothing
    and prints ten lines (no rules under the header); the cell of row [i]
    and column [j] is shown, by [CheckersPiece.__str__] of its object or a
    dot, at character [2 + 2 * j] of line [1 + i], under the [j]-th letter
    of the header, and that letter followed by the digit the line begins
    with is what [convert_to_coords] reads as [(i, j)]. *)
Theorem checkers_display_matches_input w :
  square 8 (CheckersBoard.board w) →
  ∃ lines,
    Display.CheckersBoard_display w = (lines, Py.Ok tt)
    ∧ length lines = 10%nat
    ∧ ∀ i j : nat, (i < 8)%nat → (j < 8)%nat →
      ∃ line content c d,
        lines !! (1 + i)%nat = Some line
        ∧ Py.getitem2 (CheckersBoard.board w) (Z.of_nat i) (Z.of_nat j) = Some content
        ∧ String.get (2 + 2 * j) line
          = String.get 0 (Display.cell_text
                            (λ a, CheckersPiece.str (Store.objs (CheckersBoard.heap w) a))
                            content)
        ∧ String.get (2 + 2 * j) Display.chess_header = Some c
        ∧ String.get 0 line = Some d
        ∧ ∀ g, CheckersGame.convert_to_coords (String c (String d EmptyString)) g
               = (Py.Ok (Z.of_nat i, Z.of_nat j), g).
Proof.
  intros Hsq. unfold Display.CheckersBoard_display.
  set (str := λ a, CheckersPiece.str (Store.objs (CheckersBoard.heap w) a)).
  assert (Hstr : ∀ a, ∃ ch, str a = String ch EmptyString)
    by (intros a; apply checkers_str_single).
  destruct (print_rows_ok (Display.checkers_line (CheckersBoard.heap w) (CheckersBoard.board w))
                          (PyStr.range 8)) as (ls & Hls & Hlen).
  { eapply Forall_impl; [apply (range_bounds 8)|]. intros i Hi. unfold Display.checkers_line.
    fold str.
    assert (is_Some (Display.cells_text str (CheckersBoard.board w) i (PyStr.range 8)))
      as [cells ->]; [|by eexists].
    apply cells_text_is_Some.
    eapply Forall_impl; [apply (range_bounds 8)|]. intros j Hj. simpl.
    apply (square_getitem2_is_Some _ 8 _ _ Hsq). simpl in Hi, Hj. lia. }
  rewrite Hls. simpl. eexists. split; [done|]. rewrite length_range in Hlen.
  split; [by simpl; rewrite length_app, Hlen|].
  intros i j Hi Hj.
  destruct (print_rows_lookup _ _ _ i (Z.of_nat i) Hls (range_lookup 8 i Hi))
    as (line & Hline & Hlook).
  unfold Display.checkers_line in Hline. fold str in Hline.
  destruct (Display.cells_text str (CheckersBoard.board w) (Z.of_nat i) (PyStr.range 8))
    as [cells|] eqn:Hcells; [|done]. simpl in Hline. injection Hline as <-.
  destruct (line8_shows str _ i j cells Hstr Hi Hj Hcells)
    as (content & d & Hget & Hshow & Hlabel & Hd & Hrow).
  destruct (letter8 j Hj) as (c & Hc & Hcol).
  eexists _, content, c, d. split.
  { simpl. by rewrite lookup_app_l by (rewrite Hlen; lia). }
  do 4 (split; [done|]). intros g.
  rewrite checkers_coords_unfold, Hd, Hrow, Hcol. done.
Qed.

Lemma checkers_display_matches_input_witness :
  ∃ lines,
    Display.CheckersBoard_display CheckersBoard.init = (lines, Py.Ok tt)
    ∧ length lines = 10%nat
    ∧ ∀ i j : nat, (i < 8)%nat → (j < 8)%nat →
      ∃ line content c d,
        lines !! (1 + i)%nat = Some line
        ∧ Py.getitem2 (CheckersBoard.board CheckersBoard.init) (Z.of_nat i) (Z.of_nat j)
          = Some content
        ∧ String.get (2 + 2 * j) line
          = String.get 0 (Display.cell_text
                            (λ a, CheckersPiece.str
                                    (Store.objs (CheckersBoard.heap CheckersBoard.init) a))
                            content)
        ∧ String.get (2 + 2 * j) Display.chess_header = Some c
        ∧ String.get 0 line = Some d
        ∧ ∀ g, CheckersGame.convert_to_coords (String c (String d EmptyString)) g
               = (Py.Ok (Z.of_nat i, Z.of_nat j), g).
Proof.
  apply (checkers_display_matches_input CheckersBoard.init).
  split; [reflexivity|]. vm_compute. repeat constructor.
Defined.

(** The number that labels row [i] of the 11-row display, read back. *)
Lemma label11 (i : nat) :
  (i < 11)%nat →
  ∃ a b, PyStr.rjust 2 (PyStr.str_int (11 - Z.of_nat i)) = String a (String b EmptyString)
         ∧ Py.int (PyStr.str_int (11 - Z.of_nat i)) = Some (11 - Z.of_nat i)
         ∧ Py.int (PyStr.rjust 2 (PyStr.str_int (11 - Z.of_nat i)))
           = Some (11 - Z.of_nat i).
Proof.
  intros Hi. do 11 (destruct i as [|i]; [by eexists _, _|]). lia.
Qed.


(** The letter printed as the [j]-th of the 11-column header, read back. *)
Lemma letter11 (j : nat) :
  (j < 11)%nat →
  ∃ c, String.get (4 + 2 * j) Display.hex_header = Some c
       ∧ Py.ord (Py.lower_char c) - Py.ord "a" = Z.of_nat j.
Proof.
  intros Hj. do 11 (destruct j as [|j]; [by eexists|]). lia.
Qed.

(** X21. The letters of the hexagonal display are one column off. On an 11
    by 11 grid [display] raises nothing and prints thirteen lines; the
    line of row [i] begins with the number [11 - i] on two characters and
    shows the cell of column [j] at character [3 + 2 * j], while the
    [j]-th letter of the header stands at character [4 + 2 * j]; and that
    letter followed by the number of the row is read by
    [convert_to_coords] as row [i], column [j + 1], a cell of the grid for
    every letter but the last. So [A] addresses the second cell of a line,
    no letter the first, and [K] a column that is not on the grid. *)
Theorem hex_display_letters_are_shifted st :
  square 11 (BoardState.board st) →
  ∃ lines,
    Display.HexChessBoard_display st = (lines, Py.Ok tt)
    ∧ length lines = 13%nat
    ∧ ∀ i j : nat, (i < 11)%nat → (j < 11)%nat →
      ∃ line content c,
        lines !! (1 + i)%nat = Some line
        ∧ Py.getitem2 (BoardState.board st) (Z.of_nat i) (Z.of_nat j) = Some content
        ∧ String.get (3 + 2 * j) line = String.get 0 (Display.cell_text symbol content)
        ∧ String.get (4 + 2 * j) Display.hex_header = Some c
        ∧ String.substring 0 2 line = PyStr.rjust 2 (PyStr.str_int (11 - Z.of_nat i))
        ∧ (∀ g, HexChessGame.convert_to_coords
                  (String c (PyStr.str_int (11 - Z.of_nat i))) g
                = (Py.Ok (Z.of_nat i, Z.of_nat j + 1), g))
        ∧ ((j + 1 < 11)%nat
           ↔ is_Some (Py.getitem2 (BoardState.board st) (Z.of_nat i) (Z.of_nat j + 1))).
Proof.
  intros Hsq. unfold Display.HexChessBoard_display.
  destruct (print_rows_ok (Display.hex_line (BoardState.board st)) (PyStr.range 11))
    as (ls & Hls & Hlen).
  { eapply Forall_impl; [apply (range_bounds 11)|]. intros i Hi. unfold Display.hex_line.
    assert (is_Some (Display.cells_text symbol (BoardState.board st) i (PyStr.range 11)))
      as [cells ->]; [|by eexists].
    apply cells_text_is_Some.
    eapply Forall_impl; [apply (range_bounds 11)|]. intros j Hj. simpl.
    apply (square_getitem2_is_Some _ 11 _ _ Hsq). simpl in Hi, Hj. lia. }
  rewrite Hls. simpl. eexists. split; [done|]. rewrite length_range in Hlen.
  split; [by simpl; rewrite length_app, Hlen|].
  intros i j Hi Hj.
  destruct (print_rows_lookup _ _ _ i (Z.of_nat i) Hls (range_lookup 11 i Hi))
    as (line & Hline & Hlook).
  unfold Display.hex_line in Hline.
  destruct (Display.cells_text symbol (BoardState.board st) (Z.of_nat i) (PyStr.range 11))
    as [cells|] eqn:Hcells; [|done]. simpl in Hline. injection Hline as <-.
  destruct (cells_text_spaced symbol _ _ _ _ symbol_single Hcells) as (chs & -> & Hall).
  destruct (label11 i Hi) as (a & b & Hlab & Hint & _).
  pose proof (Forall2_length _ _ _ Hall) as Hchs. rewrite length_range in Hchs.
  destruct (Forall2_lookup_l _ _ _ j (Z.of_nat j) Hall (range_lookup 11 j Hj))
    as (ch & Hch & content & Hget & Htext).
  destruct (letter11 j Hj) as (c & Hc & Hcol).
  eexists _, content, c. split.
  { simpl. by rewrite lookup_app_l by (rewrite Hlen; lia). }
  split; [done|]. rewrite Hlab, Htext. split.
  { change (String.get (2 * j) (spaced chs ++ String a (String b EmptyString)) = Some ch).
    rewrite get_app_l by (rewrite length_spaced; lia).
    by rewrite get_spaced. }
  do 2 (split; [done|]). split.
  - intros g. rewrite hex_coords_unfold, Hint, Hcol. do 3 f_equal. lia.
  - rewrite (square_getitem2_is_Some _ 11 _ _ Hsq). lia.
Qed.

Lemma hex_display_letters_are_shifted_witness :
  ∃ lines,
    Display.HexChessBoard_display HexChessBoard.init = (lines, Py.Ok tt)
    ∧ length lines = 13%nat
    ∧ ∀ i j : nat, (i < 11)%nat → (j < 11)%nat →
      ∃ line content c,
        lines !! (1 + i)%nat = Some line
        ∧ Py.getitem2 (BoardState.board HexChessBoard.init) (Z.of_nat i) (Z.of_nat j)
          = Some content
        ∧ String.get (3 + 2 * j) line = String.get 0 (Display.cell_text symbol content)
        ∧ String.get (4 + 2 * j) Display.hex_header = Some c
        ∧ String.substring 0 2 line = PyStr.rjust 2 (PyStr.str_int (11 - Z.of_nat i))
        ∧ (∀ g, HexChessGame.convert_to_coords
                  (String c (PyStr.str_int (11 - Z.of_nat i))) g
                = (Py.Ok (Z.of_nat i, Z.of_nat j + 1), g))
        ∧ ((j + 1 < 11)%nat
           ↔ is_Some (Py.getitem2 (BoardState.board HexChessBoard.init)
                        (Z.of_nat i) (Z.of_nat j + 1))).
Proof.
  apply (hex_display_letters_are_shifted HexChessBoard.init).
  split; [reflexivity|repeat constructor].
Defined.

End DisplayFacts.

(** * Negative coordinates *)

Section Wrapping.

Lemma index_wrapped n i : Py.index n (wrapped n i) = Py.index n i.
Proof.
  unfold wrapped.
  destruct (Z.leb_spec (- Z.of_nat n) i), (Z.ltb_spec i 0); simpl; try done.
  unfold Py.index.
  destruct (Z.leb_spec 0 i); [lia|]. simpl.
  destruct (Z.leb_spec 0 (Z.of_nat n + i)); [|lia].
  destruct (Z.ltb_spec (Z.of_nat n + i) (Z.of_nat n)); [|lia]. simpl.
  destruct (Z.leb_spec (- Z.of_nat n) i); [|lia].
  destruct (Z.ltb_spec i 0); [|lia]. done.
Qed.

Lemma locate_wrapped {A} (g : list (list A)) n x y :
  square n g → locate g (wrapped n x) (wrapped n y) = locate g x y.
Proof.
  intros [Hn Hrows]. unfold locate. rewrite Hn, index_wrapped.
  destruct (Py.index n x) as [i|]; simpl; [|done].
  destruct (g !! i) as [row|] eqn:Hrow; simpl; [|done].
  rewrite Forall_lookup in Hrows. rewrite (Hrows _ _ Hrow), index_wrapped. done.
Qed.

Lemma getitem2_wrapped {A} (g : list (list A)) n x y :
  square n g → Py.getitem2 g (wrapped n x) (wrapped n y) = Py.getitem2 g x y.
Proof. intros. by rewrite !getitem2_locate, locate_wrapped. Qed.

Lemma setitem2_wrapped {A} (g : list (list A)) n x y v :
  square n g → Py.setitem2 g (wrapped n x) (wrapped n y) v = Py.setitem2 g x y v.
Proof. intros. by rewrite !setitem2_locate, locate_wrapped. Qed.

Lemma chess_move_piece_wrapped st n x1 y1 x2 y2 :
  square n (BoardState.board st) →
  ChessBoard.move_piece (x1, y1) (x2, y2) st
  = ChessBoard.move_piece (wrapped n x1, wrapped n y1) (wrapped n x2, wrapped n y2) st.
Proof.
  intros Hsq.
  rewrite !chess_move_piece_unfold, (getitem2_wrapped _ n) by done.
  destruct (Py.getitem2 (BoardState.board st) x1 y1) as [[p|]|]; [|done|done].
  cbv zeta. rewrite (setitem2_wrapped _ n) by done.
  destruct (Py.setitem2 (BoardState.board st) x2 y2 (Some p)) as [b|] eqn:Hb; [|done].
  rewrite (setitem2_wrapped b n); [done|]. by eapply setitem2_square.
Qed.

(** X22. A negative coordinate counts from the opposite edge. On an [n]
    by [n] grid, [move_piece] of the chess and of the hexagonal board does
    with coordinates from [-n] to [-1] exactly what it does with the same
    coordinates increased by [n]: the same result, board and history. *)
Theorem chess_negative_coordinates_wrap st n x1 y1 x2 y2 :
  square n (BoardState.board st) →
  ChessBoard.move_piece (x1, y1) (x2, y2) st
  = ChessBoard.move_piece (wrapped n x1, wrapped n y1) (wrapped n x2, wrapped n y2) st
  ∧ HexChessBoard.move_piece (x1, y1) (x2, y2) st
    = HexChessBoard.move_piece (wrapped n x1, wrapped n y1) (wrapped n x2, wrapped n y2) st.
Proof.
  intros Hsq. rewrite hex_move_piece_eq.
  split; by apply chess_move_piece_wrapped.
Qed.

Lemma chess_negative_coordinates_wrap_witness :
  ChessBoard.move_piece (-2, 4) (4, -4) ChessBoard.init
  = ChessBoard.move_piece (6, 4) (4, 4) ChessBoard.init
  ∧ HexChessBoard.move_piece (-2, 4) (4, -4) ChessBoard.init
    = HexChessBoard.move_piece (6, 4) (4, 4) ChessBoard.init.
Proof.
  apply (chess_negative_coordinates_wrap ChessBoard.init 8 (-2) 4 4 (-4)).
  split; [reflexivity|repeat constructor].
Defined.

Lemma length_lower s : String.length (Py.lower s) = String.length s.
Proof. induction s; simpl; congruence. Qed.

(** A line that is not four characters long is not [undo]. *)
Lemma not_undo s :
  String.length s ≠ 4%nat → String.eqb (Py.lower s) "undo" = false.
Proof.
  intros Hlen. destruct (String.eqb_spec (Py.lower s) "undo") as [E|]; [|done].
  apply (f_equal String.length) in E. rewrite length_lower in E. done.
Qed.

(** A pass of the chess session depends on the start line only through
    the coordinates read from it and the move they start. *)
Lemma chess_play_step_start start start' end_ g s s' :
  String.eqb (Py.lower start) "undo" = String.eqb (Py.lower start') "undo" →
  ChessGame.coords start g = (Py.Ok s, g) →
  ChessGame.coords start' g = (Py.Ok s', g) →
  (∀ e, ChessBoard.move_piece s e (ChessGame.board g)
        = ChessBoard.move_piece s' e (ChessGame.board g)) →
  ChessGame.play_step start end_ g = ChessGame.play_step start' end_ g.
Proof.
  intros Hu Hs Hs' Hmove. unfold ChessGame.play_step. rewrite Hu.
  destruct (_ || _); [done|].
  unfold Py.try_except, Py.bind. rewrite Hs, Hs'.
  destruct (chess_coords_cases end_ g) as [[_ [e ->]]|[_ [e ->]]]; [|done].
  unfold ChessGame.on_board. by rewrite Hmove.
Qed.

Lemma hex_play_step_start start start' end_ g s s' :
  String.eqb (Py.lower start) "undo" = String.eqb (Py.lower start') "undo" →
  HexChessGame.convert_to_coords start g = (Py.Ok s, g) →
  HexChessGame.convert_to_coords start' g = (Py.Ok s', g) →
  (∀ e, HexChessBoard.move_piece s e (HexChessGame.board g)
        = HexChessBoard.move_piece s' e (HexChessGame.board g)) →
  HexChessGame.play_step start end_ g = HexChessGame.play_step start' end_ g.
Proof.
  intros Hu Hs Hs' Hmove. unfold HexChessGame.play_step. rewrite Hu.
  unfold Py.try_except, Py.bind, Py.get.
  destruct (Py.orRaise _ _ g) as [[current_player|?] g0] eqn:Hcur; [|done].
  assert (g0 = g) as ->.
  { unfold Py.orRaise, Py.ret, Py.raise in Hcur. destruct (Py.getitem _ _); by injection Hcur. }
  destruct (_ || _); [done|]. rewrite Hs, Hs'.
  assert (∃ r, HexChessGame.convert_to_coords end_ g = (r, g)) as [[e|?] ->]; [|idtac|done].
  { rewrite hex_coords_unfold. destruct end_ as [|? rest]; [by eexists|].
    destruct (Py.int rest); by eexists. }
  unfold HexChessGame.on_board. by rewrite Hmove.
Qed.

(** X23. A row number one past the top of the board addresses the bottom
    row. In a chess session on an 8 by 8 grid a start typed with the digit
    9 gives the same pass as the same letter with the digit 1, whatever
    the end; in a hexagonal session on an 11 by 11 grid the number 12
    gives the same pass as the number 1. *)
Theorem row_past_the_top_is_the_bottom_row c :
  (∀ g end_,
     square 8 (BoardState.board (ChessGame.board g)) →
     ChessGame.play_step (String c "9") end_ g = ChessGame.play_step (String c "1") end_ g)
  ∧ (∀ g end_,
     square 11 (BoardState.board (HexChessGame.board g)) →
     HexChessGame.play_step (String c "12") end_ g
     = HexChessGame.play_step (String c "1") end_ g).
Proof.
  split; intros g end_ Hsq.
  - apply (chess_play_step_start _ _ _ _ (-1, Py.ord (Py.lower_char c) - Py.ord "a")
                                         (7, Py.ord (Py.lower_char c) - Py.ord "a")).
    + by rewrite !not_undo by (simpl; lia).
    + by rewrite chess_coords_unfold.
    + by rewrite chess_coords_unfold.
    + intros [x2 y2].
      rewrite (chess_move_piece_wrapped (ChessGame.board g) 8 (-1)
                 (Py.ord (Py.lower_char c) - Py.ord "a") x2 y2 Hsq).
      by rewrite (chess_move_piece_wrapped (ChessGame.board g) 8 7
                    (Py.ord (Py.lower_char c) - Py.ord "a") x2 y2 Hsq).
  - apply (hex_play_step_start _ _ _ _ (-1, Py.ord (Py.lower_char c) - Py.ord "a" + 1)
                                       (10, Py.ord (Py.lower_char c) - Py.ord "a" + 1)).
    + by rewrite !not_undo by (simpl; lia).
    + by rewrite hex_coords_unfold.
    + by rewrite hex_coords_unfold.
    + intros [x2 y2].
      rewrite hex_move_piece_eq.
      rewrite (chess_move_piece_wrapped (HexChessGame.board g) 11 (-1)
                 (Py.ord (Py.lower_char c) - Py.ord "a" + 1) x2 y2 Hsq).
      by rewrite (chess_move_piece_wrapped (HexChessGame.board g) 11 10
                    (Py.ord (Py.lower_char c) - Py.ord "a" + 1) x2 y2 Hsq).
Qed.

Lemma row_past_the_top_is_the_bottom_row_witness :
  ChessGame.play_step "E9" "E4" ChessGame.init
  = ChessGame.play_step "E1" "E4" ChessGame.init
  ∧ HexChessGame.play_step "E12" "E4" HexChessGame.init
    = HexChessGame.play_step "E1" "E4" HexChessGame.init.
Proof.
  split.
  - apply (proj1 (row_past_the_top_is_the_bottom_row "E") ChessGame.init "E4"%string).
    split; [reflexivity|repeat constructor].
  - apply (proj2 (row_past_the_top_is_the_bottom_row "E") HexChessGame.init "E4"%string).
    split; [reflexivity|repeat constructor].
Defined.

End Wrapping.

(** * The loops of the sessions *)

Section Loops.

(** The board a pass of the chess session leaves is the one it found, or
    what [undo_move] or one [move_piece] call left. *)
Lemma chess_play_step_board start end_ g :
  let b' := ChessGame.board (ChessGame.play_step start end_ g).2 in
  b' = ChessGame.board g
  ∨ b' = (ChessBoard.undo_move (ChessGame.board g)).2
  ∨ ∃ s e, b' = (ChessBoard.move_piece s e (ChessGame.board g)).2.
Proof.
  unfold ChessGame.play_step. destruct (_ || _).
  - right. left. unfold Py.bind, ChessGame.on_board.
    by destruct (ChessBoard.undo_move (ChessGame.board g)) as [[?|?] ?].
  - unfold Py.try_except, Py.bind.
    destruct (chess_coords_cases start g) as [[_ [s ->]]|[_ [x ->]]]; [|by left].
    destruct (chess_coords_cases end_ g) as [[_ [e ->]]|[_ [x ->]]]; [|by left].
    right. right. exists s, e. unfold ChessGame.on_board.
    by destruct (ChessBoard.move_piece s e (ChessGame.board g)) as [[?|?] ?].
Qed.


Lemma hex_coords_state s g : ∃ r, HexChessGame.convert_to_coords s g = (r, g).
Proof.
  rewrite hex_coords_unfold. destruct s as [|? rest]; [by eexists|].
  destruct (Py.int rest); by eexists.
Qed.

Lemma checkers_coords_state s g : ∃ r, CheckersGame.convert_to_coords s g = (r, g).
Proof.
  destruct (checkers_coords_cases s g) as [[_ [xy ->]]|[_ [e ->]]]; by eexists.
Qed.

Lemma hex_play_step_board start end_ g :
  let b' := HexChessGame.board (HexChessGame.play_step start end_ g).2 in
  b' = HexChessGame.board g
  ∨ b' = (ChessBoard.undo_move (HexChessGame.board g)).2
  ∨ ∃ s e, b' = (ChessBoard.move_piece s e (HexChessGame.board g)).2.
Proof.
  unfold HexChessGame.play_step, Py.try_except, Py.bind, Py.get.
  destruct (Py.orRaise _ _ g) as [[current_player|?] g0] eqn:Hcur.
  2:{ left. unfold Py.orRaise, Py.ret, Py.raise in Hcur.
      destruct (Py.getitem _ _); by injection Hcur as _ <-. }
  assert (g0 = g) as ->.
  { unfold Py.orRaise, Py.ret, Py.raise in Hcur. destruct (Py.getitem _ _); by injection Hcur. }
  destruct (_ || _).
  - right. left. unfold HexChessGame.on_board. rewrite hex_undo_move_eq.
    by destruct (ChessBoard.undo_move (HexChessGame.board g)) as [[?|?] ?].
  - destruct (hex_coords_state start g) as [[s|?] ->]; [|by left].
    destruct (hex_coords_state end_ g) as [[e|?] ->]; [|by left].
    right. right. exists s, e. unfold HexChessGame.on_board. rewrite hex_move_piece_eq.
    by destruct (ChessBoard.move_piece s e (HexChessGame.board g)) as [[?|?] ?].
Qed.

Lemma checkers_play_step_board start end_ g :
  let b' := CheckersGame.board (CheckersGame.play_step start end_ g).2 in
  b' = CheckersGame.board g
  ∨ b' = (CheckersBoard.undo_move (CheckersGame.board g)).2
  ∨ ∃ s e, b' = (CheckersBoard.move_piece s e (CheckersGame.board g)).2.
Proof.
  unfold CheckersGame.play_step, Py.try_except, Py.bind, Py.get.
  destruct (Py.orRaise _ _ g) as [[current_player|?] g0] eqn:Hcur.
  2:{ left. unfold Py.orRaise, Py.ret, Py.raise in Hcur.
      destruct (Py.getitem _ _); by injection Hcur as _ <-. }
  assert (g0 = g) as ->.
  { unfold Py.orRaise, Py.ret, Py.raise in Hcur. destruct (Py.getitem _ _); by injection Hcur. }
  destruct (_ || _).
  - right. left. unfold CheckersGame.on_board.
    by destruct (CheckersBoard.undo_move (CheckersGame.board g)) as [[?|?] ?].
  - destruct (checkers_coords_state start g) as [[s|?] ->]; [|by left].
    destruct (checkers_coords_state end_ g) as [[e|?] ->]; [|by left].
    right. right. exists s, e. unfold CheckersGame.on_board.
    by destruct (CheckersBoard.move_piece s e (CheckersGame.board g)) as [[?|?] ?].
Qed.

(** On an [n] by [n] grid the loops of [display] over [range(n)] read
    every cell they ask for: all [n] lines are printed. *)
Lemma rows_printed {P} (str : P → string) (g : Grid P) (n : nat)
    (line : Z → string → string) :
  square n g →
  ∃ ls, Display.print_rows
          (λ i, cells ← Display.cells_text str g i (PyStr.range n); Some (line i cells))
          (PyStr.range n) = (ls, Py.Ok tt)
        ∧ length ls = n.
Proof.
  intros Hsq.
  destruct (print_rows_ok
              (λ i, cells ← Display.cells_text str g i (PyStr.range n); Some (line i cells))
              (PyStr.range n)) as (ls & Hls & Hlen).
  { eapply Forall_impl; [apply (range_bounds n)|]. intros i Hi. simpl in Hi.
    assert (is_Some (Display.cells_text str g i (PyStr.range n))) as [cells ->];
      [|by eexists].
    apply cells_text_is_Some.
    eapply Forall_impl; [apply (range_bounds n)|]. intros j Hj. simpl in Hj.
    apply (square_getitem2_is_Some _ n _ _ Hsq). lia. }
  exists ls. by rewrite length_range in Hlen.
Qed.

Lemma chess_display_ok st :
  square 8 (BoardState.board st) → (Display.ChessBoard_display st).2 = Py.Ok tt.
Proof.
  intros Hsq. unfold Display.ChessBoard_display.
  destruct (rows_printed symbol (BoardState.board st) 8
              (λ i cells, (PyStr.str_int (8 - i) ++ " " ++ cells ++ PyStr.str_int (8 - i))%string)
              Hsq) as (ls & Hls & _).
  unfold Display.chess_line. by rewrite Hls.
Qed.

Lemma hex_display_ok st :
  square 11 (BoardState.board st) → (Display.HexChessBoard_display st).2 = Py.Ok tt.
Proof.
  intros Hsq. unfold Display.HexChessBoard_display.
  destruct (rows_printed symbol (BoardState.board st) 11
              (λ i cells, (PyStr.rjust 2 (PyStr.str_int (11 - i)) ++ " " ++ cells
                           ++ PyStr.rjust 2 (PyStr.str_int (11 - i)))%string)
              Hsq) as (ls & Hls & _).
  unfold Display.hex_line. by rewrite Hls.
Qed.

Lemma checkers_display_ok w :
  square 8 (CheckersBoard.board w) → (Display.CheckersBoard_display w).2 = Py.Ok tt.
Proof.
  intros Hsq. unfold Display.CheckersBoard_display.
  destruct (rows_printed (λ a, CheckersPiece.str (Store.objs (CheckersBoard.heap w) a))
              (CheckersBoard.board w) 8
              (λ i cells, (PyStr.str_int (8 - i) ++ " " ++ cells ++ PyStr.str_int (8 - i))%string)
              Hsq) as (ls & Hls & _).
  unfold Display.checkers_line. by rewrite Hls.
Qed.

Lemma lines_ind (P : list string → Prop) :
  P [] → (∀ x, P [x]) → (∀ x y l, P l → P (x :: y :: l)) → ∀ l, P l.
Proof.
  intros H0 H1 H2 l. cut (P l ∧ ∀ x, P (x :: l)); [by intros [? _]|].
  induction l as [|y l [IH1 IH2]]; [by split|]. split; [apply IH2|].
  intros x. by apply H2.
Qed.

Lemma chess_shown g :
  square 8 (BoardState.board (ChessGame.board g)) →
  ChessGame.on_board (Loop.printing Display.ChessBoard_display) g = (Py.Ok tt, g).
Proof.
  intros Hsq. unfold ChessGame.on_board, Loop.printing.
  rewrite (chess_display_ok _ Hsq). by destruct g.
Qed.

Lemma hex_shown g :
  square 11 (BoardState.board (HexChessGame.board g)) →
  HexChessGame.on_board (Loop.printing Display.HexChessBoard_display) g = (Py.Ok tt, g).
Proof.
  intros Hsq. unfold HexChessGame.on_board, Loop.printing.
  rewrite (hex_display_ok _ Hsq). by destruct g.
Qed.

Lemma checkers_shown g :
  square 8 (CheckersBoard.board (CheckersGame.board g)) →
  CheckersGame.on_board (Loop.printing Display.CheckersBoard_display) g = (Py.Ok tt, g).
Proof.
  intros Hsq. unfold CheckersGame.on_board, Loop.printing.
  rewrite (checkers_display_ok _ Hsq). by destruct g.
Qed.

Lemma chess_play_step_shaped start end_ g :
  chess_shaped 8 (ChessGame.board g) →
  chess_shaped 8 (ChessGame.board (ChessGame.play_step start end_ g).2).
Proof.
  intros Hsh. destruct (chess_play_step_board start end_ g) as [->|[->|(s & e & ->)]];
    [done|by apply chess_undo_move_shaped|by apply chess_move_piece_shaped].
Qed.

Lemma hex_play_step_shaped start end_ g :
  chess_shaped 11 (HexChessGame.board g) →
  chess_shaped 11 (HexChessGame.board (HexChessGame.play_step start end_ g).2).
Proof.
  intros Hsh. destruct (hex_play_step_board start end_ g) as [->|[->|(s & e & ->)]];
    [done|by apply chess_undo_move_shaped|by apply chess_move_piece_shaped].
Qed.

Lemma checkers_play_step_shaped start end_ g :
  checkers_shaped 8 (CheckersGame.board g) →
  checkers_shaped 8 (CheckersGame.board (CheckersGame.play_step start end_ g).2).
Proof.
  intros Hsh. destruct (checkers_play_step_board start end_ g) as [->|[->|(s & e & ->)]];
    [done|by apply checkers_undo_move_shaped|by apply checkers_move_piece_shaped].
Qed.

(** X24. The loop of [play] is left only at the end of the input. From a
    chess session on an 8 by 8 board, a hexagonal one on an 11 by 11 board
    or a checkers one on an 8 by 8 board (grid and snapshots alike; for the
    last two with a [turn_index] that names one of the two players), and
    whatever the lines on the standard input: no display and no pass
    raises, every two lines are played as one pass, and the loop ends
    with the [EOFError] of the [input] that finds no line, in a session of
    the same kind. *)
Theorem play_stops_only_at_end_of_input :
  (∀ lines g,
     chess_shaped 8 (ChessGame.board g) →
     let g' := (ChessGame.play (Loop.pairs lines) g).2 in
     Loop.chess lines g = (Loop.EOFError, g')
     ∧ chess_shaped 8 (ChessGame.board g'))
  ∧ (∀ lines g,
     chess_shaped 11 (HexChessGame.board g) → hex_ready g →
     let g' := (HexChessGame.play (Loop.pairs lines) g).2 in
     Loop.hex lines g = (Loop.EOFError, g')
     ∧ chess_shaped 11 (HexChessGame.board g') ∧ hex_ready g')
  ∧ (∀ lines g,
     checkers_shaped 8 (CheckersGame.board g) → checkers_ready g →
     let g' := (CheckersGame.play (Loop.pairs lines) g).2 in
     Loop.checkers lines g = (Loop.EOFError, g')
     ∧ checkers_shaped 8 (CheckersGame.board g') ∧ checkers_ready g').
Proof.
  split; [|split].
  - induction lines as [|x|start end_ rest IH] using lines_ind; intros g Hsh.
    + cbn [Loop.chess Loop.pairs ChessGame.play].
      by rewrite (chess_shown g (proj1 Hsh)).
    + cbn [Loop.chess Loop.pairs ChessGame.play].
      by rewrite (chess_shown g (proj1 Hsh)).
    + pose proof (chess_play_step_shaped start end_ g Hsh) as Hsh1.
      destruct (chess_play_step_returns start end_ g) as [g1 E]. rewrite E in Hsh1.
      cbn [Loop.chess Loop.pairs ChessGame.play].
      rewrite (chess_shown g (proj1 Hsh)). unfold Py.bind. rewrite E.
      by apply IH.
  - induction lines as [|x|start end_ rest IH] using lines_ind; intros g Hsh Hg.
    + destruct (getitem_ready _ _ (proj1 Hg) (proj2 Hg)) as [c Hc].
      cbn [Loop.hex Loop.pairs HexChessGame.play].
      by rewrite (hex_shown g (proj1 Hsh)), Hc.
    + destruct (getitem_ready _ _ (proj1 Hg) (proj2 Hg)) as [c Hc].
      cbn [Loop.hex Loop.pairs HexChessGame.play].
      by rewrite (hex_shown g (proj1 Hsh)), Hc.
    + destruct (getitem_ready _ _ (proj1 Hg) (proj2 Hg)) as [c Hc].
      pose proof (hex_play_step_shaped start end_ g Hsh) as Hsh1.
      destruct (hex_play_step_returns start end_ g Hg) as (g1 & E & Hg1).
      rewrite E in Hsh1.
      cbn [Loop.hex Loop.pairs HexChessGame.play].
      rewrite (hex_shown g (proj1 Hsh)), Hc. unfold Py.bind. rewrite E.
      by apply IH.
  - induction lines as [|x|start end_ rest IH] using lines_ind; intros g Hsh Hg.
    + destruct (getitem_ready _ _ (proj1 Hg) (proj2 Hg)) as [c Hc].
      cbn [Loop.checkers Loop.pairs CheckersGame.play].
      by rewrite (checkers_shown g (proj1 Hsh)), Hc.
    + destruct (getitem_ready _ _ (proj1 Hg) (proj2 Hg)) as [c Hc].
      cbn [Loop.checkers Loop.pairs CheckersGame.play].
      by rewrite (checkers_shown g (proj1 Hsh)), Hc.
    + destruct (getitem_ready _ _ (proj1 Hg) (proj2 Hg)) as [c Hc].
      pose proof (checkers_play_step_shaped start end_ g Hsh) as Hsh1.
      destruct (checkers_play_step_returns start end_ g Hg) as (g1 & E & Hg1).
      rewrite E in Hsh1.
      cbn [Loop.checkers Loop.pairs CheckersGame.play].
      rewrite (checkers_shown g (proj1 Hsh)), Hc. unfold Py.bind. rewrite E.
      by apply IH.
Qed.

Lemma play_stops_only_at_end_of_input_witness :
  (Loop.chess ["E2"; "E4"; "E9"; "x"; "undo"]%string ChessGame.init
   = (Loop.EOFError,
      (ChessGame.play (Loop.pairs ["E2"; "E4"; "E9"; "x"; "undo"]%string) ChessGame.init).2)
   ∧ chess_shaped 8
       (ChessGame.board
          (ChessGame.play (Loop.pairs ["E2"; "E4"; "E9"; "x"; "undo"]%string)
             ChessGame.init).2))
  ∧ (Loop.hex ["E5"; "Z99"; ""; "undo"]%string HexChessGame.init
     = (Loop.EOFError,
        (HexChessGame.play (Loop.pairs ["E5"; "Z99"; ""; "undo"]%string) HexChessGame.init).2)
     ∧ chess_shaped 11
         (HexChessGame.board
            (HexChessGame.play (Loop.pairs ["E5"; "Z99"; ""; "undo"]%string)
               HexChessGame.init).2)
     ∧ hex_ready
         (HexChessGame.play (Loop.pairs ["E5"; "Z99"; ""; "undo"]%string)
            HexChessGame.init).2)
  ∧ (Loop.checkers ["C3"; "D4"; "UNDO"; ""; "9z"]%string CheckersGame.init
     = (Loop.EOFError, (CheckersGame.play (Loop.pairs ["C3"; "D4"; "UNDO"; ""; "9z"]%string) CheckersGame.init).2)
     ∧ checkers_shaped 8
         (CheckersGame.board (CheckersGame.play (Loop.pairs ["C3"; "D4"; "UNDO"; ""; "9z"]%string) CheckersGame.init).2)
     ∧ checkers_ready (CheckersGame.play (Loop.pairs ["C3"; "D4"; "UNDO"; ""; "9z"]%string) CheckersGame.init).2).
Proof.
  destruct play_stops_only_at_end_of_input as (Hc & Hh & Hk). split; [|split].
  - apply Hc. apply (proj1 chess_init_shaped).
  - apply Hh; [apply (proj2 chess_init_shaped)|]. split; [reflexivity|]. simpl. lia.
  - apply Hk; [apply checkers_init_shaped|]. split; [reflexivity|]. simpl. lia.
Defined.

End Loops.
